(** * The download pipeline of tgbot/handlers/download.py

    A shallow embedding of [DownloadTask] ([download_document], [long_task],
    [respond_not_found], [send_file]) and of [DownloadHandler.handler].

    The coroutines talk to collaborators that live outside the file (the
    database, the IPFS client, the Telegram client, the progress bar, the user
    manager).  Every call to a collaborator is recorded as an [event] and
    answered by an environment [Env]: a record that fixes, for every call the
    program can make, what the collaborator answers (a value or a raised
    exception).  Since the program is deterministic, quantifying over all
    environments covers every behaviour of the collaborators.

    A coroutine is a function from the store (the [progress_bar_download]
    object, once bound) to the events it performed, the store it leaves and
    its outcome. *)

From Stdlib Require Import List String Bool Arith Lia.
From Stdlib Require Import Strings.Byte.
From Stdlib Require Import Strings.Ascii.
Import ListNotations.
Open Scope string_scope.
Open Scope list_scope.

(** ** Exceptions *)

(** The exception classes the file names, and [OtherError] for every other
    class.  [RpcTimeoutError] is [rpcerrorlist.TimeoutError]. *)
Inductive exn : Type :=
| TemporaryError
| ServiceUnavailableError
| DownloadError
| ProgressBarLostMessageError
| CancelledError
| RpcTimeoutError
| ValueError
| AttributeError
| UnboundLocalError
| OtherError (tag : nat).

Definition exn_eqb (a b : exn) : bool :=
  match a, b with
  | TemporaryError, TemporaryError => true
  | ServiceUnavailableError, ServiceUnavailableError => true
  | DownloadError, DownloadError => true
  | ProgressBarLostMessageError, ProgressBarLostMessageError => true
  | CancelledError, CancelledError => true
  | RpcTimeoutError, RpcTimeoutError => true
  | ValueError, ValueError => true
  | AttributeError, AttributeError => true
  | UnboundLocalError, UnboundLocalError => true
  | OtherError n, OtherError m => Nat.eqb n m
  | _, _ => false
  end.

(** [subclass c d]: class [c] is [d] or derives from it.  In aiobaseclient
    [ServiceUnavailableError] derives from [TemporaryError].  [DownloadError]
    (tgbot.app.exceptions) and [ProgressBarLostMessageError]
    (tgbot.views.telegram.progress_bar) are declared outside this file; they
    and the remaining classes are taken as unrelated to each other. *)
Definition subclass (c d : exn) : bool :=
  exn_eqb c d ||
  match c, d with
  | ServiceUnavailableError, TemporaryError => true
  | _, _ => false
  end.

(** [isinstance e classes], as in [except (A, B):] and
    [retry_if_exception_type((A, B))]. *)
Definition isinstance (e : exn) (classes : list exn) : bool :=
  existsb (subclass e) classes.

Inductive result (A : Type) : Type :=
| Ok (a : A)
| Raise (e : exn).
Arguments Ok {A} a.
Arguments Raise {A} e.

(** ** Data *)

Definition bytes := list byte.
Definition file_id := string.
Definition message_ref := nat.
(** A reading of [time.time()]; the task only stores and copies readings. *)
Definition timestamp := nat.

(** The message returned by the client's [send_file]; [uploaded_message.file.id]. *)
Record Message : Type := { msg_file_id : file_id }.

Record DocumentHolder : Type := {
  cid : string;
  filesize : option nat;
  get_filename : string
}.

(** Texts shown to the user: [t(key, language)] and the f-string header. *)
Inductive text : Type :=
| t (key : string)
| download_header (filename : string).

Definition text_eqb (a b : text) : bool :=
  match a, b with
  | t k, t k' => String.eqb k k'
  | download_header f, download_header f' => String.eqb f f'
  | _, _ => false
  end.

(** The keyword arguments of [ProgressBar(...)] that differ between the two
    bars, and the two attributes the task reads back ([message], [last_call]).
    [source = None] and [message = None] stand for an argument that is not
    passed. *)
Record ProgressBar : Type := {
  message : option message_ref;
  banner : text;
  header : text;
  tail_text : text;
  source : option string;
  throttle_secs : nat;
  last_call : timestamp
}.

(** What a call of [show_banner] or [callback] leaves in the bar. *)
Record BarState : Type := {
  bs_message : option message_ref;
  bs_last_call : timestamp
}.

Definition set_bar_state (pb : ProgressBar) (st : BarState) : ProgressBar :=
  {| message := bs_message st;
     banner := banner pb;
     header := header pb;
     tail_text := tail_text pb;
     source := source pb;
     throttle_secs := throttle_secs pb;
     last_call := bs_last_call st |}.

(** The [file] argument of [send_file]: a cached Telegram file id or the
    downloaded bytes. *)
Inductive payload : Type :=
| CachedFile (id : file_id)
| Content (b : bytes).

(** ** Events *)

Inductive event : Type :=
| Statbox (action : string)
| DebugLog (action : string)
| ErrorLog (e : exn)
| GetCachedFile (r : result (option file_id))
| GetCachedFileId (r : result (option file_id))
| NewProgressBar (pb : ProgressBar)
| ShowBanner (r : result unit)
| GetIter (c : string)
| Callback (len : nat) (size : option nat) (r : result unit)
| Sleep (secs : nat)
| SendFile (file : payload) (progress_callback : option ProgressBar)
           (r : result Message)
| PutCachedFile (id : file_id) (r : result unit)
| SendMessage (txt : text) (r : result unit)
| ExternalCancel
| DeleteMessages (messages : list message_ref) (r : result unit)
| HasTask (b : bool)
| HitLimits (b : bool)
| Answer (txt : text) (r : result unit)
| RemoveButton (r : result unit)
| Schedule
| Register
| Deregister.

(** ** The environment *)

(** One execution of the body of [download_document]: what [show_banner]
    does, the chunks [get_iter] yields with what [callback] does on each, and
    how the iteration ends ([None]: exhausted, [Some e]: raises [e]). *)
Record Attempt : Type := {
  show_banner : BarState * result unit;
  chunks : list (bytes * (BarState * result unit));
  stream_end : option exn
}.

Record Env : Type := {
  (** whether [get_telegram_client(bot_name)] returns a client *)
  telegram_client : bool;
  db_get_cached_file : result (option file_id);
  client_get_cached_file_id : result (option file_id);
  (** the n-th execution of [download_document], n = 1, 2, 3 *)
  ipfs_get_iter : nat -> Attempt;
  (** the n-th call of the client's [send_file] for a given file *)
  client_send_file : payload -> nat -> result Message;
  db_put_cached_file : result unit;
  client_send_message : text -> result unit;
  client_delete_messages : result unit;
  time_time : timestamp
}.

(** ** Coroutines *)

Definition Store := option ProgressBar.

Definition M (A : Type) : Type := Store -> list event * Store * result A.

Definition trace {A} (x : list event * Store * result A) : list event :=
  fst (fst x).
Definition store {A} (x : list event * Store * result A) : Store :=
  snd (fst x).
Definition outcome {A} (x : list event * Store * result A) : result A :=
  snd x.

Definition ret {A} (a : A) : M A := fun s => ([], s, Ok a).

Definition raise {A} (e : exn) : M A := fun s => ([], s, Raise e).

Definition bind {A B} (m : M A) (f : A -> M B) : M B :=
  fun s =>
    match m s with
    | (tr, s1, Ok a) =>
        match f a s1 with
        | (tr2, s2, r) => (tr ++ tr2, s2, r)
        end
    | (tr, s1, Raise e) => (tr, s1, Raise e)
    end.

Notation "x <- m ;; k" := (bind m (fun x => k))
  (at level 61, m at next level, right associativity).
Notation "m ;; k" := (bind m (fun _ => k))
  (at level 61, right associativity).

(** An action that cannot fail. *)
Definition emit (ev : event) : M unit := fun s => ([ev], s, Ok tt).

(** A call to a collaborator, answered by the environment. *)
Definition call {A} (ev : event) (r : result A) : M A := fun s => ([ev], s, r).

(** [try: m  except: handler]; [handler e = None] when no clause matches. *)
Definition try_except {A} (m : M A) (handler : exn -> option (M A)) : M A :=
  fun s =>
    match m s with
    | (tr, s1, Ok a) => (tr, s1, Ok a)
    | (tr, s1, Raise e) =>
        match handler e with
        | Some h =>
            match h s1 with
            | (tr2, s2, r) => (tr ++ tr2, s2, r)
            end
        | None => (tr, s1, Raise e)
        end
    end.

(** [try: m  finally: fin]; an exception of [fin] replaces the outcome. *)
Definition try_finally {A} (m : M A) (fin : M unit) : M A :=
  fun s =>
    match m s with
    | (tr, s1, r) =>
        match fin s1 with
        | (tr2, s2, Ok _) => (tr ++ tr2, s2, r)
        | (tr2, s2, Raise e) => (tr ++ tr2, s2, Raise e)
        end
    end.

(** Modelled from the spec: [safe_execution] (library.telegram.utils) is not
    among the sources.  The spec has the failures of the guarded calls
    "swallowed and logged", the failure notification sent when an error
    reaches the orchestrator, and the notification's own failure swallowed and
    logged too.  So: the block runs; if it raises, the error is logged (when
    logging is enabled), [on_fail] is awaited when given, an error of
    [on_fail] is logged, and execution continues after the block.  The
    result is [Some a] when the block completed with [a] and [None] when an
    error was swallowed.  The spec does not say what the guard itself does
    with a cancellation that reaches it; here every exception is treated
    alike.  Where a property rests on the guard of the cached delivery
    swallowing an error, it is stated for errors other than
    [CancelledError]. *)
Definition safe_execution {A} (is_logging_enabled : bool)
    (on_fail : option (M unit)) (block : M A) : M (option A) :=
  fun s =>
    let log e := if is_logging_enabled then [ErrorLog e] else [] in
    match block s with
    | (tr, s1, Ok a) => (tr, s1, Ok (Some a))
    | (tr, s1, Raise e) =>
        match on_fail with
        | None => (tr ++ log e, s1, Ok None)
        | Some f =>
            match f s1 with
            | (tr2, s2, Ok _) => (tr ++ log e ++ tr2, s2, Ok None)
            | (tr2, s2, Raise e2) => (tr ++ log e ++ tr2 ++ log e2, s2, Ok None)
            end
        end
    end.

(** tenacity's [@retry(stop=stop_after_attempt(n), wait=wait_fixed(w),
    retry=retry_if_exception_type(classes), reraise=True)]: after a failed
    attempt the exception is re-raised as it is when it is not of a retried
    class or when the attempt was the n-th; otherwise the decorator sleeps
    [w] seconds and calls the function again. *)
Fixpoint retrying {A} (classes : list exn) (wait : nat) (fn : nat -> M A)
    (remaining : nat) (attempt_number : nat) : M A :=
  fun s =>
    match fn attempt_number s with
    | (tr, s1, Ok a) => (tr, s1, Ok a)
    | (tr, s1, Raise e) =>
        if isinstance e classes then
          match remaining with
          | O => (tr, s1, Raise e)
          | S k =>
              match (emit (Sleep wait) ;;
                     retrying classes wait fn k (S attempt_number)) s1 with
              | (tr2, s2, r) => (tr ++ tr2, s2, r)
              end
          end
        else (tr, s1, Raise e)
    end.

Definition retry {A} (stop_after_attempt : nat) (wait : nat)
    (classes : list exn) (fn : nat -> M A) : M A :=
  retrying classes wait fn (stop_after_attempt - 1) 1.

(** ** DownloadTask *)

(** A method call on the bar: the environment says what it leaves in the bar
    and whether it raises. *)
Definition bar_call (ev : result unit -> event) (o : BarState * result unit)
  : M unit :=
  fun s =>
    match s with
    | Some pb => ([ev (snd o)], Some (set_bar_state pb (fst o)), snd o)
    | None => ([], None, Raise UnboundLocalError)
    end.

(** [async for chunk in get_iter(cid)]: extend [collected], then the
    callback. *)
Fixpoint get_iter_loop (cs : list (bytes * (BarState * result unit)))
    (finish : option exn) (size : option nat) (collected : bytes) : M bytes :=
  match cs with
  | [] =>
      match finish with
      | None => ret collected
      | Some e => raise e
      end
  | (chunk, o) :: rest =>
      bar_call (Callback (List.length chunk) size) o ;;
      get_iter_loop rest finish size (collected ++ chunk)%list
  end.

(** The undecorated body of [download_document], at its n-th execution. *)
Definition download_document_body (env : Env) (document_holder : DocumentHolder)
    (n : nat) : M bytes :=
  emit (Statbox "do_request") ;;
  bar_call ShowBanner (show_banner (ipfs_get_iter env n)) ;;
  emit (GetIter (cid document_holder)) ;;
  get_iter_loop (chunks (ipfs_get_iter env n)) (stream_end (ipfs_get_iter env n))
                (filesize document_holder) [].

Definition download_document (env : Env) (document_holder : DocumentHolder)
  : M bytes :=
  retry 3 5 [TemporaryError] (download_document_body env document_holder).

Definition send_file_body (env : Env) (file : payload)
    (progress_callback : option ProgressBar) (n : nat) : M (option Message) :=
  if telegram_client env then
    msg <- call (SendFile file progress_callback (client_send_file env file n))
                (client_send_file env file n) ;;
    emit (Statbox "sent") ;;
    ret (Some msg)
  else ret None.

Definition send_file (env : Env) (file : payload)
    (progress_callback : option ProgressBar) : M (option Message) :=
  retry 3 0 [RpcTimeoutError; ValueError]
        (send_file_body env file progress_callback).

Definition respond_not_found (env : Env) : M unit :=
  if telegram_client env then
    call (SendMessage (t "SOURCES_UNAVAILABLE")
                      (client_send_message env (t "SOURCES_UNAVAILABLE")))
         (client_send_message env (t "SOURCES_UNAVAILABLE"))
  else raise AttributeError.

(** Modelled from the spec: [LongTask.external_cancel]
    (tgbot/handlers/base.py) is not among the sources.  The spec has the
    task, on a backend-unavailable or fetch-specific error, "notify requester
    with a maintenance/degraded-service message", where "this notification
    itself must not raise (its own failures are swallowed and logged)".  So:
    the call of line 138 is recorded, the maintenance message is sent to the
    requester, and an error of the sending is logged and swallowed. *)
Definition external_cancel (env : Env) : M unit :=
  emit ExternalCancel ;;
  safe_execution true None
    (if telegram_client env then
       call (SendMessage (t "MAINTENANCE") (client_send_message env (t "MAINTENANCE")))
            (client_send_message env (t "MAINTENANCE"))
     else raise AttributeError) ;;
  ret tt.

Definition _on_fail (env : Env) : M unit :=
  if telegram_client env then
    call (SendMessage (t "MAINTENANCE") (client_send_message env (t "MAINTENANCE")))
         (client_send_message env (t "MAINTENANCE"))
  else raise AttributeError.

(** Python truthiness of [telegram_file_id] and of [file]. *)
Definition truthy_id (o : option file_id) : option file_id :=
  match o with
  | Some id => if String.eqb id "" then None else Some id
  | None => None
  end.

Definition truthy_bytes (b : bytes) : bool := negb (Nat.eqb (List.length b) 0).

Definition filter_none {A} (l : list (option A)) : list A :=
  flat_map (fun o => match o with Some a => [a] | None => [] end) l.

(** Reading the local variable [progress_bar_download]. *)
Definition progress_bar_download : M ProgressBar :=
  fun s =>
    match s with
    | Some pb => ([], s, Ok pb)
    | None => ([], s, Raise UnboundLocalError)
    end.

Definition new_progress_bar_download (pb : ProgressBar) : M unit :=
  fun _ => ([NewProgressBar pb], Some pb, Ok tt).

Definition throttle_secs_ : nat := 3.

(** The handlers of the [try] of [long_task], in the order of the clauses. *)
Definition long_task_handler (env : Env) (e : exn) : option (M unit) :=
  if isinstance e [ServiceUnavailableError; DownloadError] then
    Some (external_cancel env)
  else if isinstance e [ProgressBarLostMessageError] then
    Some (emit (Statbox "user_canceled"))
  else if isinstance e [CancelledError] then
    Some (emit (Statbox "canceled"))
  else None.

(** [ProgressBar(...)] of lines 83-92; [source='IPFS'], no [message]. *)
Definition download_bar (env : Env) (document_holder : DocumentHolder)
  : ProgressBar :=
  {| message := None;
     banner := t "LOOKING_AT";
     header := download_header (get_filename document_holder);
     tail_text := t "TRANSMITTED_FROM";
     source := Some "IPFS";
     throttle_secs := throttle_secs_;
     last_call := time_time env |}.

(** [ProgressBar(...)] of lines 106-115, built from the download bar [pbd]
    as it is when the download has returned; no [source]. *)
Definition upload_bar (document_holder : DocumentHolder) (pbd : ProgressBar)
  : ProgressBar :=
  {| message := message pbd;
     banner := t "LOOKING_AT";
     header := download_header (get_filename document_holder);
     tail_text := t "UPLOADED_TO_TELEGRAM";
     source := None;
     throttle_secs := throttle_secs_;
     last_call := last_call pbd |}.

(** The branch [if file:] (lines 100-127). *)
Definition upload (env : Env) (document_holder : DocumentHolder) (file : bytes)
  : M unit :=
  emit (Statbox "downloaded") ;;
  pbd <- progress_bar_download ;;
  let progress_bar_upload := upload_bar document_holder pbd in
  emit (NewProgressBar progress_bar_upload) ;;
  uploaded_message <- send_file env (Content file) (Some progress_bar_upload) ;;
  match uploaded_message with
  | Some m =>
      call (PutCachedFile (msg_file_id m) (db_put_cached_file env))
           (db_put_cached_file env) ;;
      emit (Statbox "uploaded")
  | None => raise AttributeError
  end.

(** The branch [else:] (lines 128-136). *)
Definition not_found (env : Env) : M unit :=
  emit (Statbox "not_found") ;;
  respond_not_found env.

(** The body of the [try] (lines 94-136). *)
Definition long_task_try (env : Env) (document_holder : DocumentHolder)
  : M unit :=
  file <- download_document env document_holder ;;
  if truthy_bytes file then upload env document_holder file
  else not_found env.

(** The [finally] block (lines 147-154). *)
Definition long_task_finally (env : Env) : M unit :=
  pbd <- progress_bar_download ;;
  let messages := filter_none [message pbd] in
  (match messages with
   | [] => ret tt
   | _ :: _ =>
       safe_execution true None
         (if telegram_client env then
            call (DeleteMessages messages (client_delete_messages env))
                 (client_delete_messages env)
          else raise AttributeError) ;;
       ret tt
   end) ;;
  emit (DebugLog "deleted_progress_message").

(** The [try] statement of lines 93-154. *)
Definition long_task_guarded (env : Env) (document_holder : DocumentHolder)
  : M unit :=
  try_finally
    (try_except (long_task_try env document_holder) (long_task_handler env))
    (long_task_finally env).

(** The second [async with safe_execution(...)] block (lines 77-154). *)
Definition cache_miss (env : Env) (document_holder : DocumentHolder) : M unit :=
  safe_execution true (Some (_on_fail env))
    (new_progress_bar_download (download_bar env document_holder) ;;
     long_task_guarded env document_holder) ;;
  ret tt.

(** Lines 64-66: the database first, then the client's own cache; the value
    is [telegram_file_id] when it is truthy. *)
Definition cache_check (env : Env) : M (option file_id) :=
  from_db <- call (GetCachedFile (db_get_cached_file env))
                  (db_get_cached_file env) ;;
  telegram_file_id <-
    match truthy_id from_db with
    | Some id => ret (Some id)
    | None =>
        if telegram_client env then
          call (GetCachedFileId (client_get_cached_file_id env))
               (client_get_cached_file_id env)
        else raise AttributeError
    end ;;
  ret (truthy_id telegram_file_id).

Definition long_task (env : Env) (document_holder : DocumentHolder) : M unit :=
  telegram_file_id <- cache_check env ;;
  match telegram_file_id with
  | Some id =>
      sent <- safe_execution true None
                (send_file env (CachedFile id) None ;;
                 emit (Statbox "cache_hit")) ;;
      match sent with
      | Some _ => ret tt
      | None => cache_miss env document_holder
      end
  | None => cache_miss env document_holder
  end.

(** Modelled from the spec: [LongTask.schedule] (tgbot/handlers/base.py) is
    not among the sources.  The spec has the registry entry "created at
    schedule time, removed at task termination (any terminal state)". *)
Definition schedule (env : Env) (document_holder : DocumentHolder) : M unit :=
  emit Register ;;
  try_finally (long_task env document_holder) (emit Deregister).

(** ** DownloadHandler *)

Record HandlerEnv : Type := {
  has_task : bool;
  hit_limits : bool;
  answer : text -> result unit;
  (** [remove_button] inside the duplicate branch, and on line 237 *)
  remove_button_duplicate : result unit;
  remove_button_accepted : result unit
}.

(** [handler] from the log line of line 223 on, in the executions in which
    the document lookup of line 224 ([get_scored_document],
    [BaseHolder.create], both outside the file) returns: the lookup has no
    event of its own, and an execution in which it raises ends there, before
    [has_task].  The value is [true] when the handler left through a
    [return] inside one of the two guarded blocks. *)
Definition handler (henv : HandlerEnv) : M bool :=
  emit (Statbox "get") ;;
  emit (HasTask (has_task henv)) ;;
  duplicate <-
    (if has_task henv then
       safe_execution false None
         (call (Answer (t "ALREADY_DOWNLOADING") (answer henv (t "ALREADY_DOWNLOADING")))
               (answer henv (t "ALREADY_DOWNLOADING")) ;;
          call (RemoveButton (remove_button_duplicate henv))
               (remove_button_duplicate henv))
     else ret None) ;;
  match duplicate with
  | Some _ => ret true
  | None =>
      emit (HitLimits (hit_limits henv)) ;;
      limited <-
        (if hit_limits henv then
           safe_execution false None
             (call (Answer (t "TOO_MANY_DOWNLOADS") (answer henv (t "TOO_MANY_DOWNLOADS")))
                   (answer henv (t "TOO_MANY_DOWNLOADS")))
         else ret None) ;;
      match limited with
      | Some _ => ret true
      | None =>
          call (RemoveButton (remove_button_accepted henv))
               (remove_button_accepted henv) ;;
          emit Schedule ;;
          ret false
      end
  end.

(** * Observations

    Predicates and measures on traces and runs, used to state the properties
    below, and the concrete environments the examples run in. *)

(** ** Runs and their events *)

(** What [safe_execution] appends when its block raised [e]. *)
Definition on_error (is_logging_enabled : bool) (on_fail : option (M unit))
    (e : exn) (s : Store) : list event :=
  let log e := if is_logging_enabled then [ErrorLog e] else [] in
  match on_fail with
  | None => log e
  | Some f =>
      log e ++ trace (f s) ++
      match outcome (f s) with
      | Ok _ => []
      | Raise e2 => log e2
      end
  end.

(** Every event of every run of [m] satisfies [Q]. *)
Definition every {A} (Q : event -> bool) (m : M A) : Prop :=
  forall s, forallb Q (trace (m s)) = true.

(** How many events of [tr] satisfy [Q]. *)
Definition count (Q : event -> bool) (tr : list event) : nat :=
  List.length (filter Q tr).

(** The seconds slept, in order. *)
Definition waits (tr : list event) : list nat :=
  flat_map (fun ev => match ev with Sleep w => [w] | _ => [] end) tr.

Definition is_sleep (ev : event) : bool :=
  match ev with Sleep _ => true | _ => false end.

(** Every sleep lasts [w] seconds and is followed at once by the start of
    an attempt ([mark] recognises the event that starts one). *)
Fixpoint waits_between (mark : event -> bool) (w : nat) (tr : list event) : bool :=
  match tr with
  | [] => true
  | Sleep v :: rest =>
      Nat.eqb v w &&
      match rest with ev :: _ => mark ev | [] => false end &&
      waits_between mark w rest
  | _ :: rest => waits_between mark w rest
  end.

(** A run of the retry decorator with [remaining] retries left, from attempt
    number [start] on.  [mark] recognises the event that starts an attempt,
    [r k] is how the k-th attempt ends, [inv] is what an attempt needs of the
    store.  The run makes [n] attempts, at most [remaining + 1]; it sleeps
    [w] seconds between two attempts and nowhere else; all attempts but the
    last failed with an exception of the retried classes; the run ends as
    the last attempt ended; and it ends with an exception of the retried
    classes only if no retry was left. *)
Definition retried {A} (classes : list exn) (w : nat) (mark : event -> bool)
    (inv : Store -> Prop) (r : nat -> result A) (remaining start : nat)
    (x : list event * Store * result A) : Prop :=
  let n := count mark (trace x) in
  1 <= n <= S remaining /\
  waits (trace x) = repeat w (n - 1) /\
  waits_between mark w (trace x) = true /\
  (exists ev rest, trace x = ev :: rest /\ mark ev = true) /\
  (forall k, start <= k < start + n - 1 ->
     exists e, r k = Raise e /\ isinstance e classes = true) /\
  outcome x = r (start + n - 1) /\
  (forall e, outcome x = Raise e -> isinstance e classes = true ->
     n = S remaining) /\
  inv (store x).

(** [progress_bar_download] is bound. *)
Definition bound (s : Store) : Prop :=
  match s with Some _ => True | None => False end.

(** The event that starts an execution of [download_document]. *)
Definition is_attempt (ev : event) : bool :=
  match ev with
  | Statbox action => String.eqb action "do_request"
  | _ => false
  end.

(** The number of executions of [download_document] in a trace. *)
Definition attempts (tr : list event) : nat := count is_attempt tr.

(** [download_document] after its first log line. *)
Definition download_rest (env : Env) (document_holder : DocumentHolder)
    (n : nat) : M bytes :=
  bar_call ShowBanner (show_banner (ipfs_get_iter env n)) ;;
  emit (GetIter (cid document_holder)) ;;
  get_iter_loop (chunks (ipfs_get_iter env n)) (stream_end (ipfs_get_iter env n))
                (filesize document_holder) [].

(** [m] never unbinds [progress_bar_download]. *)
Definition keeps_bound {A} (m : M A) : Prop :=
  forall s, bound s -> bound (store (m s)).

(** What the client's [delete_messages] call adds to the trace, inside its
    [safe_execution]. *)
Definition deletion (env : Env) (messages : list message_ref) : list event :=
  if telegram_client env then
    DeleteMessages messages (client_delete_messages env) ::
    match client_delete_messages env with
    | Ok _ => []
    | Raise e => [ErrorLog e]
    end
  else [ErrorLog AttributeError].

(** ** The lost-message signal *)

(** The progress bar signals a lost message: [show_banner] or [callback]
    raises [ProgressBarLostMessageError] during the download, or the upload
    that was given [progress_bar_upload.callback] ends with it. *)
Definition lost_signal (ev : event) : bool :=
  match ev with
  | ShowBanner (Raise ProgressBarLostMessageError) => true
  | Callback _ _ (Raise ProgressBarLostMessageError) => true
  | SendFile (Content _) (Some _) (Raise ProgressBarLostMessageError) => true
  | _ => false
  end.

(** Events that notify the requester, or that belong to a further attempt of
    the fetch or of the delivery. *)
Definition notifies_or_retries (ev : event) : bool :=
  match ev with
  | SendMessage _ _ | ExternalCancel | Sleep _ | GetIter _
  | ShowBanner _ | Callback _ _ _ | SendFile _ _ _ => true
  | Statbox action => String.eqb action "do_request"
  | _ => false
  end.

Definition quiet (ev : event) : bool := negb (notifies_or_retries ev).
Definition no_lost (ev : event) : bool := negb (lost_signal ev).

(** The events after the first lost-message signal, if there is one. *)
Fixpoint after_lost (tr : list event) : option (list event) :=
  match tr with
  | [] => None
  | ev :: rest => if lost_signal ev then Some rest else after_lost rest
  end.

(** A coroutine raises as soon as the signal arrives: the signal, if any, is
    the last event, and the coroutine ends with the exception. *)
Definition lost_last {A} (m : M A) : Prop :=
  forall s,
    after_lost (trace (m s)) = None \/
    (after_lost (trace (m s)) = Some [] /\
     outcome (m s) = Raise ProgressBarLostMessageError).

(** After a lost-message signal the run is silent: nothing is sent to the
    requester, nothing is attempted again, the cancellation is recorded and
    the coroutine ends normally. *)
Definition silent_cancel {A} (x : list event * Store * result A) : Prop :=
  match after_lost (trace x) with
  | None => True
  | Some post =>
      forallb quiet post = true /\ In (Statbox "user_canceled") post /\
      exists a, outcome x = Ok a
  end.

(** ** The events of each part of the task *)

(** The events of the [try] body: the download, then the upload or the
    not-found answer. *)
Definition try_event (ev : event) : bool :=
  match ev with
  | Statbox _ | ShowBanner _ | GetIter _ | Callback _ _ _ | Sleep _
  | NewProgressBar _ | SendFile (Content _) (Some _) _ | PutCachedFile _ _
  | SendMessage (t "SOURCES_UNAVAILABLE") _ => true
  | _ => false
  end.


(** The events before the second guarded block: the cache lookup and the
    delivery of the cached file. *)
Definition cached_event (ev : event) : bool :=
  match ev with
  | GetCachedFile _ | GetCachedFileId _ | SendFile (CachedFile _) None _
  | Statbox _ | Sleep _ => true
  | _ => false
  end.

(** ** Cleanup and notices *)

Definition is_deregister (ev : event) : bool :=
  match ev with Deregister => true | _ => false end.



(** The message lists passed to the client's [delete_messages], in order. *)
Definition deletions (tr : list event) : list (list message_ref) :=
  flat_map (fun ev => match ev with DeleteMessages ms _ => [ms] | _ => [] end) tr.



(** The events of [download_document]. *)
Definition download_event (ev : event) : bool :=
  match ev with
  | Statbox _ | ShowBanner _ | GetIter _ | Callback _ _ _ | Sleep _ => true
  | _ => false
  end.

Definition is_external_cancel (ev : event) : bool :=
  match ev with ExternalCancel => true | _ => false end.

(** The texts passed to the client's [send_message], in order. *)
Definition sent_messages (tr : list event) : list text :=
  flat_map (fun ev => match ev with SendMessage txt _ => [txt] | _ => [] end) tr.

(** Events that neither send a message nor call [external_cancel]. *)
Definition no_notice (ev : event) : bool :=
  match ev with
  | SendMessage _ _ | ExternalCancel => false
  | _ => true
  end.

(** Events after the upload bar is built: the delivery and the cache write. *)
Definition upload_event (ev : event) : bool :=
  match ev with
  | SendFile (Content _) (Some _) _ | Statbox _ | Sleep _ | PutCachedFile _ _ => true
  | _ => false
  end.

(** The events of the fast path: the two lookups, the delivery of the cached
    file id (without progress callback) with its immediate retries, and the
    two log lines. *)
Definition fast_path_event (ev : event) : bool :=
  match ev with
  | GetCachedFile _ | GetCachedFileId _ | SendFile (CachedFile _) None _
  | Sleep 0 => true
  | Statbox action => String.eqb action "sent" || String.eqb action "cache_hit"
  | _ => false
  end.

(** ** Environments of the examples *)

Definition example_document : DocumentHolder :=
  {| cid := "bafy"; filesize := Some 2; get_filename := "paper.pdf" |}.

Definition two_bytes : bytes := [x01; x02].

(** One chunk of two bytes; the banner creates message 7, the callback
    leaves [last_call = 42]. *)
Definition attempt_ok : Attempt :=
  {| show_banner := ({| bs_message := Some 7; bs_last_call := 11 |}, Ok tt);
     chunks := [(two_bytes, ({| bs_message := Some 7; bs_last_call := 42 |}, Ok tt))];
     stream_end := None |}.

(** Nothing cached, everything works. *)
Definition env_ok : Env :=
  {| telegram_client := true;
     db_get_cached_file := Ok None;
     client_get_cached_file_id := Ok None;
     ipfs_get_iter := fun _ => attempt_ok;
     client_send_file := fun _ _ => Ok {| msg_file_id := "F1" |};
     db_put_cached_file := Ok tt;
     client_send_message := fun _ => Ok tt;
     client_delete_messages := Ok tt;
     time_time := 10 |}.

Definition with_attempts (env : Env) (a : nat -> Attempt) : Env :=
  {| telegram_client := telegram_client env;
     db_get_cached_file := db_get_cached_file env;
     client_get_cached_file_id := client_get_cached_file_id env;
     ipfs_get_iter := a;
     client_send_file := client_send_file env;
     db_put_cached_file := db_put_cached_file env;
     client_send_message := client_send_message env;
     client_delete_messages := client_delete_messages env;
     time_time := time_time env |}.

(** The stream raises [DownloadError] after the banner. *)
Definition attempt_download_error : Attempt :=
  {| show_banner := ({| bs_message := Some 7; bs_last_call := 11 |}, Ok tt);
     chunks := [];
     stream_end := Some DownloadError |}.

Definition env_download_error : Env :=
  with_attempts env_ok (fun _ => attempt_download_error).

(** The stream ends at once: no chunk, no error. *)
Definition attempt_no_chunk : Attempt :=
  {| show_banner := ({| bs_message := Some 7; bs_last_call := 11 |}, Ok tt);
     chunks := [];
     stream_end := None |}.

(** A document of length zero: one chunk, empty. *)
Definition attempt_empty_chunk : Attempt :=
  {| show_banner := ({| bs_message := Some 7; bs_last_call := 11 |}, Ok tt);
     chunks := [([], ({| bs_message := Some 7; bs_last_call := 12 |}, Ok tt))];
     stream_end := None |}.

Definition env_no_chunk : Env := with_attempts env_ok (fun _ => attempt_no_chunk).
Definition env_empty_chunk : Env := with_attempts env_ok (fun _ => attempt_empty_chunk).

(** The requester deletes the progress message during the download: the
    callback of the second chunk raises, the bar has dropped its message. *)
Definition attempt_lost : Attempt :=
  {| show_banner := ({| bs_message := Some 7; bs_last_call := 11 |}, Ok tt);
     chunks := [(two_bytes, ({| bs_message := Some 7; bs_last_call := 42 |}, Ok tt));
                (two_bytes, ({| bs_message := None; bs_last_call := 42 |},
                             Raise ProgressBarLostMessageError))];
     stream_end := None |}.

Definition env_lost : Env := with_attempts env_ok (fun _ => attempt_lost).

(** A cached file id whose delivery works. *)
Definition env_hit : Env :=
  {| telegram_client := true;
     db_get_cached_file := Ok (Some "F0");
     client_get_cached_file_id := Ok None;
     ipfs_get_iter := fun _ => attempt_ok;
     client_send_file := fun _ _ => Ok {| msg_file_id := "F0" |};
     db_put_cached_file := Ok tt;
     client_send_message := fun _ => Ok tt;
     client_delete_messages := Ok tt;
     time_time := 10 |}.

(** A cached file id whose delivery is refused by the client; sending bytes
    works. *)
Definition env_hit_refused : Env :=
  {| telegram_client := true;
     db_get_cached_file := Ok (Some "F0");
     client_get_cached_file_id := Ok None;
     ipfs_get_iter := fun _ => attempt_ok;
     client_send_file := fun file _ =>
       match file with
       | CachedFile _ => Raise (OtherError 0)
       | Content _ => Ok {| msg_file_id := "F1" |}
       end;
     db_put_cached_file := Ok tt;
     client_send_message := fun _ => Ok tt;
     client_delete_messages := Ok tt;
     time_time := 10 |}.

(** The bar after the download of [attempt_ok]. *)
Definition bar_after_ok : ProgressBar :=
  set_bar_state (download_bar env_ok example_document)
                {| bs_message := Some 7; bs_last_call := 42 |}.

(** The task key has a live task and the callback query has expired: the
    duplicate answer raises.  The user is under the limits. *)
Definition henv_answer_expired : HandlerEnv :=
  {| has_task := true;
     hit_limits := false;
     answer := fun txt =>
       if text_eqb txt (t "ALREADY_DOWNLOADING") then Raise (OtherError 400)
       else Ok tt;
     remove_button_duplicate := Ok tt;
     remove_button_accepted := Ok tt |}.

(** The same, for a user who has hit the limits. *)
Definition henv_answer_expired_limited : HandlerEnv :=
  {| has_task := true;
     hit_limits := true;
     answer := fun txt =>
       if text_eqb txt (t "ALREADY_DOWNLOADING") then Raise (OtherError 400)
       else Ok tt;
     remove_button_duplicate := Ok tt;
     remove_button_accepted := Ok tt |}.

(** * The rest of the file *)

(** ** delayed_task *)

(** [delayed_task(create_task, t)] (lines 23-29).  [sleep] is how
    [asyncio.sleep(t)] ends (it raises when the coroutine is cancelled while
    it sleeps); [create_task] is what the created task does until
    [await task] returns or raises. *)
Definition delayed_task {A} (sleep : result unit) (create_task : M A) (t : nat)
  : M unit :=
  try_except
    (call (Sleep t) sleep ;;
     create_task ;;
     ret tt)
    (fun e => if isinstance e [CancelledError] then Some (ret tt) else None).

(** ** Further observations *)

(** A call of the client's [send_file]. *)
Definition is_send (ev : event) : bool :=
  match ev with SendFile _ _ _ => true | _ => false end.

(** How the n-th call of the client's [send_file] ends for [send_file]. *)
Definition nth_send (env : Env) (file : payload) (n : nat) : result (option Message) :=
  match client_send_file env file n with
  | Ok m => Ok (Some m)
  | Raise e => Raise e
  end.

(** The arguments of the calls of the progress callback, in order. *)
Definition callbacks (tr : list event) : list (nat * option nat) :=
  flat_map (fun ev => match ev with Callback n sz _ => [(n, sz)] | _ => [] end) tr.

(** The bytes reported to the progress callback. *)
Definition reported_bytes (tr : list event) : nat :=
  list_sum (map fst (callbacks tr)).

(** [env] without a Telegram client for the bot. *)
Definition without_client (env : Env) : Env :=
  {| telegram_client := false;
     db_get_cached_file := db_get_cached_file env;
     client_get_cached_file_id := client_get_cached_file_id env;
     ipfs_get_iter := ipfs_get_iter env;
     client_send_file := client_send_file env;
     db_put_cached_file := db_put_cached_file env;
     client_send_message := client_send_message env;
     client_delete_messages := client_delete_messages env;
     time_time := time_time env |}.

(** Two chunks, of two bytes and of one byte. *)
Definition attempt_two_chunks : Attempt :=
  {| show_banner := ({| bs_message := Some 7; bs_last_call := 11 |}, Ok tt);
     chunks := [(two_bytes, ({| bs_message := Some 7; bs_last_call := 42 |}, Ok tt));
                ([x03], ({| bs_message := Some 7; bs_last_call := 43 |}, Ok tt))];
     stream_end := None |}.

(** The stream breaks with a [TemporaryError] after a chunk of two bytes. *)
Definition attempt_breaks : Attempt :=
  {| show_banner := ({| bs_message := Some 7; bs_last_call := 11 |}, Ok tt);
     chunks := [(two_bytes, ({| bs_message := Some 7; bs_last_call := 42 |}, Ok tt))];
     stream_end := Some TemporaryError |}.

(** The first attempt breaks, the second yields two chunks. *)
Definition env_second_attempt : Env :=
  with_attempts env_ok
    (fun n => if Nat.eqb n 1 then attempt_breaks else attempt_two_chunks).

(** The file ids written to the cache with [put_cached_file], in order. *)
Definition cache_writes (tr : list event) : list file_id :=
  flat_map (fun ev => match ev with PutCachedFile id _ => [id] | _ => [] end) tr.

(** Events other than a cache write. *)
Definition no_put (ev : event) : bool :=
  match ev with PutCachedFile _ _ => false | _ => true end.

(** The events of a task before its second guarded block: the fast path,
    and the log line of a refused cached file id. *)
Definition before_miss_event (ev : event) : bool :=
  match ev with
  | ErrorLog _ => true
  | _ => fast_path_event ev
  end.

(** The events of the second guarded block after its [try] body: the
    handlers, the [finally] block and the failure notification. *)
Definition after_try_event (ev : event) : bool :=
  match ev with
  | ExternalCancel | DeleteMessages _ _ | ErrorLog _ => true
  | Statbox action => String.eqb action "user_canceled" || String.eqb action "canceled"
  | DebugLog action => String.eqb action "deleted_progress_message"
  | SendMessage txt _ => text_eqb txt (t "MAINTENANCE")
  | _ => false
  end.

(** The answer that the sources are unavailable. *)
Definition is_not_found_answer (ev : event) : bool :=
  match ev with
  | SendMessage txt _ => text_eqb txt (t "SOURCES_UNAVAILABLE")
  | _ => false
  end.

(** Sending bytes to the client, or writing the cache. *)
Definition delivers_bytes (ev : event) : bool :=
  match ev with
  | SendFile (Content _) _ _ | PutCachedFile _ _ => true
  | _ => false
  end.

(** Events other than a message to the requester. *)
Definition no_message (ev : event) : bool :=
  match ev with SendMessage _ _ => false | _ => true end.

(** Every attempt breaks with a bare [TemporaryError]. *)
Definition env_always_temporary : Env :=
  with_attempts env_ok
    (fun _ => {| show_banner := ({| bs_message := Some 7; bs_last_call := 11 |}, Ok tt);
                 chunks := [];
                 stream_end := Some TemporaryError |}).

(** The task is cancelled while the stream is read. *)
Definition env_cancelled : Env :=
  with_attempts env_ok
    (fun _ => {| show_banner := ({| bs_message := Some 7; bs_last_call := 11 |}, Ok tt);
                 chunks := [];
                 stream_end := Some CancelledError |}).

(** Scheduling a task. *)
Definition is_schedule (ev : event) : bool :=
  match ev with Schedule => true | _ => false end.

(** What the handler does to a request: answering the callback query,
    consulting the limits, removing the button, scheduling a task. *)
Definition acts_on_request (ev : event) : bool :=
  match ev with
  | Answer _ _ | HitLimits _ | RemoveButton _ | Schedule => true
  | _ => false
  end.

(** Consulting the limits. *)
Definition is_hit_limits (ev : event) : bool :=
  match ev with HitLimits _ => true | _ => false end.

(** No live task, the user is under the limits, but the button cannot be
    removed. *)
Definition henv_button_fails : HandlerEnv :=
  {| has_task := false;
     hit_limits := false;
     answer := fun _ => Ok tt;
     remove_button_duplicate := Ok tt;
     remove_button_accepted := Raise (OtherError 403) |}.

(** No live task; the user is over the limits and the rate-limit answer is
    delivered. *)
Definition henv_limited : HandlerEnv :=
  {| has_task := false;
     hit_limits := true;
     answer := fun _ => Ok tt;
     remove_button_duplicate := Ok tt;
     remove_button_accepted := Ok tt |}.

(** Sending the downloaded bytes to the client. *)
Definition sends_bytes (ev : event) : bool :=
  match ev with SendFile (Content _) _ _ => true | _ => false end.

(** The events of the fetch: the log line of an attempt, the banner, the
    opening of the stream and the progress callback of a chunk. *)
Definition fetch_event (ev : event) : bool :=
  match ev with
  | ShowBanner _ | GetIter _ | Callback _ _ _ => true
  | Statbox action => String.eqb action "do_request"
  | _ => false
  end.

(** The events of the [try] body after the download: the upload with its
    cache write, or the not-found answer. *)
Definition after_download_event (ev : event) : bool :=
  match ev with
  | NewProgressBar _ | SendFile (Content _) (Some _) _ | Sleep _
  | PutCachedFile _ _ => true
  | Statbox action =>
      String.eqb action "downloaded" || String.eqb action "sent" ||
      String.eqb action "uploaded" || String.eqb action "not_found"
  | SendMessage txt _ => text_eqb txt (t "SOURCES_UNAVAILABLE")
  | _ => false
  end.

(** Looking up the client's cache. *)
Definition is_client_lookup (ev : event) : bool :=
  match ev with GetCachedFileId _ => true | _ => false end.

(** ** DownloadHandler.filter *)

(** The character class [[A-Za-z0-9_-]]. *)
Definition cid_char (c : Ascii.ascii) : bool :=
  let n := Ascii.nat_of_ascii c in
  (Nat.leb 65 n && Nat.leb n 90) || (Nat.leb 97 n && Nat.leb n 122) ||
  (Nat.leb 48 n && Nat.leb n 57) || Nat.eqb n 95 || Nat.eqb n 45.

(** The longest prefix of characters of the class, and what follows it. *)
Fixpoint span_cid (data : string) : string * string :=
  match data with
  | EmptyString => (EmptyString, EmptyString)
  | String c rest =>
      if cid_char c then
        let (g, tl) := span_cid rest in (String c g, tl)
      else (EmptyString, data)
  end.

(** The pattern of [filter] (line 213), ['^/d_([A-Za-z0-9_-]+)$'], matched
    against the data of the callback query: the value is group 1 of the
    match.  [$] matches at the end of the data, or before a newline that
    ends the data. *)
Definition pattern_match (data : string) : option string :=
  match data with
  | String "/"%char (String "d"%char (String "_"%char rest)) =>
      match span_cid rest with
      | (EmptyString, _) => None
      | (g, EmptyString) => Some g
      | (g, String c EmptyString) =>
          if Ascii.eqb c "010"%char then Some g else None
      | (_, _) => None
      end
  | _ => None
  end.

(** Every character of [s] satisfies [p]. *)
Fixpoint all_chars (p : Ascii.ascii -> bool) (s : string) : bool :=
  match s with
  | EmptyString => true
  | String c rest => p c && all_chars p rest
  end.

(** Showing the banner, and opening the stream. *)
Definition is_show_banner (ev : event) : bool :=
  match ev with ShowBanner _ => true | _ => false end.

Definition is_get_iter (ev : event) : bool :=
  match ev with GetIter _ => true | _ => false end.

(** A call of [show_banner] that returned. *)
Definition is_shown (ev : event) : bool :=
  match ev with ShowBanner (Ok _) => true | _ => false end.

(** * Reasoning about coroutines *)

Lemma run_eta {A} (x : list event * Store * result A) :
  x = (trace x, store x, outcome x).
Proof. destruct x as [[tr s] r]; reflexivity. Qed.

Lemma trace_mk {A} tr s (r : result A) : trace (tr, s, r) = tr.
Proof. reflexivity. Qed.
Lemma store_mk {A} tr s (r : result A) : store (tr, s, r) = s.
Proof. reflexivity. Qed.
Lemma outcome_mk {A} tr s (r : result A) : outcome (tr, s, r) = r.
Proof. reflexivity. Qed.

Lemma run_bind {A B} (m : M A) (f : A -> M B) s :
  bind m f s =
  match outcome (m s) with
  | Ok a =>
      (trace (m s) ++ trace (f a (store (m s))),
       store (f a (store (m s))),
       outcome (f a (store (m s))))
  | Raise e => (trace (m s), store (m s), Raise e)
  end.
Proof.
  unfold bind, trace, store, outcome.
  destruct (m s) as [[tr s1] [a|e]]; simpl; [|reflexivity].
  destruct (f a s1) as [[tr2 s2] r]; reflexivity.
Qed.

Lemma run_emit {A} ev (k : M A) s :
  (emit ev ;; k) s = (ev :: trace (k s), store (k s), outcome (k s)).
Proof.
  unfold bind, emit. destruct (k s) as [[tr s1] r]; reflexivity.
Qed.

Lemma run_try_finally {A} (m : M A) (fin : M unit) s :
  try_finally m fin s =
  (trace (m s) ++ trace (fin (store (m s))),
   store (fin (store (m s))),
   match outcome (fin (store (m s))) with
   | Ok _ => outcome (m s)
   | Raise e => Raise e
   end).
Proof.
  unfold try_finally, trace, store, outcome.
  destruct (m s) as [[tr s1] r]; simpl.
  destruct (fin s1) as [[tr2 s2] [u|e]]; reflexivity.
Qed.

Lemma run_try_except {A} (m : M A) (handler : exn -> option (M A)) s :
  try_except m handler s =
  match outcome (m s) with
  | Ok a => (trace (m s), store (m s), Ok a)
  | Raise e =>
      match handler e with
      | Some h =>
          (trace (m s) ++ trace (h (store (m s))),
           store (h (store (m s))),
           outcome (h (store (m s))))
      | None => (trace (m s), store (m s), Raise e)
      end
  end.
Proof.
  unfold try_except, trace, store, outcome.
  destruct (m s) as [[tr s1] [a|e]]; simpl; [reflexivity|].
  destruct (handler e) as [h|]; [|reflexivity].
  destruct (h s1) as [[tr2 s2] r]; reflexivity.
Qed.

Lemma run_safe_execution {A} b (on_fail : option (M unit)) (block : M A) s :
  safe_execution b on_fail block s =
  match outcome (block s) with
  | Ok a => (trace (block s), store (block s), Ok (Some a))
  | Raise e =>
      (trace (block s) ++ on_error b on_fail e (store (block s)),
       match on_fail with
       | None => store (block s)
       | Some f => store (f (store (block s)))
       end,
       Ok None)
  end.
Proof.
  unfold safe_execution, on_error, trace, store, outcome.
  destruct (block s) as [[tr s1] [a|e]]; simpl; [reflexivity|].
  destruct on_fail as [f|]; [|reflexivity].
  destruct (f s1) as [[tr2 s2] [u|e2]]; simpl;
    rewrite ?app_nil_r; reflexivity.
Qed.

(** [safe_execution] never raises. *)
Lemma safe_execution_total {A} b on_fail (block : M A) s :
  exists o, outcome (safe_execution b on_fail block s) = Ok o.
Proof.
  rewrite run_safe_execution.
  destruct (outcome (block s)); eexists; reflexivity.
Qed.

(** ** Properties of every event of a coroutine *)

Section Every.
Variable Q : event -> bool.

Lemma every_ret {A} (a : A) : every Q (ret a).
Proof. intro s; reflexivity. Qed.

Lemma every_raise {A} (e : exn) : every Q (@raise A e).
Proof. intro s; reflexivity. Qed.

Lemma every_emit ev : Q ev = true -> every Q (emit ev).
Proof. intros H s; simpl; now rewrite H. Qed.

Lemma every_call {A} ev (r : result A) : Q ev = true -> every Q (call ev r).
Proof. intros H s; simpl; now rewrite H. Qed.

Lemma every_bind {A B} (m : M A) (f : A -> M B) :
  every Q m -> (forall a, every Q (f a)) -> every Q (bind m f).
Proof.
  intros Hm Hf s. rewrite run_bind.
  destruct (outcome (m s)); simpl; [|apply Hm].
  unfold trace at 1; simpl. rewrite forallb_app, Hm. apply Hf.
Qed.


Lemma every_try_finally {A} (m : M A) fin :
  every Q m -> every Q fin -> every Q (try_finally m fin).
Proof.
  intros Hm Hf s. rewrite run_try_finally.
  unfold trace at 1; simpl. rewrite forallb_app, Hm. apply Hf.
Qed.

Lemma every_safe_execution {A} b on_fail (block : M A) :
  (forall e, Q (ErrorLog e) = true) -> every Q block ->
  (forall f, on_fail = Some f -> every Q f) ->
  every Q (safe_execution b on_fail block).
Proof.
  intros HL Hb Hf s. rewrite run_safe_execution.
  destruct (outcome (block s)) as [a|e]; [apply Hb|].
  unfold trace at 1; simpl. rewrite forallb_app, Hb. simpl.
  unfold on_error. destruct on_fail as [f|].
  - rewrite !forallb_app, (Hf f eq_refl).
    destruct (outcome (f _)), b; simpl; rewrite ?HL; reflexivity.
  - destruct b; simpl; rewrite ?HL; reflexivity.
Qed.

Lemma every_retrying {A} classes w (fn : nat -> M A) :
  Q (Sleep w) = true -> (forall n, every Q (fn n)) ->
  forall remaining n, every Q (retrying classes w fn remaining n).
Proof.
  intros HS Hfn remaining.
  induction remaining as [|k IH]; intros n s; simpl.
  - rewrite (run_eta (fn n s)).
    destruct (outcome (fn n s)) as [a|e]; [apply Hfn|].
    destruct (isinstance e classes); apply Hfn.
  - rewrite (run_eta (fn n s)).
    destruct (outcome (fn n s)) as [a|e]; [apply Hfn|].
    destruct (isinstance e classes); [|apply Hfn].
    rewrite run_bind. simpl.
    unfold trace; simpl. rewrite forallb_app. fold (trace (fn n s)).
    rewrite Hfn. simpl. rewrite HS. apply IH.
Qed.

Lemma every_retry {A} stop w classes (fn : nat -> M A) :
  Q (Sleep w) = true -> (forall n, every Q (fn n)) ->
  every Q (retry stop w classes fn).
Proof. intros; now apply every_retrying. Qed.
End Every.

(** ** Counting events *)

Lemma count_app Q tr1 tr2 : count Q (tr1 ++ tr2) = count Q tr1 + count Q tr2.
Proof. unfold count. now rewrite filter_app, length_app. Qed.

Lemma count_none Q tr : forallb (fun ev => negb (Q ev)) tr = true -> count Q tr = 0.
Proof.
  unfold count. induction tr as [|ev tr IH]; simpl; [reflexivity|].
  destruct (Q ev); simpl; [discriminate|exact IH].
Qed.

Lemma count_zero Q P tr :
  (forall ev, P ev = true -> Q ev = false) -> forallb P tr = true -> count Q tr = 0.
Proof.
  intros H Hp. apply count_none. rewrite forallb_forall in *.
  intros ev Hev. now rewrite (H ev (Hp ev Hev)).
Qed.

Lemma waits_app tr1 tr2 : waits (tr1 ++ tr2) = waits tr1 ++ waits tr2.
Proof. apply flat_map_app. Qed.

Lemma waits_none tr : forallb (fun ev => negb (is_sleep ev)) tr = true -> waits tr = [].
Proof.
  induction tr as [|ev tr IH]; simpl; [reflexivity|].
  destruct ev; simpl; try exact IH. discriminate.
Qed.

Lemma no_waits_no_sleep tr :
  waits tr = [] -> forallb (fun ev => negb (is_sleep ev)) tr = true.
Proof.
  induction tr as [|ev tr IH]; simpl; [reflexivity|].
  destruct ev; simpl; try exact IH. discriminate.
Qed.

Lemma waits_between_app mark w tr1 tr2 :
  forallb (fun ev => negb (is_sleep ev)) tr1 = true ->
  waits_between mark w (tr1 ++ tr2) = waits_between mark w tr2.
Proof.
  induction tr1 as [|ev tr1 IH]; simpl; [reflexivity|].
  intro H. apply andb_prop in H. destruct H as [H1 H2].
  destruct ev; simpl in *; try discriminate; auto.
Qed.

Lemma waits_between_no_sleep mark w tr :
  forallb (fun ev => negb (is_sleep ev)) tr = true -> waits_between mark w tr = true.
Proof.
  intro H. rewrite <- (app_nil_r tr). now rewrite waits_between_app.
Qed.

(** ** The retry decorator *)

Lemma run_retrying_O {A} classes w (fn : nat -> M A) n s :
  retrying classes w fn 0 n s = fn n s.
Proof.
  simpl. destruct (fn n s) as [[tr s1] [a|e]]; [reflexivity|].
  destruct (isinstance e classes); reflexivity.
Qed.

Lemma run_retrying_S {A} classes w (fn : nat -> M A) k n s :
  retrying classes w fn (S k) n s =
  match outcome (fn n s) with
  | Ok _ => fn n s
  | Raise e =>
      if isinstance e classes then
        let y := retrying classes w fn k (S n) (store (fn n s)) in
        (trace (fn n s) ++ Sleep w :: trace y, store y, outcome y)
      else fn n s
  end.
Proof.
  simpl. destruct (fn n s) as [[tr s1] [a|e]]; [reflexivity|].
  unfold outcome, store, trace; simpl.
  destruct (isinstance e classes); [|reflexivity].
  unfold bind, emit.
  destruct (retrying classes w fn k (S n) s1) as [[tr2 s2] r2]; reflexivity.
Qed.

Section Retrying.
Context {A : Type}.
Variables (classes : list exn) (w : nat) (fn : nat -> M A).
(** [mark] recognises the one event that starts an attempt, [inv] is what
    the attempts need of the store, [r n] is how the n-th attempt ends. *)
Variables (mark : event -> bool) (inv : Store -> Prop) (r : nat -> result A).
Hypothesis fn_inv : forall n s, inv s -> inv (store (fn n s)).
Hypothesis fn_outcome : forall n s, inv s -> outcome (fn n s) = r n.
Hypothesis fn_mark : forall n s, inv s -> count mark (trace (fn n s)) = 1.
Hypothesis fn_waits : forall n s, inv s -> waits (trace (fn n s)) = [].
Hypothesis fn_starts : forall n s, inv s ->
  exists ev rest, trace (fn n s) = ev :: rest /\ mark ev = true.
Hypothesis mark_sleep : mark (Sleep w) = false.

Lemma retrying_spec : forall remaining start s, inv s ->
  retried classes w mark inv r remaining start
          (retrying classes w fn remaining start s).
Proof.
  assert (base : forall remaining start s, inv s ->
            (forall e, outcome (fn start s) = Raise e ->
               isinstance e classes = true -> remaining = 0) ->
            retried classes w mark inv r remaining start (fn start s)).
  { intros remaining start s Hs Hlast. unfold retried.
    rewrite (fn_mark start s Hs), (fn_waits start s Hs).
    replace (start + 1 - 1) with start by lia.
    repeat split; try lia; auto.
    - apply waits_between_no_sleep, no_waits_no_sleep, fn_waits, Hs.
    - intros e He Hi. rewrite (Hlast e He Hi). reflexivity. }
  induction remaining as [|rem IH]; intros start s Hs.
  - rewrite run_retrying_O. apply base; auto.
  - rewrite run_retrying_S.
    destruct (outcome (fn start s)) as [a|e] eqn:Eo.
    { apply base; auto. intros e He; congruence. }
    destruct (isinstance e classes) eqn:Ei.
    2:{ apply base; auto. intros e' He' Hi'.
        rewrite Eo in He'. congruence. }
    specialize (IH (S start) (store (fn start s)) (fn_inv start s Hs)).
    unfold retried in IH |- *. cbv zeta in IH |- *.
    set (y := retrying classes w fn rem (S start) (store (fn start s))) in *.
    rewrite !trace_mk, !store_mk, !outcome_mk.
    destruct IH as (Hn & Hws & Hbt & (ev1 & rest1 & Hst & Hmk) & Hk & Hout & Hstop & Hinv).
    rewrite count_app, waits_app, (fn_mark start s Hs), (fn_waits start s Hs).
    rewrite (waits_between_app _ _ _ _
               (no_waits_no_sleep _ (fn_waits start s Hs))).
    change (Sleep w :: trace y) with ([Sleep w] ++ trace y).
    rewrite count_app, waits_app.
    assert (E0 : count mark [Sleep w] = 0)
      by (unfold count; simpl; now rewrite mark_sleep).
    rewrite E0. simpl.
    set (m := count mark (trace y)) in *.
    replace (start + S m - 1) with (S start + m - 1) by lia.
    replace (m - 0) with (S (m - 1)) by lia. simpl repeat.
    rewrite Hws, Hbt, Nat.eqb_refl, Hst, Hmk.
    destruct (fn_starts start s Hs) as (ev0 & rest0 & Hst0 & Hmk0).
    repeat split; try lia; try assumption.
    + rewrite Hst0. simpl. eauto.
    + intros k Hk'. destruct (Nat.eq_dec k start) as [->|Hne].
      * exists e; split; [rewrite <- (fn_outcome start s Hs)|]; assumption.
      * apply Hk; lia.
    + intros e' He' Hi'. rewrite (Hstop e' He' Hi'). reflexivity.
Qed.
End Retrying.

(** ** The download *)

Lemma every_bar_call Q ev o :
  (forall r, Q (ev r) = true) -> every Q (bar_call ev o).
Proof. intros H [pb|]; simpl; [now rewrite H|reflexivity]. Qed.

Lemma bar_call_bound ev o s : bound s -> bound (store (bar_call ev o s)).
Proof. destruct s; simpl; auto. Qed.

Lemma bar_call_outcome ev o s : bound s -> outcome (bar_call ev o s) = snd o.
Proof. destruct s; simpl; [reflexivity|contradiction]. Qed.

Lemma every_get_iter_loop Q cs finish size collected :
  (forall n sz r, Q (Callback n sz r) = true) ->
  every Q (get_iter_loop cs finish size collected).
Proof.
  intro H. revert collected.
  induction cs as [|[chunk o] rest IH]; intro collected; simpl.
  - destruct finish; [apply every_raise|apply every_ret].
  - apply every_bind; [apply every_bar_call; intro; apply H|intro; apply IH].
Qed.

Lemma get_iter_loop_bound cs finish size : forall collected s,
  bound s -> bound (store (get_iter_loop cs finish size collected s)).
Proof.
  induction cs as [|[chunk o] rest IH]; intros collected s Hs; simpl.
  - destruct finish; exact Hs.
  - rewrite run_bind. rewrite (bar_call_outcome _ _ _ Hs).
    destruct (snd o); rewrite store_mk;
      [apply IH|]; apply bar_call_bound; exact Hs.
Qed.

(** How the loop ends depends on the environment only, not on the bar. *)
Lemma get_iter_loop_outcome cs finish size : forall collected s s',
  bound s -> bound s' ->
  outcome (get_iter_loop cs finish size collected s) =
  outcome (get_iter_loop cs finish size collected s').
Proof.
  induction cs as [|[chunk o] rest IH]; intros collected s s' Hs Hs'; simpl.
  - destruct finish; reflexivity.
  - rewrite !run_bind.
    rewrite (bar_call_outcome _ _ _ Hs), (bar_call_outcome _ _ _ Hs').
    destruct (snd o); rewrite !outcome_mk; [|reflexivity].
    apply IH; apply bar_call_bound; assumption.
Qed.

Lemma run_download_document_body env dh n s :
  download_document_body env dh n s =
  (Statbox "do_request" :: trace (download_rest env dh n s),
   store (download_rest env dh n s),
   outcome (download_rest env dh n s)).
Proof.
  unfold download_document_body. rewrite run_emit. reflexivity.
Qed.

Lemma every_download_rest Q env dh n :
  (forall r, Q (ShowBanner r) = true) ->
  (forall c, Q (GetIter c) = true) ->
  (forall k sz r, Q (Callback k sz r) = true) ->
  every Q (download_rest env dh n).
Proof.
  intros H1 H2 H3. unfold download_rest.
  apply every_bind; [now apply every_bar_call|intros _].
  apply every_bind; [now apply every_emit|intros _].
  now apply every_get_iter_loop.
Qed.

Lemma download_document_body_bound env dh n s :
  bound s -> bound (store (download_document_body env dh n s)).
Proof.
  intro Hs. rewrite run_download_document_body, store_mk.
  unfold download_rest. rewrite run_bind, (bar_call_outcome _ _ _ Hs).
  pose proof (bar_call_bound ShowBanner (show_banner (ipfs_get_iter env n)) s Hs) as Hb.
  destruct (snd _); rewrite store_mk; [|exact Hb].
  rewrite run_emit, store_mk. now apply get_iter_loop_bound.
Qed.

Lemma download_document_body_outcome env dh n s s' :
  bound s -> bound s' ->
  outcome (download_document_body env dh n s) =
  outcome (download_document_body env dh n s').
Proof.
  intros Hs Hs'. rewrite !run_download_document_body, !outcome_mk.
  unfold download_rest. rewrite !(run_bind (bar_call _ _)).
  rewrite (bar_call_outcome _ _ _ Hs), (bar_call_outcome _ _ _ Hs').
  destruct (snd _); rewrite !outcome_mk; [|reflexivity].
  rewrite !run_emit, !outcome_mk.
  apply get_iter_loop_outcome; apply bar_call_bound; assumption.
Qed.

Lemma download_document_body_attempts env dh n s :
  attempts (trace (download_document_body env dh n s)) = 1.
Proof.
  rewrite run_download_document_body, trace_mk.
  unfold attempts, count. simpl. f_equal. apply count_none.
  apply every_download_rest; reflexivity.
Qed.

Lemma download_document_body_waits env dh n s :
  waits (trace (download_document_body env dh n s)) = [].
Proof.
  rewrite run_download_document_body, trace_mk. simpl.
  apply waits_none. apply every_download_rest; reflexivity.
Qed.

Lemma download_document_starts_with env dh s :
  exists rest, trace (download_document env dh s) = Statbox "do_request" :: rest.
Proof.
  unfold download_document, retry. simpl Nat.sub. rewrite run_retrying_S.
  rewrite run_download_document_body, outcome_mk.
  destruct (outcome _) as [a|e]; [rewrite trace_mk; eauto|].
  destruct (isinstance e _); cbv zeta; rewrite !trace_mk; simpl; eauto.
Qed.

Lemma download_document_body_starts env dh n s :
  exists ev rest,
    trace (download_document_body env dh n s) = ev :: rest /\ is_attempt ev = true.
Proof.
  rewrite run_download_document_body, trace_mk. eexists _, _. split; reflexivity.
Qed.

(** C6. The fetch makes between one and three attempts.  It sleeps only
    between two attempts, each time 5 seconds: there is one sleep less than
    attempts, every sleep lasts 5 seconds and is followed at once by the next
    attempt, and the trace starts with an attempt.  Every attempt but the
    last failed with a [TemporaryError].  The call ends exactly as its last
    attempt ended (the same value or the same exception, not wrapped), and it
    ends with a [TemporaryError] only when that was the third attempt.  (How
    an attempt ends depends on the environment only, so [nth_attempt] may run
    it on the initial bar.) *)
Theorem C6_fetch_retry_bounded (env : Env) (dh : DocumentHolder) (pb : ProgressBar) :
  let x := download_document env dh (Some pb) in
  let n := attempts (trace x) in
  let nth_attempt k := outcome (download_document_body env dh k (Some pb)) in
  1 <= n <= 3 /\
  waits (trace x) = repeat 5 (n - 1) /\
  waits_between is_attempt 5 (trace x) = true /\
  (exists rest, trace x = Statbox "do_request" :: rest) /\
  (forall k, 1 <= k < n ->
     exists e, nth_attempt k = Raise e /\ isinstance e [TemporaryError] = true) /\
  outcome x = nth_attempt n /\
  (forall e, outcome x = Raise e -> isinstance e [TemporaryError] = true -> n = 3).
Proof.
  intros x n nth_attempt.
  pose proof (retrying_spec [TemporaryError] 5 (download_document_body env dh)
                is_attempt bound nth_attempt
                (download_document_body_bound env dh)
                (fun k s Hs => download_document_body_outcome env dh k s (Some pb) Hs I)
                (fun k s _ => download_document_body_attempts env dh k s)
                (fun k s _ => download_document_body_waits env dh k s)
                (fun k s _ => download_document_body_starts env dh k s)
                eq_refl 2 1 (Some pb) I) as H.
  unfold retried in H. cbv zeta in H.
  change (retrying [TemporaryError] 5 (download_document_body env dh) 2 1 (Some pb))
    with x in H.
  fold (attempts (trace x)) in H. fold n in H.
  destruct H as (Hn & Hw & Hb & (ev & rest & Hst & Hmk) & Hk & Ho & Hs & _).
  replace (1 + n - 1) with n in * by lia.
  repeat split; try lia; auto.
  destruct (download_document_starts_with env dh (Some pb)) as [rest' E].
  exists rest'. exact E.
Qed.

(** ** Coroutines that leave [progress_bar_download] bound *)

Lemma keeps_bound_ret {A} (a : A) : keeps_bound (ret a).
Proof. intros s H; exact H. Qed.

Lemma keeps_bound_raise {A} e : keeps_bound (@raise A e).
Proof. intros s H; exact H. Qed.

Lemma keeps_bound_emit ev : keeps_bound (emit ev).
Proof. intros s H; exact H. Qed.

Lemma keeps_bound_call {A} ev (r : result A) : keeps_bound (call ev r).
Proof. intros s H; exact H. Qed.

Lemma keeps_bound_bind {A B} (m : M A) (f : A -> M B) :
  keeps_bound m -> (forall a, keeps_bound (f a)) -> keeps_bound (bind m f).
Proof.
  intros Hm Hf s Hs. rewrite run_bind.
  destruct (outcome (m s)); rewrite store_mk; [apply Hf|]; now apply Hm.
Qed.

Lemma keeps_bound_try_except {A} (m : M A) handler :
  keeps_bound m -> (forall e h, handler e = Some h -> keeps_bound h) ->
  keeps_bound (try_except m handler).
Proof.
  intros Hm Hh s Hs. rewrite run_try_except.
  destruct (outcome (m s)) as [a|e]; rewrite ?store_mk; [now apply Hm|].
  destruct (handler e) as [h|] eqn:E; rewrite store_mk; [|now apply Hm].
  eapply Hh; eauto.
Qed.

Lemma keeps_bound_try_finally {A} (m : M A) fin :
  keeps_bound m -> keeps_bound fin -> keeps_bound (try_finally m fin).
Proof.
  intros Hm Hf s Hs. rewrite run_try_finally, store_mk. apply Hf, Hm, Hs.
Qed.

Lemma keeps_bound_safe_execution {A} b on_fail (block : M A) :
  keeps_bound block -> (forall f, on_fail = Some f -> keeps_bound f) ->
  keeps_bound (safe_execution b on_fail block).
Proof.
  intros Hb Hf s Hs. rewrite run_safe_execution.
  destruct (outcome (block s)); rewrite store_mk; [now apply Hb|].
  destruct on_fail as [f|]; [apply (Hf f eq_refl)|]; now apply Hb.
Qed.

Lemma keeps_bound_retrying {A} classes w (fn : nat -> M A) :
  (forall n, keeps_bound (fn n)) ->
  forall remaining n, keeps_bound (retrying classes w fn remaining n).
Proof.
  intros Hfn remaining.
  induction remaining as [|k IH]; intros n s Hs.
  - rewrite run_retrying_O. now apply Hfn.
  - rewrite run_retrying_S.
    destruct (outcome (fn n s)) as [a|e]; [now apply Hfn|].
    destruct (isinstance e classes); [|now apply Hfn].
    cbv zeta. rewrite store_mk. apply IH. now apply Hfn.
Qed.

Lemma keeps_bound_download_document env dh :
  keeps_bound (download_document env dh).
Proof.
  apply keeps_bound_retrying. intros n s. apply download_document_body_bound.
Qed.

Lemma keeps_bound_send_file env file cb : keeps_bound (send_file env file cb).
Proof.
  apply keeps_bound_retrying. intros n. unfold send_file_body.
  destruct (telegram_client env); [|apply keeps_bound_ret].
  apply keeps_bound_bind; [apply keeps_bound_call|intros m].
  apply keeps_bound_bind; [apply keeps_bound_emit|intros _; apply keeps_bound_ret].
Qed.

Lemma keeps_bound_progress_bar_download : keeps_bound progress_bar_download.
Proof. intros [pb|] H; [exact H|contradiction]. Qed.

Lemma keeps_bound_respond_not_found env : keeps_bound (respond_not_found env).
Proof.
  unfold respond_not_found.
  destruct (telegram_client env); [apply keeps_bound_call|apply keeps_bound_raise].
Qed.

Lemma keeps_bound_on_fail env : keeps_bound (_on_fail env).
Proof.
  unfold _on_fail.
  destruct (telegram_client env); [apply keeps_bound_call|apply keeps_bound_raise].
Qed.

Lemma keeps_bound_upload env dh file : keeps_bound (upload env dh file).
Proof.
  unfold upload.
  apply keeps_bound_bind; [apply keeps_bound_emit|intros _].
  apply keeps_bound_bind; [apply keeps_bound_progress_bar_download|intros pbd].
  apply keeps_bound_bind; [apply keeps_bound_emit|intros _].
  apply keeps_bound_bind; [apply keeps_bound_send_file|intros o].
  destruct o as [m|].
  - apply keeps_bound_bind; [apply keeps_bound_call|intros _; apply keeps_bound_emit].
  - apply keeps_bound_raise.
Qed.

Lemma keeps_bound_long_task_try env dh : keeps_bound (long_task_try env dh).
Proof.
  unfold long_task_try.
  apply keeps_bound_bind; [apply keeps_bound_download_document|intros file].
  destruct (truthy_bytes file); [apply keeps_bound_upload|].
  unfold not_found.
  apply keeps_bound_bind; [apply keeps_bound_emit|intros _].
  apply keeps_bound_respond_not_found.
Qed.

Lemma long_task_handler_cases env e h :
  long_task_handler env e = Some h ->
  h = external_cancel env \/ h = emit (Statbox "user_canceled") \/
  h = emit (Statbox "canceled").
Proof.
  unfold long_task_handler.
  destruct (isinstance e [ServiceUnavailableError; DownloadError]);
    [intros [= <-]; auto|].
  destruct (isinstance e [ProgressBarLostMessageError]);
    [intros [= <-]; auto|].
  destruct (isinstance e [CancelledError]); [intros [= <-]; auto|discriminate].
Qed.

(** [external_cancel] records the call and sends the maintenance message;
    it never raises and leaves the store as it is. *)
Lemma run_external_cancel env s :
  external_cancel env s =
  (ExternalCancel ::
   (if telegram_client env then
      SendMessage (t "MAINTENANCE") (client_send_message env (t "MAINTENANCE")) ::
      match client_send_message env (t "MAINTENANCE") with
      | Ok _ => []
      | Raise e => [ErrorLog e]
      end
    else [ErrorLog AttributeError]),
   s, Ok tt).
Proof.
  unfold external_cancel, bind, emit, safe_execution, call, raise, ret.
  destruct (telegram_client env); [|reflexivity].
  destruct (client_send_message env (t "MAINTENANCE")); reflexivity.
Qed.

Lemma every_external_cancel Q env :
  Q ExternalCancel = true -> (forall e, Q (ErrorLog e) = true) ->
  (forall r, Q (SendMessage (t "MAINTENANCE") r) = true) ->
  every Q (external_cancel env).
Proof.
  intros H1 H2 H3 s. rewrite run_external_cancel, trace_mk. simpl. rewrite H1.
  destruct (telegram_client env); simpl; [|now rewrite H2].
  rewrite H3. destruct (client_send_message env _); simpl; now rewrite ?H2.
Qed.

Lemma keeps_bound_long_task_try_except env dh :
  keeps_bound (try_except (long_task_try env dh) (long_task_handler env)).
Proof.
  apply keeps_bound_try_except; [apply keeps_bound_long_task_try|].
  intros e h H. destruct (long_task_handler_cases env e h H) as [-> | [-> | ->]];
    [|apply keeps_bound_emit|apply keeps_bound_emit].
  intros s Hs. now rewrite run_external_cancel, store_mk.
Qed.

(** The [finally] block never raises and leaves the store as it is. *)
Lemma run_long_task_finally env pb :
  long_task_finally env (Some pb) =
  (match message pb with
   | Some m => deletion env [m]
   | None => []
   end ++ [DebugLog "deleted_progress_message"],
   Some pb, Ok tt).
Proof.
  unfold long_task_finally, deletion, bind, progress_bar_download,
    safe_execution, call, raise, ret, emit; simpl.
  destruct (message pb) as [m|]; simpl; [|reflexivity].
  destruct (telegram_client env); simpl; [|reflexivity].
  destruct (client_delete_messages env) as [u|e]; reflexivity.
Qed.

(** The failure notification never changes the store. *)
Lemma store_on_fail env s : store (_on_fail env s) = s.
Proof. unfold _on_fail. destruct (telegram_client env); reflexivity. Qed.

Lemma run_new_progress_bar_download {A} pb (k : M A) s :
  (new_progress_bar_download pb ;; k) s =
  (NewProgressBar pb :: trace (k (Some pb)), store (k (Some pb)),
   outcome (k (Some pb))).
Proof.
  unfold bind, new_progress_bar_download.
  destruct (k (Some pb)) as [[tr s1] r]; reflexivity.
Qed.

(** The second guarded block, piece by piece: the new bar, the [try] with its
    handlers, the [finally], and what [safe_execution] does with an exception
    that no clause handled. *)
Lemma run_cache_miss env dh s :
  let x := try_except (long_task_try env dh) (long_task_handler env)
                      (Some (download_bar env dh)) in
  cache_miss env dh s =
  (NewProgressBar (download_bar env dh) ::
   trace x ++ trace (long_task_finally env (store x)) ++
   match outcome x with
   | Ok _ => []
   | Raise e => on_error true (Some (_on_fail env)) e (store x)
   end,
   store x, Ok tt).
Proof.
  intro x.
  assert (Hb : bound (store x))
    by (apply keeps_bound_long_task_try_except; exact I).
  unfold cache_miss. rewrite run_bind, run_safe_execution.
  rewrite run_new_progress_bar_download.
  unfold long_task_guarded. rewrite run_try_finally. fold x.
  destruct (store x) as [pb|] eqn:Es; [|contradiction].
  rewrite run_long_task_finally.
  rewrite !outcome_mk, !store_mk, !trace_mk.
  destruct (outcome x) as [u|e]; rewrite !outcome_mk, !store_mk, !trace_mk.
  - simpl. rewrite !app_nil_r. reflexivity.
  - rewrite store_on_fail. simpl. rewrite !app_nil_r, <- !app_assoc. reflexivity.
Qed.

Lemma cache_miss_any_store env dh s s' : cache_miss env dh s = cache_miss env dh s'.
Proof. now rewrite !run_cache_miss. Qed.

(** [long_task], piece by piece: the cache lookup, the delivery of a cached
    file, and the second guarded block when there is no cached file or its
    delivery raised. *)
Lemma run_long_task env dh s :
  let c := cache_check env s in
  long_task env dh s =
  match outcome c with
  | Raise e => (trace c, store c, Raise e)
  | Ok None =>
      (trace c ++ trace (cache_miss env dh s), store (cache_miss env dh s), Ok tt)
  | Ok (Some id) =>
      let d := (send_file env (CachedFile id) None ;; emit (Statbox "cache_hit"))
                 (store c) in
      match outcome d with
      | Ok _ => (trace c ++ trace d, store d, Ok tt)
      | Raise e =>
          (trace c ++ (trace d ++ [ErrorLog e]) ++ trace (cache_miss env dh s),
           store (cache_miss env dh s), Ok tt)
      end
  end.
Proof.
  intro c. unfold long_task. rewrite run_bind. fold c.
  destruct (outcome c) as [[id|]|e]; [| |reflexivity].
  - cbv zeta. rewrite run_bind, run_safe_execution.
    set (d := (send_file env (CachedFile id) None;; emit (Statbox "cache_hit")) (store c)).
    destruct (outcome d) as [u|e]; rewrite !outcome_mk, !store_mk, !trace_mk.
    + simpl. now rewrite app_nil_r.
    + rewrite (cache_miss_any_store env dh _ s), (run_cache_miss env dh s).
      cbv zeta. rewrite !outcome_mk, !store_mk, !trace_mk. reflexivity.
  - rewrite (cache_miss_any_store env dh _ s), (run_cache_miss env dh s).
    cbv zeta. rewrite !outcome_mk, !store_mk, !trace_mk. reflexivity.
Qed.

(** ** The lost-message signal *)

Lemma after_lost_app tr1 tr2 :
  after_lost (tr1 ++ tr2) =
  match after_lost tr1 with
  | Some post => Some (post ++ tr2)
  | None => after_lost tr2
  end.
Proof.
  induction tr1 as [|ev tr1 IH]; simpl; [reflexivity|].
  destruct (lost_signal ev); [reflexivity|exact IH].
Qed.

Lemma after_lost_none tr : forallb no_lost tr = true -> after_lost tr = None.
Proof.
  induction tr as [|ev tr IH]; simpl; [reflexivity|].
  unfold no_lost at 1. destruct (lost_signal ev); simpl; [discriminate|exact IH].
Qed.

Lemma lost_signal_not_quiet ev : lost_signal ev = true -> quiet ev = false.
Proof.
  destruct ev; simpl; try discriminate; reflexivity.
Qed.

(** A signal followed by quiet events only is the first signal. *)
Lemma after_lost_split : forall pre tr ev post post0,
  tr = pre ++ ev :: post -> lost_signal ev = true ->
  after_lost tr = Some post0 -> forallb quiet post0 = true -> post = post0.
Proof.
  induction pre as [|a pre IH]; intros tr ev post post0 -> Hev; simpl.
  - rewrite Hev. now intros [= ->].
  - destruct (lost_signal a).
    + intros [= <-] Hq. rewrite forallb_app in Hq. simpl in Hq.
      rewrite (lost_signal_not_quiet ev Hev) in Hq.
      rewrite andb_false_r in Hq. discriminate.
    + intros H Hq. eapply IH; eauto.
Qed.

Lemma after_lost_some : forall pre ev post,
  lost_signal ev = true -> exists post0, after_lost (pre ++ ev :: post) = Some post0.
Proof.
  induction pre as [|a pre IH]; intros ev post Hev; simpl.
  - rewrite Hev. eauto.
  - destruct (lost_signal a); eauto.
Qed.

Lemma lost_last_every {A} (m : M A) : every no_lost m -> lost_last m.
Proof. intros H s. left. apply after_lost_none, H. Qed.

Lemma lost_last_call {A} ev (r : result A) :
  (lost_signal ev = true -> r = Raise ProgressBarLostMessageError) ->
  lost_last (call ev r).
Proof.
  intros H s. simpl. destruct (lost_signal ev); [right|left]; auto.
Qed.

Lemma lost_last_bar_call ev o :
  (forall r, lost_signal (ev r) = true -> r = Raise ProgressBarLostMessageError) ->
  lost_last (bar_call ev o).
Proof.
  intros H [pb|]; simpl; [|now left].
  destruct (lost_signal (ev (snd o))) eqn:E; [right|left]; auto.
Qed.

Lemma lost_last_bind {A B} (m : M A) (f : A -> M B) :
  lost_last m -> (forall a, lost_last (f a)) -> lost_last (bind m f).
Proof.
  intros Hm Hf s. rewrite run_bind.
  destruct (Hm s) as [Hn|[Hl Ho]].
  - destruct (outcome (m s)) as [a|e]; rewrite trace_mk, outcome_mk.
    + rewrite after_lost_app, Hn. apply Hf.
    + now left.
  - rewrite Ho, trace_mk, outcome_mk. now right.
Qed.

Lemma lost_last_retrying {A} classes w (fn : nat -> M A) :
  isinstance ProgressBarLostMessageError classes = false ->
  (forall n, lost_last (fn n)) ->
  forall remaining n, lost_last (retrying classes w fn remaining n).
Proof.
  intros Hc Hfn remaining.
  induction remaining as [|k IH]; intros n s.
  - rewrite run_retrying_O. apply Hfn.
  - rewrite run_retrying_S.
    destruct (outcome (fn n s)) as [a|e] eqn:Eo; [apply Hfn|].
    destruct (isinstance e classes) eqn:Ei; [|apply Hfn].
    cbv zeta. rewrite trace_mk, outcome_mk.
    destruct (Hfn n s) as [Hn|[Hl Ho]].
    + rewrite after_lost_app, Hn. simpl. apply IH.
    + rewrite Eo in Ho. injection Ho as ->. congruence.
Qed.

Lemma lost_last_get_iter_loop cs finish size : forall collected,
  lost_last (get_iter_loop cs finish size collected).
Proof.
  induction cs as [|[chunk o] rest IH]; intro collected; simpl.
  - destruct finish; apply lost_last_every; [apply every_raise|apply every_ret].
  - apply lost_last_bind; [|intros _; apply IH].
    apply lost_last_bar_call. intros [u|[]]; simpl; congruence.
Qed.

Lemma lost_last_download_document env dh : lost_last (download_document env dh).
Proof.
  apply lost_last_retrying; [reflexivity|intro n].
  unfold download_document_body.
  apply lost_last_bind; [apply lost_last_every, every_emit; reflexivity|intros _].
  apply lost_last_bind;
    [apply lost_last_bar_call; intros [u|[]]; simpl; congruence|intros _].
  apply lost_last_bind; [apply lost_last_every, every_emit; reflexivity|intros _].
  apply lost_last_get_iter_loop.
Qed.

Lemma lost_last_send_file env file cb : lost_last (send_file env file cb).
Proof.
  apply lost_last_retrying; [reflexivity|intro n].
  unfold send_file_body.
  destruct (telegram_client env); [|apply lost_last_every, every_ret].
  apply lost_last_bind.
  - apply lost_last_call. destruct file, cb; simpl; try discriminate.
    destruct (client_send_file env (Content b) n) as [m|[]]; simpl; congruence.
  - intros m. apply lost_last_every.
    apply every_bind; [now apply every_emit|intros _; apply every_ret].
Qed.

Lemma every_send_cached Q env id :
  (forall r, Q (SendFile (CachedFile id) None r) = true) ->
  (forall a, Q (Statbox a) = true) -> (forall w, Q (Sleep w) = true) ->
  every Q (send_file env (CachedFile id) None).
Proof.
  intros H1 H2 H3. apply every_retry; [apply H3|intro n].
  unfold send_file_body.
  destruct (telegram_client env); [|apply every_ret].
  apply every_bind; [apply every_call, H1|intros m].
  apply every_bind; [apply every_emit, H2|intros _; apply every_ret].
Qed.

Lemma lost_last_long_task_try env dh : lost_last (long_task_try env dh).
Proof.
  unfold long_task_try.
  apply lost_last_bind; [apply lost_last_download_document|intro file].
  destruct (truthy_bytes file).
  - unfold upload.
    apply lost_last_bind; [apply lost_last_every, every_emit; reflexivity|intros _].
    apply lost_last_bind; [|intro pbd].
    { intros [pb|]; now left. }
    apply lost_last_bind; [apply lost_last_every, every_emit; reflexivity|intros _].
    apply lost_last_bind; [apply lost_last_send_file|intro o].
    destruct o as [m|]; apply lost_last_every; [|apply every_raise].
    apply every_bind; [now apply every_call|intros _; now apply every_emit].
  - unfold not_found.
    apply lost_last_every.
    apply every_bind; [now apply every_emit|intros _].
    unfold respond_not_found.
    destruct (telegram_client env); [now apply every_call|apply every_raise].
Qed.

Lemma every_long_task_finally Q env :
  (forall ms r, Q (DeleteMessages ms r) = true) ->
  (forall e, Q (ErrorLog e) = true) -> (forall a, Q (DebugLog a) = true) ->
  every Q (long_task_finally env).
Proof.
  intros H1 H2 H3. unfold long_task_finally.
  apply every_bind; [intros [pb|]; reflexivity|intro pbd].
  apply every_bind; [|intros _; apply every_emit, H3].
  destruct (filter_none [message pbd]); [apply every_ret|].
  apply every_bind; [|intros _; apply every_ret].
  apply every_safe_execution; [exact H2| |discriminate].
  destruct (telegram_client env); [apply every_call, H1|apply every_raise].
Qed.

Lemma every_long_task_handler Q env e h :
  Q ExternalCancel = true -> (forall e, Q (ErrorLog e) = true) ->
  (forall r, Q (SendMessage (t "MAINTENANCE") r) = true) ->
  (forall a, Q (Statbox a) = true) ->
  long_task_handler env e = Some h -> every Q h.
Proof.
  intros H1 H2 H3 H4 H.
  destruct (long_task_handler_cases env e h H) as [-> | [-> | ->]];
    [now apply every_external_cancel|apply every_emit, H4|apply every_emit, H4].
Qed.

Lemma forallb_on_error Q env e s :
  (forall e, Q (ErrorLog e) = true) -> (forall txt r, Q (SendMessage txt r) = true) ->
  forallb Q (on_error true (Some (_on_fail env)) e s) = true.
Proof.
  intros H1 H2. unfold on_error, _on_fail.
  destruct (telegram_client env); simpl.
  - rewrite H1, H2. destruct (client_send_message env _); simpl; rewrite ?H1; reflexivity.
  - rewrite !H1. reflexivity.
Qed.

Lemma cache_miss_silent_cancel env dh s : silent_cancel (cache_miss env dh s).
Proof.
  unfold silent_cancel. rewrite run_cache_miss. cbv zeta.
  rewrite trace_mk, outcome_mk. rewrite run_try_except.
  set (T := long_task_try env dh (Some (download_bar env dh))).
  pose proof (every_long_task_finally no_lost env
                (fun _ _ => eq_refl) (fun _ => eq_refl) (fun _ => eq_refl)) as Hfin.
  destruct (lost_last_long_task_try env dh (Some (download_bar env dh)))
    as [Hn|[Hl Ho]]; fold T in Hn || fold T in Hl, Ho.
  - (* no signal: nothing after the [try] can be one *)
    assert (E : forall tr, forallb no_lost tr = true ->
                after_lost (NewProgressBar (download_bar env dh) :: trace T ++ tr) = None).
    { intros tr Htr. simpl. rewrite after_lost_app, Hn. now apply after_lost_none. }
    destruct (outcome T) as [u|e] eqn:Eo.
    + rewrite trace_mk, store_mk, outcome_mk, app_nil_r.
      rewrite E; [exact I|apply Hfin].
    + destruct (long_task_handler env e) as [h|] eqn:Eh;
        rewrite trace_mk, store_mk, outcome_mk.
      * pose proof (every_long_task_handler no_lost env e h eq_refl
                      (fun _ => eq_refl) (fun _ => eq_refl) (fun _ => eq_refl) Eh)
          as Hh.
        rewrite <- app_assoc. rewrite E; [exact I|].
        rewrite !forallb_app, Hh, Hfin.
        destruct (outcome (h (store T))); [reflexivity|].
        rewrite forallb_on_error by reflexivity. reflexivity.
      * rewrite E; [exact I|].
        rewrite forallb_app, Hfin, forallb_on_error by reflexivity. reflexivity.
  - (* the signal ended the [try]: the clause of line 139 runs *)
    rewrite Ho.
    change (long_task_handler env ProgressBarLostMessageError)
      with (Some (emit (Statbox "user_canceled"))).
    cbv iota. rewrite !trace_mk, !store_mk, !outcome_mk.
    unfold emit at 1 2. rewrite !trace_mk, !store_mk. simpl after_lost.
    rewrite <- app_assoc, after_lost_app, Hl. simpl.
    rewrite app_nil_r.
    pose proof (every_long_task_finally quiet env
                (fun _ _ => eq_refl) (fun _ => eq_refl) (fun _ => eq_refl)
                (store T)) as Hq.
    rewrite Hq. repeat split; eauto.
Qed.

Lemma long_task_silent_cancel env dh s : silent_cancel (long_task env dh s).
Proof.
  unfold silent_cancel. rewrite run_long_task. cbv zeta.
  assert (Hc : forallb no_lost (trace (cache_check env s)) = true).
  { revert s. change (every no_lost (cache_check env)). unfold cache_check.
    apply every_bind; [now apply every_call|intro from_db].
    apply every_bind; [|intros; apply every_ret].
    destruct (truthy_id from_db); [apply every_ret|].
    destruct (telegram_client env); [now apply every_call|apply every_raise]. }
  pose proof (cache_miss_silent_cancel env dh s) as Hm.
  unfold silent_cancel in Hm.
  destruct (outcome (cache_check env s)) as [[id|]|e].
  - set (d := (send_file env (CachedFile id) None;; emit (Statbox "cache_hit"))
                (store (cache_check env s))).
    assert (Hd : forallb no_lost (trace d) = true).
    { subst d. generalize (store (cache_check env s)).
      change (every no_lost (send_file env (CachedFile id) None;; emit (Statbox "cache_hit"))).
      apply every_bind; [now apply every_send_cached|intros _; now apply every_emit]. }
    destruct (outcome d) as [u|e]; rewrite trace_mk, outcome_mk.
    + rewrite after_lost_none; [exact I|]. now rewrite forallb_app, Hc, Hd.
    + rewrite app_assoc, after_lost_app.
      rewrite (after_lost_none (_ ++ _)).
      2:{ now rewrite !forallb_app, Hc, Hd. }
      destruct (after_lost (trace (cache_miss env dh s))) as [post|]; [|exact I].
      destruct Hm as (H1 & H2 & H3). repeat split; eauto.
  - rewrite trace_mk, outcome_mk, after_lost_app, (after_lost_none _ Hc).
    destruct (after_lost (trace (cache_miss env dh s))) as [post|]; [|exact I].
    destruct Hm as (H1 & H2 & H3). repeat split; eauto.
  - rewrite trace_mk. now rewrite after_lost_none.
Qed.

(** C7. In every execution of the task, whatever the collaborators do: when
    the progress bar signals a lost message, no event after the signal sends
    anything to the requester (no message, no [external_cancel]) or belongs
    to another attempt of the fetch or of the delivery (no sleep, no
    [do_request], no [get_iter], no [send_file], no further bar call); the
    task records [user_canceled] and ends normally. *)
Theorem C7_lost_message_is_silent_cancel (env : Env) (dh : DocumentHolder)
    (s : Store) (pre post : list event) (ev : event) :
  trace (long_task env dh s) = pre ++ ev :: post ->
  lost_signal ev = true ->
  forallb quiet post = true /\
  In (Statbox "user_canceled") post /\
  outcome (long_task env dh s) = Ok tt.
Proof.
  intros Htr Hev.
  pose proof (long_task_silent_cancel env dh s) as H.
  unfold silent_cancel in H.
  destruct (after_lost_some pre ev post Hev) as [post0 E].
  rewrite <- Htr in E. rewrite E in H.
  destruct H as (Hq & Hin & [[] Ho]).
  rewrite (after_lost_split pre _ ev post post0 Htr Hev E Hq).
  auto.
Qed.

(** ** Which events each part of the task can perform *)

Lemma every_mono {A} (P Q : event -> bool) (m : M A) :
  (forall ev, P ev = true -> Q ev = true) -> every P m -> every Q m.
Proof.
  intros H Hm s. specialize (Hm s).
  rewrite forallb_forall in *. auto.
Qed.

Lemma every_long_task_try env dh : every try_event (long_task_try env dh).
Proof.
  unfold long_task_try. apply every_bind.
  - apply every_retry; [reflexivity|intro n]. unfold download_document_body.
    apply every_bind; [now apply every_emit|intros _].
    apply every_download_rest; reflexivity.
  - intro file. destruct (truthy_bytes file).
    + unfold upload.
      apply every_bind; [now apply every_emit|intros _].
      apply every_bind; [intros [pb|]; reflexivity|intro pbd].
      apply every_bind; [now apply every_emit|intros _].
      apply every_bind.
      * apply every_retry; [reflexivity|intro n]. unfold send_file_body.
        destruct (telegram_client env); [|apply every_ret].
        apply every_bind; [now apply every_call|intros m].
        apply every_bind; [now apply every_emit|intros _; apply every_ret].
      * intro o. destruct o as [m|]; [|apply every_raise].
        apply every_bind; [now apply every_call|intros _; now apply every_emit].
    + unfold not_found.
      apply every_bind; [now apply every_emit|intros _].
      unfold respond_not_found.
      destruct (telegram_client env); [now apply every_call|apply every_raise].
Qed.


Lemma every_cache_check env : every cached_event (cache_check env).
Proof.
  unfold cache_check.
  apply every_bind; [now apply every_call|intro from_db].
  apply every_bind; [|intros; apply every_ret].
  destruct (truthy_id from_db); [apply every_ret|].
  destruct (telegram_client env); [now apply every_call|apply every_raise].
Qed.


Lemma truthy_id_idem o id : truthy_id o = Some id -> truthy_id (Some id) = Some id.
Proof.
  destruct o as [id'|]; simpl; [|discriminate].
  destruct (String.eqb id' "") eqn:E; [discriminate|].
  intros [= <-]. now rewrite E.
Qed.

(** Without a client there is no lookup in the client's cache: the lookup
    found nothing only if the client is there. *)
Lemma cache_check_miss_client env s :
  outcome (cache_check env s) = Ok None -> telegram_client env = true.
Proof.
  unfold cache_check, bind, call, ret, raise, outcome; simpl.
  destruct (db_get_cached_file env) as [from_db|e]; simpl; [|discriminate].
  destruct (truthy_id from_db) as [id|] eqn:E; simpl.
  - change (match id with EmptyString => false | String _ _ => false end)
      with (String.eqb id "").
    pose proof (truthy_id_idem _ _ E) as E'. simpl in E'.
    destruct (String.eqb id ""); discriminate.
  - destruct (telegram_client env); [reflexivity|discriminate].
Qed.

Lemma retrying_send_file_no_client env file cb remaining n s :
  telegram_client env = false ->
  retrying [RpcTimeoutError; ValueError] 0 (send_file_body env file cb)
           remaining n s = ([], s, Ok None).
Proof.
  intro H. destruct remaining; simpl; unfold send_file_body; rewrite H; reflexivity.
Qed.


(** [send_file] and the cache lookup never touch the progress bar. *)
Lemma store_retrying {A} classes w (fn : nat -> M A) :
  (forall n s, store (fn n s) = s) ->
  forall remaining n s, store (retrying classes w fn remaining n s) = s.
Proof.
  intros Hfn remaining.
  induction remaining as [|k IH]; intros n s.
  - rewrite run_retrying_O. apply Hfn.
  - rewrite run_retrying_S.
    destruct (outcome (fn n s)) as [a|e]; [apply Hfn|].
    destruct (isinstance e classes); [|apply Hfn].
    cbv zeta. rewrite store_mk, IH. apply Hfn.
Qed.

Lemma store_send_file env file cb s : store (send_file env file cb s) = s.
Proof.
  apply store_retrying. intros n s'. unfold send_file_body.
  destruct (telegram_client env); [|reflexivity].
  unfold bind, call, emit, ret, store; simpl.
  destruct (client_send_file env file n); reflexivity.
Qed.

Lemma store_cache_check env s : store (cache_check env s) = s.
Proof.
  unfold cache_check, bind, call, ret, raise, store; simpl.
  destruct (db_get_cached_file env) as [o|]; simpl; [|reflexivity].
  destruct (truthy_id o); simpl; [reflexivity|].
  destruct (telegram_client env); simpl; [|reflexivity].
  destruct (client_get_cached_file_id env); reflexivity.
Qed.

Lemma store_cached_delivery env id s :
  store ((send_file env (CachedFile id) None ;; emit (Statbox "cache_hit")) s) = s.
Proof.
  rewrite run_bind.
  destruct (outcome _); rewrite store_mk; [simpl|]; apply store_send_file.
Qed.

(** ** Cleanup *)













(** ** The failure path *)

Lemma every_download_document env dh : every download_event (download_document env dh).
Proof.
  apply every_retry; [reflexivity|intro n]. unfold download_document_body.
  apply every_bind; [now apply every_emit|intros _].
  apply every_download_rest; reflexivity.
Qed.

Lemma sent_messages_app tr1 tr2 :
  sent_messages (tr1 ++ tr2) = sent_messages tr1 ++ sent_messages tr2.
Proof. apply flat_map_app. Qed.

Lemma no_notice_sent tr : forallb no_notice tr = true -> sent_messages tr = [].
Proof.
  induction tr as [|ev tr IH]; simpl; [reflexivity|].
  intro H. apply andb_prop in H. destruct H as [H1 H2].
  destruct ev; simpl in *; try discriminate; auto.
Qed.

Lemma no_notice_cancel tr : forallb no_notice tr = true -> count is_external_cancel tr = 0.
Proof.
  intro H. apply count_none. rewrite forallb_forall in *.
  intros ev Hev. specialize (H ev Hev). destruct ev; try reflexivity; exact H.
Qed.

Lemma download_event_no_notice ev : download_event ev = true -> no_notice ev = true.
Proof. destruct ev; simpl; try discriminate; reflexivity. Qed.

(** When the download raises an error of the first [except] clause, the
    second guarded block runs the download, [external_cancel] and the
    [finally] block; nothing is left for the guard to handle. *)
Lemma run_cache_miss_download_error env dh s e :
  let D := download_document env dh (Some (download_bar env dh)) in
  outcome D = Raise e ->
  isinstance e [ServiceUnavailableError; DownloadError] = true ->
  cache_miss env dh s =
  (NewProgressBar (download_bar env dh) ::
   trace D ++ trace (external_cancel env (store D)) ++
   trace (long_task_finally env (store D)),
   store D, Ok tt).
Proof.
  intros D Ho Hi. rewrite run_cache_miss. cbv zeta.
  rewrite run_try_except. unfold long_task_try. rewrite run_bind.
  fold D. rewrite Ho, !outcome_mk, !store_mk, !trace_mk.
  unfold long_task_handler. rewrite Hi.
  rewrite (run_external_cancel env (store D)), !outcome_mk, !store_mk, !trace_mk.
  rewrite app_nil_r, <- !app_assoc. reflexivity.
Qed.

Lemma cached_event_no_notice ev : cached_event ev = true -> no_notice ev = true.
Proof. destruct ev; simpl; try discriminate; reflexivity. Qed.

Lemma finally_delivers_no_bytes env s :
  count delivers_bytes (trace (long_task_finally env s)) = 0.
Proof.
  apply count_none. apply (every_long_task_finally _ env); reflexivity.
Qed.

(** C1. On the cache-miss path, when the fetch ends with a
    [ServiceUnavailableError] or a [DownloadError] (after the third attempt,
    or at once for an error that is not retried), the clause of line 137
    calls [external_cancel], which sends the maintenance message to the
    requester; a failure of the sending is logged and not re-raised; the
    [finally] block runs and the task ends normally.  The requester gets
    that one message, no bytes are sent and the cache is not written. *)
Theorem C1_backend_failure_notifies_requester (env : Env) (dh : DocumentHolder)
    (s : Store) (e : exn) :
  let c := cache_check env s in
  let D := download_document env dh (Some (download_bar env dh)) in
  let notice := client_send_message env (t "MAINTENANCE") in
  outcome c = Ok None ->
  outcome D = Raise e ->
  isinstance e [ServiceUnavailableError; DownloadError] = true ->
  long_task env dh s =
  (trace c ++
   NewProgressBar (download_bar env dh) ::
   trace D ++
   ExternalCancel :: SendMessage (t "MAINTENANCE") notice ::
   match notice with Ok _ => [] | Raise e2 => [ErrorLog e2] end ++
   trace (long_task_finally env (store D)),
   store D, Ok tt) /\
  sent_messages (trace (long_task env dh s)) = [t "MAINTENANCE"] /\
  count is_external_cancel (trace (long_task env dh s)) = 1 /\
  count delivers_bytes (trace (long_task env dh s)) = 0.
Proof.
  intros c D notice Hc Ho Hi.
  pose proof (cache_check_miss_client env s Hc) as Hcl.
  assert (E : long_task env dh s =
    (trace c ++
     NewProgressBar (download_bar env dh) ::
     trace D ++
     ExternalCancel :: SendMessage (t "MAINTENANCE") notice ::
     match notice with Ok _ => [] | Raise e2 => [ErrorLog e2] end ++
     trace (long_task_finally env (store D)),
     store D, Ok tt)).
  { rewrite run_long_task. cbv zeta. fold c. rewrite Hc.
    rewrite (run_cache_miss_download_error env dh s e Ho Hi).
    fold D. rewrite run_external_cancel, Hcl, !trace_mk, !store_mk.
    reflexivity. }
  split; [exact E|]. rewrite E, trace_mk.
  pose proof (every_cache_check env s) as HC. fold c in HC.
  pose proof (every_download_document env dh (Some (download_bar env dh))) as HD.
  fold D in HD.
  pose proof (every_long_task_finally no_notice env
                (fun _ _ => eq_refl) (fun _ => eq_refl) (fun _ => eq_refl) (store D))
    as HF.
  assert (HCn : forallb no_notice (trace c) = true).
  { rewrite forallb_forall in *. intros ev Hev.
    apply cached_event_no_notice, HC, Hev. }
  assert (HDn : forallb no_notice (trace D) = true).
  { rewrite forallb_forall in *. intros ev Hev.
    apply download_event_no_notice, HD, Hev. }
  assert (Hcd : forall ev, cached_event ev = true -> delivers_bytes ev = false).
  { intros ev; destruct ev; simpl; try discriminate; try reflexivity.
    destruct file; [reflexivity|discriminate]. }
  assert (Hdd : forall ev, download_event ev = true -> delivers_bytes ev = false)
    by (intros ev; destruct ev; simpl; try discriminate; reflexivity).
  change (NewProgressBar (download_bar env dh) :: trace D ++ ?l)
    with ([NewProgressBar (download_bar env dh)] ++ trace D ++ l).
  change (ExternalCancel :: SendMessage (t "MAINTENANCE") notice :: ?l ++ ?f)
    with (([ExternalCancel; SendMessage (t "MAINTENANCE") notice] ++ l) ++ f).
  rewrite !sent_messages_app, !count_app.
  rewrite (no_notice_sent _ HCn), (no_notice_sent _ HDn), (no_notice_sent _ HF).
  rewrite (no_notice_cancel _ HCn), (no_notice_cancel _ HDn), (no_notice_cancel _ HF).
  rewrite (count_zero _ _ _ Hcd HC), (count_zero _ _ _ Hdd HD),
    finally_delivers_no_bytes.
  destruct notice; repeat split.
Qed.

(** ** The result of the download and the branch on it *)

Lemma get_iter_loop_collects cs finish size : forall collected s file,
  outcome (get_iter_loop cs finish size collected s) = Ok file ->
  file = (collected ++ List.concat (map fst cs))%list.
Proof.
  induction cs as [|[chunk o] rest IH]; intros collected s file; simpl.
  - destruct finish; simpl; [discriminate|].
    intros [= <-]. now rewrite app_nil_r.
  - rewrite run_bind.
    destruct (outcome (bar_call _ o s)); rewrite outcome_mk; [|discriminate].
    intro H. apply IH in H. now rewrite <- app_assoc in H.
Qed.

Lemma download_document_body_collects env dh n s file :
  outcome (download_document_body env dh n s) = Ok file ->
  file = List.concat (map fst (chunks (ipfs_get_iter env n))).
Proof.
  rewrite run_download_document_body, outcome_mk. unfold download_rest.
  rewrite run_bind.
  destruct (outcome (bar_call _ _ s)); rewrite outcome_mk; [|discriminate].
  rewrite run_emit, outcome_mk. intro H.
  now apply get_iter_loop_collects in H.
Qed.

(** The download ends as its last attempt ended. *)
Lemma download_document_last_attempt env dh pb :
  let x := download_document env dh (Some pb) in
  outcome x = outcome (download_document_body env dh (attempts (trace x)) (Some pb)).
Proof.
  pose proof (retrying_spec [TemporaryError] 5 (download_document_body env dh)
                is_attempt bound
                (fun k => outcome (download_document_body env dh k (Some pb)))
                (download_document_body_bound env dh)
                (fun k s Hs => download_document_body_outcome env dh k s (Some pb) Hs I)
                (fun k s _ => download_document_body_attempts env dh k s)
                (fun k s _ => download_document_body_waits env dh k s)
                (fun k s _ => download_document_body_starts env dh k s)
                eq_refl 2 1 (Some pb) I) as H.
  unfold retried in H. cbv zeta in *.
  destruct H as (Hn & _ & _ & _ & _ & Ho & _).
  unfold download_document, retry, attempts. simpl Nat.sub.
  set (c := count is_attempt _) in *.
  replace (1 + c - 1) with c in Ho by lia. exact Ho.
Qed.

Lemma run_not_found env s :
  not_found env s =
  (Statbox "not_found" :: trace (respond_not_found env s),
   store (respond_not_found env s), outcome (respond_not_found env s)).
Proof. unfold not_found. apply run_emit. Qed.

(** C2 (amended). When the download returns, its result is the
    concatenation of the chunks of its last attempt, so a stream without
    chunks and a stream of empty chunks both give the empty byte string; and
    the task branches on the length of the result: on an empty result it
    logs [not_found] and answers that the sources are unavailable, on a
    non-empty one it uploads. *)
Theorem C2_branch_on_byte_count (env : Env) (dh : DocumentHolder)
    (pb : ProgressBar) (file : bytes) :
  let D := download_document env dh (Some pb) in
  outcome D = Ok file ->
  file = List.concat (map fst (chunks (ipfs_get_iter env (attempts (trace D))))) /\
  (List.length file = 0 ->
     long_task_try env dh (Some pb) =
     (trace D ++ Statbox "not_found" :: trace (respond_not_found env (store D)),
      store (respond_not_found env (store D)),
      outcome (respond_not_found env (store D)))) /\
  (List.length file <> 0 ->
     long_task_try env dh (Some pb) =
     (trace D ++ trace (upload env dh file (store D)),
      store (upload env dh file (store D)),
      outcome (upload env dh file (store D)))).
Proof.
  intros D Ho. split; [|split].
  - pose proof (download_document_last_attempt env dh pb) as H.
    cbv zeta in H. fold D in H. rewrite Ho in H. symmetry in H.
    now apply download_document_body_collects in H.
  - intro Hl. unfold long_task_try. rewrite run_bind. fold D. rewrite Ho.
    unfold truthy_bytes. rewrite Hl.
    change (negb (0 =? 0)%nat) with false. cbv iota.
    now rewrite run_not_found, trace_mk, store_mk, outcome_mk.
  - intro Hl. unfold long_task_try. rewrite run_bind. fold D. rewrite Ho.
    unfold truthy_bytes.
    destruct (Nat.eqb_spec (List.length file) 0) as [E|E]; [contradiction|].
    reflexivity.
Qed.

(** ** The upload bar *)

Lemma run_progress_bar_download {A} (k : ProgressBar -> M A) pb :
  (pbd <- progress_bar_download ;; k pbd) (Some pb) = k pb (Some pb).
Proof.
  unfold bind, progress_bar_download.
  destruct (k pb (Some pb)) as [[tr s] r]; reflexivity.
Qed.

Lemma run_upload env dh file pbd :
  let k :=
    (uploaded_message <- send_file env (Content file) (Some (upload_bar dh pbd)) ;;
     match uploaded_message with
     | Some m =>
         call (PutCachedFile (msg_file_id m) (db_put_cached_file env))
              (db_put_cached_file env) ;;
         emit (Statbox "uploaded")
     | None => raise AttributeError
     end) in
  upload env dh file (Some pbd) =
  (Statbox "downloaded" :: NewProgressBar (upload_bar dh pbd) :: trace (k (Some pbd)),
   store (k (Some pbd)), outcome (k (Some pbd))) /\
  forallb upload_event (trace (k (Some pbd))) = true.
Proof.
  intro k. split.
  - unfold upload. rewrite run_emit, run_progress_bar_download, run_emit.
    rewrite !trace_mk, !store_mk, !outcome_mk. reflexivity.
  - generalize (Some pbd). change (every upload_event k). subst k.
    apply every_bind.
    + apply every_retry; [reflexivity|intro n]. unfold send_file_body.
      destruct (telegram_client env); [|apply every_ret].
      apply every_bind; [now apply every_call|intros m].
      apply every_bind; [now apply every_emit|intros _; apply every_ret].
    + intro o. destruct o as [m|]; [|apply every_raise].
      apply every_bind; [now apply every_call|intros _; now apply every_emit].
Qed.

(** C3 (amended). When the download has returned a non-empty file, the task
    builds the upload bar from the download bar as it is at that moment: the
    same message reference and the same [last_call] (the throttle clock is
    carried over), the same banner and header as the download bar, and a
    tail text of its own.  Nothing after that shows a banner or builds
    another bar: the delivery is given the upload bar's callback. *)
Theorem C3_upload_bar_chained (env : Env) (dh : DocumentHolder)
    (file : bytes) (pbd : ProgressBar) :
  let D := download_document env dh (Some (download_bar env dh)) in
  let up := upload_bar dh pbd in
  outcome D = Ok file -> truthy_bytes file = true -> store D = Some pbd ->
  (exists rest,
     trace (long_task_try env dh (Some (download_bar env dh))) =
       trace D ++ Statbox "downloaded" :: NewProgressBar up :: rest /\
     forallb upload_event rest = true) /\
  message up = message pbd /\
  last_call up = last_call pbd /\
  banner up = banner (download_bar env dh) /\
  header up = header (download_bar env dh) /\
  throttle_secs up = throttle_secs (download_bar env dh) /\
  tail_text up = t "UPLOADED_TO_TELEGRAM" /\
  tail_text (download_bar env dh) = t "TRANSMITTED_FROM".
Proof.
  intros D up Ho Ht Hs. split; [|repeat split].
  unfold long_task_try. rewrite run_bind. fold D. rewrite Ho, Ht, Hs.
  destruct (run_upload env dh file pbd) as [E Hev]. cbv zeta in E, Hev.
  rewrite E, !trace_mk. eexists; split; [reflexivity|exact Hev].
Qed.

(** ** The cache hit *)

Lemma every_fast_cache_check env : every fast_path_event (cache_check env).
Proof.
  unfold cache_check.
  apply every_bind; [now apply every_call|intro from_db].
  apply every_bind; [|intros; apply every_ret].
  destruct (truthy_id from_db); [apply every_ret|].
  destruct (telegram_client env); [now apply every_call|apply every_raise].
Qed.

Lemma every_fast_send_file env id :
  every fast_path_event (send_file env (CachedFile id) None).
Proof.
  apply every_retry; [reflexivity|intro n]. unfold send_file_body.
  destruct (telegram_client env); [|apply every_ret].
  apply every_bind; [now apply every_call|intros m].
  apply every_bind; [now apply every_emit|intros _; apply every_ret].
Qed.

(** A delivery that returns with a client has sent the file. *)
Lemma retrying_send_file_sent env file cb : forall remaining n s o,
  telegram_client env = true ->
  outcome (retrying [RpcTimeoutError; ValueError] 0 (send_file_body env file cb)
                    remaining n s) = Ok o ->
  exists m,
    o = Some m /\
    In (SendFile file cb (Ok m))
       (trace (retrying [RpcTimeoutError; ValueError] 0
                        (send_file_body env file cb) remaining n s)).
Proof.
  assert (body : forall n s,
            telegram_client env = true ->
            send_file_body env file cb n s =
            match client_send_file env file n with
            | Ok m => ([SendFile file cb (Ok m); Statbox "sent"], s, Ok (Some m))
            | Raise e => ([SendFile file cb (Raise e)], s, Raise e)
            end).
  { intros n s Hc. unfold send_file_body. rewrite Hc.
    unfold bind, call, emit, ret.
    destruct (client_send_file env file n); reflexivity. }
  induction remaining as [|k IH]; intros n s o Hc.
  - rewrite run_retrying_O, (body n s Hc).
    destruct (client_send_file env file n) as [m|e]; simpl; [|discriminate].
    intros [= <-]. eauto.
  - rewrite run_retrying_S, (body n s Hc).
    destruct (client_send_file env file n) as [m|e]; rewrite outcome_mk.
    + rewrite outcome_mk, trace_mk. intros [= <-].
      exists m. split; [reflexivity|now left].
    + destruct (isinstance e [RpcTimeoutError; ValueError]).
      * cbv zeta. rewrite outcome_mk, trace_mk, store_mk.
        intro H. destruct (IH _ _ _ Hc H) as (m & -> & Hin).
        exists m. split; [reflexivity|]. right. right. exact Hin.
      * rewrite outcome_mk. discriminate.
Qed.

(** C5 (amended). When the lookup finds a cached file id, the bot has a
    Telegram client and the delivery of the cached id does not raise, the
    task sends the cached id, performs nothing but the lookups and that
    delivery, and returns: it builds no progress bar, never calls
    [get_iter], uploads no bytes and sends no message; the last event is the
    [cache_hit] log line. *)
Theorem C5_cache_hit_short_circuits (env : Env) (dh : DocumentHolder)
    (s : Store) (id : file_id) :
  outcome (cache_check env s) = Ok (Some id) ->
  telegram_client env = true ->
  (forall e, outcome (send_file env (CachedFile id) None s) <> Raise e) ->
  let x := long_task env dh s in
  outcome x = Ok tt /\
  store x = s /\
  forallb fast_path_event (trace x) = true /\
  (exists pre, trace x = pre ++ [Statbox "cache_hit"]) /\
  exists m, In (SendFile (CachedFile id) None (Ok m)) (trace x).
Proof.
  intros Hc Ht Hsend x. subst x. rewrite run_long_task. cbv zeta. rewrite Hc.
  rewrite store_cache_check.
  rewrite (run_bind (send_file _ _ _)).
  destruct (outcome (send_file env (CachedFile id) None s)) as [o|e] eqn:Es;
    [|now destruct (Hsend e)].
  rewrite store_send_file.
  unfold emit. rewrite !outcome_mk, !trace_mk, !store_mk.
  repeat split.
  - rewrite !forallb_app. rewrite (every_fast_cache_check env s).
    rewrite (every_fast_send_file env id s). reflexivity.
  - eexists. rewrite app_assoc. reflexivity.
  - unfold send_file, retry in Es.
    destruct (retrying_send_file_sent env _ _ _ _ _ _ Ht Es) as (m & _ & Hin).
    exists m. rewrite !in_app_iff. right. left. exact Hin.
Qed.

Lemma trace_bind_prefix {A B} (m : M A) (f : A -> M B) s :
  exists rest, trace (bind m f s) = trace (m s) ++ rest.
Proof.
  rewrite run_bind. destruct (outcome (m s)); rewrite trace_mk; eauto.
  exists []. now rewrite app_nil_r.
Qed.

Lemma trace_try_except_prefix {A} (m : M A) handler s :
  exists rest, trace (try_except m handler s) = trace (m s) ++ rest.
Proof.
  rewrite run_try_except.
  destruct (outcome (m s)) as [a|e]; [|destruct (handler e)];
    rewrite trace_mk; eauto; exists []; now rewrite app_nil_r.
Qed.

(** The second guarded block starts by building the download bar and
    starting the fetch. *)
Lemma cache_miss_starts env dh s :
  exists rest,
    trace (cache_miss env dh s) =
    NewProgressBar (download_bar env dh) :: Statbox "do_request" :: rest.
Proof.
  rewrite run_cache_miss. cbv zeta. rewrite trace_mk.
  destruct (trace_try_except_prefix (long_task_try env dh) (long_task_handler env)
              (Some (download_bar env dh))) as [r1 E1].
  unfold long_task_try at 2 in E1.
  destruct (trace_bind_prefix (download_document env dh)
              (fun file => if truthy_bytes file then upload env dh file
                           else not_found env)
              (Some (download_bar env dh))) as [r2 E2].
  destruct (download_document_starts_with env dh (Some (download_bar env dh)))
    as [r3 E3].
  rewrite E1, E2, E3. simpl. eauto.
Qed.

(** C10 (amended). On the cache-hit path, when the delivery of the cached
    file id raises an error other than a cancellation, the error is logged
    and swallowed, nothing has been sent to the requester (before the error
    the task did nothing but the lookups and the attempts of the delivery),
    and the task goes on with the cache-miss path: it builds the download
    progress bar and starts the fetch. *)
Theorem C10_cached_delivery_failure_falls_through (env : Env)
    (dh : DocumentHolder) (s : Store) (id : file_id) (e : exn) :
  outcome (cache_check env s) = Ok (Some id) ->
  outcome (send_file env (CachedFile id) None s) = Raise e ->
  isinstance e [CancelledError] = false ->
  let x := long_task env dh s in
  exists pre rest,
    trace x = pre ++ ErrorLog e :: NewProgressBar (download_bar env dh) ::
                     Statbox "do_request" :: rest /\
    forallb fast_path_event pre = true.
Proof.
  intros Hc Hsend _ x. subst x. rewrite run_long_task. cbv zeta. rewrite Hc.
  rewrite store_cache_check.
  rewrite (run_bind (send_file _ _ _)), Hsend.
  rewrite !outcome_mk, !trace_mk.
  destruct (cache_miss_starts env dh s) as [rest E]. rewrite E.
  exists (trace (cache_check env s) ++ trace (send_file env (CachedFile id) None s)), rest.
  split.
  - rewrite <- !app_assoc. reflexivity.
  - rewrite forallb_app, (every_fast_cache_check env s).
    apply (every_fast_send_file env id s).
Qed.

(** ** The duplicate check of the handler *)

(** When the task key has a live task and both calls of the guarded block
    return, the handler answers, removes the button and returns: the limits
    are not consulted and nothing is scheduled. *)
Lemma handler_duplicate_answered henv s :
  has_task henv = true ->
  answer henv (t "ALREADY_DOWNLOADING") = Ok tt ->
  remove_button_duplicate henv = Ok tt ->
  handler henv s =
  ([Statbox "get"; HasTask true; Answer (t "ALREADY_DOWNLOADING") (Ok tt);
    RemoveButton (Ok tt)], s, Ok true).
Proof.
  intros H1 H2 H3. unfold handler, bind, emit, call, safe_execution, ret.
  rewrite H1, H2, H3. reflexivity.
Qed.

(** When a call of the guarded block raises, [safe_execution] swallows the
    error and the [return] of the block is skipped: the handler goes on to
    the limits. *)
Lemma handler_duplicate_answer_fails henv s e :
  has_task henv = true ->
  answer henv (t "ALREADY_DOWNLOADING") = Raise e ->
  exists rest,
    trace (handler henv s) =
    [Statbox "get"; HasTask true; Answer (t "ALREADY_DOWNLOADING") (Raise e);
     HitLimits (hit_limits henv)] ++ rest.
Proof.
  intros H1 H2. unfold handler, bind, emit, call, safe_execution, ret, trace.
  rewrite H1, H2. simpl.
  destruct (hit_limits henv); simpl.
  - destruct (answer henv (t "TOO_MANY_DOWNLOADS")); simpl; eauto.
    destruct (remove_button_accepted henv); simpl; eauto.
  - destruct (remove_button_accepted henv); simpl; eauto.
Qed.

(** * Examples *)

Example long_task_ok :
  long_task env_ok example_document None =
  ([GetCachedFile (Ok None); GetCachedFileId (Ok None);
    NewProgressBar (download_bar env_ok example_document);
    Statbox "do_request"; ShowBanner (Ok tt); GetIter "bafy";
    Callback 2 (Some 2) (Ok tt); Statbox "downloaded";
    NewProgressBar (upload_bar example_document bar_after_ok);
    SendFile (Content two_bytes) (Some (upload_bar example_document bar_after_ok))
             (Ok {| msg_file_id := "F1" |});
    Statbox "sent"; PutCachedFile "F1" (Ok tt); Statbox "uploaded";
    DeleteMessages [7] (Ok tt); DebugLog "deleted_progress_message"],
   Some bar_after_ok, Ok tt).
Proof. reflexivity. Qed.

Example schedule_ok_cleanup :
  count is_deregister (trace (schedule env_ok example_document None)) = 1 /\
  deletions (trace (schedule env_ok example_document None)) = [[7]].
Proof. split; reflexivity. Qed.

Example download_retries_three_times :
  let env := with_attempts env_ok (fun _ =>
               {| show_banner := ({| bs_message := Some 7; bs_last_call := 11 |}, Ok tt);
                  chunks := [];
                  stream_end := Some TemporaryError |}) in
  download_document env example_document (Some (download_bar env example_document)) =
  ([Statbox "do_request"; ShowBanner (Ok tt); GetIter "bafy"; Sleep 5;
    Statbox "do_request"; ShowBanner (Ok tt); GetIter "bafy"; Sleep 5;
    Statbox "do_request"; ShowBanner (Ok tt); GetIter "bafy"],
   Some (set_bar_state (download_bar env example_document)
                       {| bs_message := Some 7; bs_last_call := 11 |}),
   Raise TemporaryError).
Proof. reflexivity. Qed.

(** * The claims at concrete inputs *)

(** C1, witness: nothing is cached and the stream raises [DownloadError]. *)
Lemma C1_witness :
  outcome (cache_check env_download_error None) = Ok None /\
  outcome (download_document env_download_error example_document
             (Some (download_bar env_download_error example_document)))
    = Raise DownloadError /\
  isinstance DownloadError [ServiceUnavailableError; DownloadError] = true /\
  long_task env_download_error example_document None =
  ([GetCachedFile (Ok None); GetCachedFileId (Ok None);
    NewProgressBar (download_bar env_download_error example_document);
    Statbox "do_request"; ShowBanner (Ok tt); GetIter "bafy";
    ExternalCancel; SendMessage (t "MAINTENANCE") (Ok tt);
    DeleteMessages [7] (Ok tt); DebugLog "deleted_progress_message"],
   Some (set_bar_state (download_bar env_download_error example_document)
                       {| bs_message := Some 7; bs_last_call := 11 |}),
   Ok tt) /\
  sent_messages (trace (long_task env_download_error example_document None))
    = [t "MAINTENANCE"] /\
  count is_external_cancel
    (trace (long_task env_download_error example_document None)) = 1 /\
  count delivers_bytes
    (trace (long_task env_download_error example_document None)) = 0.
Proof.
  split; [reflexivity|]. split; [reflexivity|]. split; [reflexivity|].
  apply (C1_backend_failure_notifies_requester env_download_error
           example_document None DownloadError); reflexivity.
Defined.


(** C2, witness: a document of length zero. *)
Lemma C2_witness :
  outcome (download_document env_empty_chunk example_document
             (Some (download_bar env_empty_chunk example_document))) = Ok [] /\
  let pb := download_bar env_empty_chunk example_document in
  let D := download_document env_empty_chunk example_document (Some pb) in
  [] = List.concat (map fst (chunks (ipfs_get_iter env_empty_chunk (attempts (trace D))))) /\
  (List.length (@nil byte) = 0 ->
     long_task_try env_empty_chunk example_document (Some pb) =
     (trace D ++ Statbox "not_found" ::
        trace (respond_not_found env_empty_chunk (store D)),
      store (respond_not_found env_empty_chunk (store D)),
      outcome (respond_not_found env_empty_chunk (store D)))) /\
  (List.length (@nil byte) <> 0 ->
     long_task_try env_empty_chunk example_document (Some pb) =
     (trace D ++ trace (upload env_empty_chunk example_document [] (store D)),
      store (upload env_empty_chunk example_document [] (store D)),
      outcome (upload env_empty_chunk example_document [] (store D)))).
Proof.
  split; [reflexivity|].
  apply (C2_branch_on_byte_count env_empty_chunk example_document
           (download_bar env_empty_chunk example_document) []).
  reflexivity.
Defined.

(** C2, counterexample: a stream that yields nothing and a stream that
    yields a document of length zero give the same result, the empty byte
    string, and the task answers the valid empty document with
    [not_found]. *)
Lemma C2_counterexample :
  outcome (download_document env_no_chunk example_document
             (Some (download_bar env_no_chunk example_document))) = Ok [] /\
  outcome (download_document env_empty_chunk example_document
             (Some (download_bar env_empty_chunk example_document))) = Ok [] /\
  trace (long_task env_empty_chunk example_document None) =
  [GetCachedFile (Ok None); GetCachedFileId (Ok None);
   NewProgressBar (download_bar env_empty_chunk example_document);
   Statbox "do_request"; ShowBanner (Ok tt); GetIter "bafy";
   Callback 0 (Some 2) (Ok tt);
   Statbox "not_found"; SendMessage (t "SOURCES_UNAVAILABLE") (Ok tt);
   DeleteMessages [7] (Ok tt); DebugLog "deleted_progress_message"].
Proof. repeat split. Qed.

(** C3, witness: the download of [env_ok]. *)
Lemma C3_witness :
  outcome (download_document env_ok example_document
             (Some (download_bar env_ok example_document))) = Ok two_bytes /\
  truthy_bytes two_bytes = true /\
  store (download_document env_ok example_document
           (Some (download_bar env_ok example_document))) = Some bar_after_ok /\
  let D := download_document env_ok example_document
             (Some (download_bar env_ok example_document)) in
  let up := upload_bar example_document bar_after_ok in
  (exists rest,
     trace (long_task_try env_ok example_document
              (Some (download_bar env_ok example_document))) =
       trace D ++ Statbox "downloaded" :: NewProgressBar up :: rest /\
     forallb upload_event rest = true) /\
  message up = message bar_after_ok /\
  last_call up = last_call bar_after_ok /\
  banner up = banner (download_bar env_ok example_document) /\
  header up = header (download_bar env_ok example_document) /\
  throttle_secs up = throttle_secs (download_bar env_ok example_document) /\
  tail_text up = t "UPLOADED_TO_TELEGRAM" /\
  tail_text (download_bar env_ok example_document) = t "TRANSMITTED_FROM".
Proof.
  split; [reflexivity|]. split; [reflexivity|]. split; [reflexivity|].
  apply (C3_upload_bar_chained env_ok example_document two_bytes bar_after_ok);
    reflexivity.
Defined.

(** C3, counterexample: the task starts at time 10 and the last callback of
    the download leaves [last_call = 42]; the upload bar is built with
    [last_call = 42], the clock of the download bar, and with the banner and
    the header of the download bar. *)
Lemma C3_counterexample :
  time_time env_ok = 10 /\
  store (long_task env_ok example_document None) = Some bar_after_ok /\
  last_call bar_after_ok = 42 /\
  In (NewProgressBar
        {| message := Some 7;
           banner := t "LOOKING_AT";
           header := download_header "paper.pdf";
           tail_text := t "UPLOADED_TO_TELEGRAM";
           source := None;
           throttle_secs := 3;
           last_call := 42 |})
     (trace (long_task env_ok example_document None)) /\
  banner (download_bar env_ok example_document) = t "LOOKING_AT" /\
  header (download_bar env_ok example_document) = download_header "paper.pdf".
Proof.
  repeat split. simpl. do 8 right. left. reflexivity.
Qed.

(** C5, witness: the cached file id is delivered. *)
Lemma C5_witness :
  outcome (cache_check env_hit None) = Ok (Some "F0") /\
  telegram_client env_hit = true /\
  (forall e, outcome (send_file env_hit (CachedFile "F0") None None) <> Raise e) /\
  let x := long_task env_hit example_document None in
  outcome x = Ok tt /\
  store x = None /\
  forallb fast_path_event (trace x) = true /\
  (exists pre, trace x = pre ++ [Statbox "cache_hit"]) /\
  exists m, In (SendFile (CachedFile "F0") None (Ok m)) (trace x).
Proof.
  split; [reflexivity|]. split; [reflexivity|]. split; [intros e; discriminate|].
  apply (C5_cache_hit_short_circuits env_hit example_document None "F0");
    [reflexivity|reflexivity|intros e; discriminate].
Defined.

(** C5, counterexample: the database has a cached file id.  Without a
    Telegram client the task logs [cache_hit] and has delivered nothing.
    With a client that refuses the cached id, the task fetches the document,
    builds both progress bars and uploads the bytes. *)
Lemma C5_counterexample :
  outcome (cache_check (without_client env_hit) None) = Ok (Some "F0") /\
  long_task (without_client env_hit) example_document None =
  ([GetCachedFile (Ok (Some "F0")); Statbox "cache_hit"], None, Ok tt) /\
  outcome (cache_check env_hit_refused None) = Ok (Some "F0") /\
  trace (long_task env_hit_refused example_document None) =
  [GetCachedFile (Ok (Some "F0"));
   SendFile (CachedFile "F0") None (Raise (OtherError 0));
   ErrorLog (OtherError 0);
   NewProgressBar (download_bar env_hit_refused example_document);
   Statbox "do_request"; ShowBanner (Ok tt); GetIter "bafy";
   Callback 2 (Some 2) (Ok tt); Statbox "downloaded";
   NewProgressBar (upload_bar example_document bar_after_ok);
   SendFile (Content two_bytes) (Some (upload_bar example_document bar_after_ok))
            (Ok {| msg_file_id := "F1" |});
   Statbox "sent"; PutCachedFile "F1" (Ok tt); Statbox "uploaded";
   DeleteMessages [7] (Ok tt); DebugLog "deleted_progress_message"].
Proof. repeat split. Qed.

(** C10, witness: the client refuses the cached file id. *)
Lemma C10_witness :
  outcome (cache_check env_hit_refused None) = Ok (Some "F0") /\
  outcome (send_file env_hit_refused (CachedFile "F0") None None)
    = Raise (OtherError 0) /\
  isinstance (OtherError 0) [CancelledError] = false /\
  let x := long_task env_hit_refused example_document None in
  exists pre rest,
    trace x = pre ++ ErrorLog (OtherError 0) ::
                     NewProgressBar (download_bar env_hit_refused example_document) ::
                     Statbox "do_request" :: rest /\
    forallb fast_path_event pre = true.
Proof.
  split; [reflexivity|]. split; [reflexivity|]. split; [reflexivity|].
  apply (C10_cached_delivery_failure_falls_through env_hit_refused
           example_document None "F0" (OtherError 0)); reflexivity.
Defined.

(** C10, counterexample: the delivery of the cached file id fails, and the
    task then calls [get_iter] and uploads the downloaded bytes. *)
Lemma C10_counterexample :
  outcome (send_file env_hit_refused (CachedFile "F0") None None)
    = Raise (OtherError 0) /\
  In (GetIter "bafy") (trace (long_task env_hit_refused example_document None)) /\
  In (SendFile (Content two_bytes)
               (Some (upload_bar example_document bar_after_ok))
               (Ok {| msg_file_id := "F1" |}))
     (trace (long_task env_hit_refused example_document None)).
Proof.
  split; [reflexivity|]. split; simpl.
  - do 6 right. left. reflexivity.
  - do 10 right. left. reflexivity.
Qed.

(** C7, witness: the callback of the second chunk signals the lost
    message. *)
Lemma C7_witness :
  let pre :=
    [GetCachedFile (Ok None); GetCachedFileId (Ok None);
     NewProgressBar (download_bar env_lost example_document);
     Statbox "do_request"; ShowBanner (Ok tt); GetIter "bafy";
     Callback 2 (Some 2) (Ok tt)] in
  let ev := Callback 2 (Some 2) (Raise ProgressBarLostMessageError) in
  let post := [Statbox "user_canceled"; DebugLog "deleted_progress_message"] in
  trace (long_task env_lost example_document None) = pre ++ ev :: post /\
  lost_signal ev = true /\
  forallb quiet post = true /\
  In (Statbox "user_canceled") post /\
  outcome (long_task env_lost example_document None) = Ok tt.
Proof.
  intros pre ev post.
  split; [reflexivity|]. split; [reflexivity|].
  apply (C7_lost_message_is_silent_cancel env_lost example_document None pre post ev);
    reflexivity.
Defined.

(** C8, at the failing input: the task key has a live task, the duplicate
    answer raises, and the handler schedules a second task. *)
Theorem C8_duplicate_is_scheduled_when_answer_fails :
  has_task henv_answer_expired = true /\
  handler henv_answer_expired None =
  ([Statbox "get"; HasTask true;
    Answer (t "ALREADY_DOWNLOADING") (Raise (OtherError 400));
    HitLimits false; RemoveButton (Ok tt); Schedule],
   None, Ok false).
Proof. split; reflexivity. Qed.

(** C9, at the failing input: the task key has a live task, the duplicate
    answer raises, and the handler consults the limits and sends the
    rate-limit answer. *)
Theorem C9_limits_consulted_when_answer_fails :
  has_task henv_answer_expired_limited = true /\
  handler henv_answer_expired_limited None =
  ([Statbox "get"; HasTask true;
    Answer (t "ALREADY_DOWNLOADING") (Raise (OtherError 400));
    HitLimits true; Answer (t "TOO_MANY_DOWNLOADS") (Ok tt)],
   None, Ok true).
Proof. split; reflexivity. Qed.

(** * Further properties of the code *)

(** ** send_file *)

Lemma run_send_file_body env file cb n s :
  telegram_client env = true ->
  send_file_body env file cb n s =
  match client_send_file env file n with
  | Ok m => ([SendFile file cb (Ok m); Statbox "sent"], s, Ok (Some m))
  | Raise e => ([SendFile file cb (Raise e)], s, Raise e)
  end.
Proof.
  intro Hc. unfold send_file_body. rewrite Hc.
  unfold bind, call, emit, ret.
  destruct (client_send_file env file n); reflexivity.
Qed.

(** With a client, [send_file] is a run of the retry decorator over the
    calls of the client's [send_file]. *)
Lemma send_file_retried env file cb s :
  telegram_client env = true ->
  retried [RpcTimeoutError; ValueError] 0 is_send (fun _ => True)
          (nth_send env file) 2 1 (send_file env file cb s).
Proof.
  intro Hc.
  assert (body : forall k s',
            send_file_body env file cb k s' =
            match client_send_file env file k with
            | Ok m => ([SendFile file cb (Ok m); Statbox "sent"], s', Ok (Some m))
            | Raise e => ([SendFile file cb (Raise e)], s', Raise e)
            end)
    by (intros; now apply run_send_file_body).
  apply (retrying_spec [RpcTimeoutError; ValueError] 0
           (send_file_body env file cb) is_send (fun _ => True)
           (nth_send env file)); auto.
  - intros k s' _. rewrite body. unfold nth_send.
    destruct (client_send_file env file k); reflexivity.
  - intros k s' _. rewrite body.
    destruct (client_send_file env file k); reflexivity.
  - intros k s' _. rewrite body.
    destruct (client_send_file env file k); reflexivity.
  - intros k s' _. rewrite body.
    destruct (client_send_file env file k); eexists _, _; split; reflexivity.
Qed.

(** X1. With a client, the delivery calls the client's [send_file] between
    one and three times, without waiting between two calls; every call but
    the last failed with a [TimeoutError] or a [ValueError]; the delivery
    ends as the last call ended (the message, or the same exception), and it
    ends with a retried exception only when that was the third call.  The
    progress bar is left as it is. *)
Theorem X1_send_file_retry_bounded (env : Env) (file : payload)
    (cb : option ProgressBar) (s : Store) :
  telegram_client env = true ->
  let x := send_file env file cb s in
  let n := count is_send (trace x) in
  1 <= n <= 3 /\
  waits (trace x) = repeat 0 (n - 1) /\
  (forall k, 1 <= k < n ->
     exists e, client_send_file env file k = Raise e /\
               isinstance e [RpcTimeoutError; ValueError] = true) /\
  outcome x = nth_send env file n /\
  (forall e, outcome x = Raise e ->
     isinstance e [RpcTimeoutError; ValueError] = true -> n = 3) /\
  store x = s.
Proof.
  intros Hc x n.
  pose proof (send_file_retried env file cb s Hc) as H.
  unfold retried in H. cbv zeta in H. fold x in H. fold n in H.
  destruct H as (Hn & Hw & _ & _ & Hk & Ho & Hs & _).
  replace (1 + n - 1) with n in * by lia.
  repeat split; try lia; auto.
  - intros k Hk'. destruct (Hk k Hk') as (e & He & Hi).
    exists e. split; [|exact Hi].
    unfold nth_send in He. destruct (client_send_file env file k); congruence.
  - apply store_send_file.
Qed.

(** X1, witness: the client times out twice, then accepts the file. *)
Lemma X1_witness :
  let env :=
    {| telegram_client := true;
       db_get_cached_file := Ok None;
       client_get_cached_file_id := Ok None;
       ipfs_get_iter := fun _ => attempt_ok;
       client_send_file := fun _ n =>
         if Nat.leb n 2 then Raise RpcTimeoutError else Ok {| msg_file_id := "F1" |};
       db_put_cached_file := Ok tt;
       client_send_message := fun _ => Ok tt;
       client_delete_messages := Ok tt;
       time_time := 10 |} in
  telegram_client env = true /\
  send_file env (Content two_bytes) None None =
  ([SendFile (Content two_bytes) None (Raise RpcTimeoutError); Sleep 0;
    SendFile (Content two_bytes) None (Raise RpcTimeoutError); Sleep 0;
    SendFile (Content two_bytes) None (Ok {| msg_file_id := "F1" |});
    Statbox "sent"],
   None, Ok (Some {| msg_file_id := "F1" |})) /\
  let x := send_file env (Content two_bytes) None None in
  let n := count is_send (trace x) in
  1 <= n <= 3 /\
  waits (trace x) = repeat 0 (n - 1) /\
  (forall k, 1 <= k < n ->
     exists e, client_send_file env (Content two_bytes) k = Raise e /\
               isinstance e [RpcTimeoutError; ValueError] = true) /\
  outcome x = nth_send env (Content two_bytes) n /\
  (forall e, outcome x = Raise e ->
     isinstance e [RpcTimeoutError; ValueError] = true -> n = 3) /\
  store x = None.
Proof.
  intro env. split; [reflexivity|]. split; [reflexivity|].
  apply (X1_send_file_retry_bounded env (Content two_bytes) None None).
  reflexivity.
Defined.

(** X2. Without a client, [send_file] calls nothing, does not retry, and
    returns [None]. *)
Theorem X2_send_file_without_client (env : Env) (file : payload)
    (cb : option ProgressBar) (s : Store) :
  telegram_client env = false ->
  send_file env file cb s = ([], s, Ok None).
Proof.
  intro H. unfold send_file, retry.
  apply retrying_send_file_no_client. exact H.
Qed.

(** X2, witness. *)
Lemma X2_witness :
  telegram_client (without_client env_ok) = false /\
  send_file (without_client env_ok) (Content two_bytes) None None = ([], None, Ok None).
Proof.
  split; [reflexivity|].
  apply (X2_send_file_without_client (without_client env_ok)
           (Content two_bytes) None None).
  reflexivity.
Defined.

(** ** long_task without a client *)

Lemma send_file_no_client env file cb s :
  telegram_client env = false -> send_file env file cb s = ([], s, Ok None).
Proof.
  intro H. unfold send_file, retry. now apply retrying_send_file_no_client.
Qed.

(** X3. Without a client the task does nothing but the database lookup: if
    the database holds a cached file id, the task logs [cache_hit] although
    nothing is sent, and returns; otherwise the lookup in the client's cache
    (line 66) raises [AttributeError], which leaves the task.  No progress
    bar is built and nothing is fetched. *)
Theorem X3_long_task_without_client (env : Env) (dh : DocumentHolder) (s : Store) :
  telegram_client env = false ->
  long_task env dh s =
  match db_get_cached_file env with
  | Raise e => ([GetCachedFile (Raise e)], s, Raise e)
  | Ok o =>
      match truthy_id o with
      | Some id => ([GetCachedFile (Ok o); Statbox "cache_hit"], s, Ok tt)
      | None => ([GetCachedFile (Ok o)], s, Raise AttributeError)
      end
  end.
Proof.
  intro Hc. rewrite run_long_task. cbv zeta.
  assert (E : cache_check env s =
              match db_get_cached_file env with
              | Raise e => ([GetCachedFile (Raise e)], s, Raise e)
              | Ok o =>
                  match truthy_id o with
                  | Some id => ([GetCachedFile (Ok o)], s, Ok (Some id))
                  | None => ([GetCachedFile (Ok o)], s, Raise AttributeError)
                  end
              end).
  { unfold cache_check, bind, call, ret, raise. rewrite Hc.
    destruct (db_get_cached_file env) as [o|e]; [|reflexivity].
    destruct (truthy_id o) as [id|] eqn:Eo; [|reflexivity].
    simpl. f_equal. f_equal. exact (truthy_id_idem _ _ Eo). }
  rewrite E.
  destruct (db_get_cached_file env) as [o|e]; [|reflexivity].
  destruct (truthy_id o) as [id|]; [|reflexivity].
  rewrite outcome_mk, store_mk, trace_mk.
  rewrite run_bind, (send_file_no_client env (CachedFile id) None s Hc).
  reflexivity.
Qed.

(** X3, witness: the database holds a file id, there is no client. *)
Lemma X3_witness :
  telegram_client (without_client env_hit) = false /\
  long_task (without_client env_hit) example_document None =
  ([GetCachedFile (Ok (Some "F0")); Statbox "cache_hit"], None, Ok tt).
Proof.
  split; [reflexivity|].
  apply (X3_long_task_without_client (without_client env_hit) example_document None).
  reflexivity.
Defined.

(** ** What the progress callback is told *)

Lemma callbacks_app tr1 tr2 : callbacks (tr1 ++ tr2) = callbacks tr1 ++ callbacks tr2.
Proof. apply flat_map_app. Qed.

Lemma reported_bytes_app tr1 tr2 :
  reported_bytes (tr1 ++ tr2) = reported_bytes tr1 + reported_bytes tr2.
Proof.
  unfold reported_bytes. now rewrite callbacks_app, map_app, list_sum_app.
Qed.

Lemma get_iter_loop_callbacks cs finish size : forall collected s file,
  outcome (get_iter_loop cs finish size collected s) = Ok file ->
  callbacks (trace (get_iter_loop cs finish size collected s)) =
  map (fun c => (List.length (fst c), size)) cs.
Proof.
  induction cs as [|[chunk o] rest IH]; intros collected s file; simpl.
  - destruct finish; reflexivity.
  - rewrite run_bind.
    destruct s as [pb|]; simpl; [|discriminate].
    destruct (snd o); rewrite ?outcome_mk, ?trace_mk; [|discriminate].
    intro H. simpl. f_equal. eapply IH; eauto.
Qed.

Lemma download_document_body_reports env dh n s file :
  outcome (download_document_body env dh n s) = Ok file ->
  callbacks (trace (download_document_body env dh n s)) =
    map (fun c => (List.length (fst c), filesize dh)) (chunks (ipfs_get_iter env n)) /\
  reported_bytes (trace (download_document_body env dh n s)) = List.length file.
Proof.
  intro Ho.
  assert (Hcb : callbacks (trace (download_document_body env dh n s)) =
                map (fun c => (List.length (fst c), filesize dh))
                    (chunks (ipfs_get_iter env n))).
  { revert Ho. rewrite run_download_document_body, outcome_mk, trace_mk.
    unfold download_rest. rewrite run_bind.
    destruct s as [pb|]; simpl; [|discriminate].
    destruct (snd (show_banner (ipfs_get_iter env n)));
      rewrite ?outcome_mk, ?trace_mk; [|discriminate].
    rewrite run_emit, outcome_mk, trace_mk. simpl.
    apply get_iter_loop_callbacks. }
  split; [exact Hcb|].
  unfold reported_bytes. rewrite Hcb.
  rewrite (download_document_body_collects env dh n s file Ho).
  rewrite length_concat, !map_map. reflexivity.
Qed.

(** X4. When an execution of the body of [download_document] returns, the
    progress callback has been called once per chunk, in the order of
    arrival, with the length of the chunk and the [filesize] hint; and the
    lengths it was given add up to the length of the returned bytes. *)
Theorem X4_callback_per_chunk (env : Env) (dh : DocumentHolder) (n : nat)
    (s : Store) (file : bytes) :
  let x := download_document_body env dh n s in
  outcome x = Ok file ->
  callbacks (trace x) =
    map (fun c => (List.length (fst c), filesize dh)) (chunks (ipfs_get_iter env n)) /\
  reported_bytes (trace x) = List.length file.
Proof.
  intros x Ho. now apply download_document_body_reports.
Qed.

(** X4, witness: two chunks, of two bytes and of one byte. *)
Lemma X4_witness :
  let env := with_attempts env_ok (fun _ => attempt_two_chunks) in
  let x := download_document_body env example_document 1
             (Some (download_bar env example_document)) in
  outcome x = Ok [x01; x02; x03] /\
  callbacks (trace x) = [(2, Some 2); (1, Some 2)] /\
  reported_bytes (trace x) = 3.
Proof.
  intros env x. split; [reflexivity|].
  apply (X4_callback_per_chunk env example_document 1
           (Some (download_bar env example_document)) [x01; x02; x03]).
  reflexivity.
Defined.

(** The run of the retry decorator ends with its last attempt. *)
Lemma retrying_last {A} classes w (fn : nat -> M A) : forall remaining n s,
  exists pre k s',
    trace (retrying classes w fn remaining n s) = pre ++ trace (fn k s') /\
    outcome (retrying classes w fn remaining n s) = outcome (fn k s').
Proof.
  induction remaining as [|rem IH]; intros n s.
  - rewrite run_retrying_O. exists [], n, s. split; reflexivity.
  - rewrite run_retrying_S.
    destruct (outcome (fn n s)) as [a|e] eqn:Eo.
    { exists [], n, s. rewrite Eo. split; reflexivity. }
    destruct (isinstance e classes).
    2:{ exists [], n, s. rewrite Eo. split; reflexivity. }
    cbv zeta. rewrite trace_mk, outcome_mk.
    destruct (IH (S n) (store (fn n s))) as (pre & k & s' & Ht & Hout).
    exists (trace (fn n s) ++ Sleep w :: pre), k, s'.
    rewrite Ht, Hout. split; [|reflexivity].
    rewrite <- app_assoc. reflexivity.
Qed.

(** X5. When the download returns, the bytes reported to the progress
    callback over all its attempts are at least the length of the returned
    file: the chunks of a failed attempt stay reported when the download
    starts again. *)
Theorem X5_reported_bytes_cover_the_file (env : Env) (dh : DocumentHolder)
    (s : Store) (file : bytes) :
  let x := download_document env dh s in
  outcome x = Ok file ->
  List.length file <= reported_bytes (trace x).
Proof.
  intros x Ho. subst x. unfold download_document, retry in *.
  destruct (retrying_last [TemporaryError] 5 (download_document_body env dh)
              (3 - 1) 1 s) as (pre & k & s' & Ht & Hout).
  rewrite Ht, reported_bytes_app. rewrite Hout in Ho.
  destruct (download_document_body_reports env dh k s' file Ho) as [_ E].
  rewrite E. lia.
Qed.

(** X5, witness: the first attempt breaks after a chunk of two bytes, the
    second returns three bytes; five bytes were reported. *)
Lemma X5_witness :
  let x := download_document env_second_attempt example_document
             (Some (download_bar env_second_attempt example_document)) in
  outcome x = Ok [x01; x02; x03] /\
  reported_bytes (trace x) = 5 /\
  List.length [x01; x02; x03] <= reported_bytes (trace x).
Proof.
  intro x. split; [reflexivity|]. split; [reflexivity|].
  apply (X5_reported_bytes_cover_the_file env_second_attempt example_document
           (Some (download_bar env_second_attempt example_document))
           [x01; x02; x03]).
  reflexivity.
Defined.

(** ** The cache write *)

Lemma cache_writes_app tr1 tr2 :
  cache_writes (tr1 ++ tr2) = cache_writes tr1 ++ cache_writes tr2.
Proof. apply flat_map_app. Qed.

Lemma no_put_writes tr : forallb no_put tr = true -> cache_writes tr = [].
Proof.
  induction tr as [|ev tr IH]; simpl; [reflexivity|].
  intro H. apply andb_prop in H. destruct H as [H1 H2].
  destruct ev; simpl in *; try discriminate; auto.
Qed.

Lemma fast_path_event_no_put ev : fast_path_event ev = true -> no_put ev = true.
Proof. destruct ev; simpl; try discriminate; reflexivity. Qed.

Lemma download_event_no_put ev : download_event ev = true -> no_put ev = true.
Proof. destruct ev; simpl; try discriminate; reflexivity. Qed.

Lemma every_send_file Q env file cb :
  (forall r, Q (SendFile file cb r) = true) -> Q (Statbox "sent") = true ->
  (forall w, Q (Sleep w) = true) ->
  every Q (send_file env file cb).
Proof.
  intros H1 H2 H3. apply every_retry; [apply H3|intro n].
  unfold send_file_body.
  destruct (telegram_client env); [|apply every_ret].
  apply every_bind; [apply every_call, H1|intros m].
  apply every_bind; [apply every_emit, H2|intros _; apply every_ret].
Qed.

Lemma send_file_sent_in env file cb s m :
  outcome (send_file env file cb s) = Ok (Some m) ->
  In (SendFile file cb (Ok m)) (trace (send_file env file cb s)).
Proof.
  destruct (telegram_client env) eqn:Hc.
  - intro H. unfold send_file, retry in *.
    destruct (retrying_send_file_sent env file cb _ _ _ _ Hc H) as (m' & E & Hin).
    injection E as <-. exact Hin.
  - rewrite (send_file_no_client env file cb s Hc). discriminate.
Qed.

(** The [try] body writes the cache at most once, and only the id of a
    message that the delivery of the downloaded bytes returned. *)
Lemma long_task_try_cache_writes env dh s :
  let T := long_task_try env dh s in
  let D := download_document env dh s in
  cache_writes (trace T) = [] \/
  exists file pbd m,
    outcome D = Ok file /\ store D = Some pbd /\ file <> [] /\
    In (SendFile (Content file) (Some (upload_bar dh pbd)) (Ok m)) (trace T) /\
    cache_writes (trace T) = [msg_file_id m].
Proof.
  intros T D0. subst T D0. unfold long_task_try. rewrite run_bind.
  pose proof (every_mono download_event no_put _ download_event_no_put
                (every_download_document env dh) s) as HD.
  set (D := download_document env dh s) in *.
  destruct (outcome D) as [file|e] eqn:EoD; rewrite trace_mk;
    [|left; now apply no_put_writes].
  destruct (truthy_bytes file) eqn:Ht.
  2:{ left. rewrite cache_writes_app, (no_put_writes _ HD). simpl.
      apply no_put_writes. generalize (store D).
      change (every no_put (not_found env)). unfold not_found.
      apply every_bind; [now apply every_emit|intros _].
      unfold respond_not_found.
      destruct (telegram_client env); [now apply every_call|apply every_raise]. }
  destruct (store D) as [pbd|] eqn:EsD.
  2:{ left. rewrite cache_writes_app, (no_put_writes _ HD). reflexivity. }
  destruct (run_upload env dh file pbd) as [E _]. cbv zeta in E. rewrite E, trace_mk.
  rewrite run_bind.
  pose proof (every_send_file no_put env (Content file) (Some (upload_bar dh pbd))
                (fun _ => eq_refl) eq_refl (fun _ => eq_refl) (Some pbd)) as HS.
  set (S := send_file env (Content file) (Some (upload_bar dh pbd)) (Some pbd)) in *.
  destruct (outcome S) as [[m|]|e] eqn:Eo; rewrite trace_mk.
  - right. exists file, pbd, m.
    split; [reflexivity|]. split; [reflexivity|].
    split; [intros ->; discriminate|]. split.
    + rewrite in_app_iff. right. simpl. right. right.
      rewrite in_app_iff. left. apply send_file_sent_in. exact Eo.
    + rewrite cache_writes_app, (no_put_writes _ HD). simpl.
      rewrite cache_writes_app, (no_put_writes _ HS). simpl.
      unfold bind, call, emit.
      destruct (db_put_cached_file env); reflexivity.
  - left. rewrite cache_writes_app, (no_put_writes _ HD). simpl.
    rewrite cache_writes_app, (no_put_writes _ HS). reflexivity.
  - left. rewrite cache_writes_app, (no_put_writes _ HD). simpl.
    now apply no_put_writes.
Qed.

(** What follows the [try] body in the second guarded block never writes
    the cache. *)
Lemma cache_miss_cache_writes env dh s :
  exists pre post,
    trace (cache_miss env dh s) =
      pre ++ trace (long_task_try env dh (Some (download_bar env dh))) ++ post /\
    forallb no_put pre = true /\ forallb no_put post = true.
Proof.
  rewrite run_cache_miss. cbv zeta. rewrite trace_mk, run_try_except.
  set (T := long_task_try env dh (Some (download_bar env dh))).
  pose proof (every_long_task_finally no_put env
                (fun _ _ => eq_refl) (fun _ => eq_refl) (fun _ => eq_refl)) as HF.
  exists [NewProgressBar (download_bar env dh)].
  destruct (outcome T) as [u|e].
  - rewrite trace_mk, store_mk, outcome_mk.
    eexists. split; [reflexivity|]. split; [reflexivity|].
    rewrite app_nil_r. apply HF.
  - destruct (long_task_handler env e) as [h|] eqn:Eh;
      rewrite trace_mk, store_mk, outcome_mk.
    + pose proof (every_long_task_handler no_put env e h eq_refl
                    (fun _ => eq_refl) (fun _ => eq_refl) (fun _ => eq_refl) Eh)
        as Hh.
      eexists. split; [rewrite <- app_assoc; reflexivity|].
      split; [reflexivity|].
      rewrite !forallb_app, Hh, HF.
      destruct (outcome (h (store T))); [reflexivity|].
      rewrite forallb_on_error by reflexivity. reflexivity.
    + eexists. split; [reflexivity|]. split; [reflexivity|].
      rewrite forallb_app, HF, forallb_on_error by reflexivity. reflexivity.
Qed.

(** X6. A task writes the cache at most once, and what it writes is the file
    id of the message that the client returned for the delivery of the bytes
    the download returned, which are then not empty, with the upload bar
    built from the download bar as the download left it.  So nothing is
    written after an empty or failed download, or when the delivery of the
    bytes raised; and nothing is written when the cached file id was
    delivered.  (A task whose cached id the client refuses goes on to the
    download and may write the cache.) *)
Theorem X6_cache_write_follows_delivery (env : Env) (dh : DocumentHolder) (s : Store) :
  let tr := trace (long_task env dh s) in
  let D := download_document env dh (Some (download_bar env dh)) in
  (cache_writes tr = [] \/
   exists file pbd m,
     outcome D = Ok file /\ store D = Some pbd /\ file <> [] /\
     In (SendFile (Content file) (Some (upload_bar dh pbd)) (Ok m)) tr /\
     cache_writes tr = [msg_file_id m]) /\
  (forall id, outcome (cache_check env s) = Ok (Some id) ->
     (forall e, outcome (send_file env (CachedFile id) None s) <> Raise e) ->
     cache_writes tr = []).
Proof.
  intros tr D. subst tr. rewrite run_long_task. cbv zeta.
  pose proof (every_mono fast_path_event no_put _ fast_path_event_no_put
                (every_fast_cache_check env) s) as Hc.
  assert (Hmiss : forall pre0, forallb no_put pre0 = true ->
            cache_writes (pre0 ++ trace (cache_miss env dh s)) = [] \/
            exists file pbd m,
              outcome D = Ok file /\ store D = Some pbd /\ file <> [] /\
              In (SendFile (Content file) (Some (upload_bar dh pbd)) (Ok m))
                 (pre0 ++ trace (cache_miss env dh s)) /\
              cache_writes (pre0 ++ trace (cache_miss env dh s)) = [msg_file_id m]).
  { intros pre0 Hp.
    destruct (cache_miss_cache_writes env dh s) as (pre & post & E & H1 & H2).
    rewrite E, !cache_writes_app.
    rewrite (no_put_writes _ Hp), (no_put_writes _ H1), (no_put_writes _ H2).
    rewrite app_nil_r. simpl.
    destruct (long_task_try_cache_writes env dh (Some (download_bar env dh)))
      as [H|(file & pbd & m & Ho & Hs & Hf & Hin & Hw)]; [left; exact H|right].
    exists file, pbd, m. repeat (split; [assumption|]). split; [|exact Hw].
    rewrite !in_app_iff. auto. }
  destruct (outcome (cache_check env s)) as [[id|]|e] eqn:Eo.
  - pose proof (every_mono fast_path_event no_put _ fast_path_event_no_put
                  (every_fast_send_file env id) (store (cache_check env s))) as Hd.
    rewrite store_cache_check in *.
    rewrite (run_bind (send_file _ _ _)).
    set (S := send_file env (CachedFile id) None s) in *.
    destruct (outcome S) as [o|e] eqn:ES; rewrite ?outcome_mk, ?trace_mk.
    + unfold emit. rewrite !outcome_mk, !trace_mk.
      assert (Hw : cache_writes (trace (cache_check env s) ++ trace S ++ [Statbox "cache_hit"]) = []).
      { apply no_put_writes. rewrite !forallb_app, Hc, Hd. reflexivity. }
      split; [left; exact Hw|]. intros; exact Hw.
    + split.
      * rewrite app_assoc. apply Hmiss.
        rewrite !forallb_app, Hc, Hd. reflexivity.
      * intros id0 [= <-] Hno. fold S in Hno. now destruct (Hno e).
  - rewrite trace_mk. split; [apply Hmiss; exact Hc|]. intros; discriminate.
  - rewrite trace_mk. split; [left; now apply no_put_writes|]. intros; discriminate.
Qed.

(** ** The shape of a task's trace *)

Lemma every_after_try_handler env e h :
  long_task_handler env e = Some h -> every after_try_event h.
Proof.
  intro H.
  destruct (long_task_handler_cases env e h H) as [-> | [-> | ->]];
    [now apply every_external_cancel|now apply every_emit|now apply every_emit].
Qed.

Lemma every_after_try_finally env : every after_try_event (long_task_finally env).
Proof.
  unfold long_task_finally.
  apply every_bind; [intros [pb|]; reflexivity|intro pbd].
  apply every_bind; [|intros _; now apply every_emit].
  destruct (filter_none [message pbd]); [apply every_ret|].
  apply every_bind; [|intros _; apply every_ret].
  apply every_safe_execution; [reflexivity| |discriminate].
  destruct (telegram_client env); [now apply every_call|apply every_raise].
Qed.

Lemma forallb_after_try_on_error env e s :
  forallb after_try_event (on_error true (Some (_on_fail env)) e s) = true.
Proof.
  unfold on_error, _on_fail.
  destruct (telegram_client env); simpl; [|reflexivity].
  destruct (client_send_message env _); reflexivity.
Qed.

(** The second guarded block is the new bar, the [try] body, and then only
    events of the handlers, the [finally] block and the failure
    notification. *)
Lemma cache_miss_shape env dh s :
  exists post,
    trace (cache_miss env dh s) =
      NewProgressBar (download_bar env dh) ::
      trace (long_task_try env dh (Some (download_bar env dh))) ++ post /\
    forallb after_try_event post = true.
Proof.
  rewrite run_cache_miss. cbv zeta. rewrite trace_mk, run_try_except.
  set (T := long_task_try env dh (Some (download_bar env dh))).
  pose proof (every_after_try_finally env) as HF.
  destruct (outcome T) as [u|e].
  - rewrite trace_mk, store_mk, outcome_mk.
    eexists. split; [reflexivity|]. rewrite app_nil_r. apply HF.
  - destruct (long_task_handler env e) as [h|] eqn:Eh;
      rewrite trace_mk, store_mk, outcome_mk.
    + pose proof (every_after_try_handler env e h Eh) as Hh.
      eexists. split; [rewrite <- app_assoc; reflexivity|].
      rewrite !forallb_app, Hh, HF.
      destruct (outcome (h (store T))); [reflexivity|].
      rewrite forallb_after_try_on_error. reflexivity.
    + eexists. split; [reflexivity|].
      rewrite forallb_app, HF, forallb_after_try_on_error. reflexivity.
Qed.

(** A task is either the fast path alone, or the fast path (with the log
    line of a refused cached id), the new bar, the [try] body and what
    follows it. *)
Lemma long_task_shape env dh s :
  forallb before_miss_event (trace (long_task env dh s)) = true \/
  exists pre post,
    trace (long_task env dh s) =
      pre ++ NewProgressBar (download_bar env dh) ::
      trace (long_task_try env dh (Some (download_bar env dh))) ++ post /\
    forallb before_miss_event pre = true /\
    forallb after_try_event post = true.
Proof.
  rewrite run_long_task. cbv zeta.
  assert (Hfb : forall ev, fast_path_event ev = true -> before_miss_event ev = true)
    by (intros ev H; unfold before_miss_event; destruct ev; auto).
  pose proof (every_mono fast_path_event before_miss_event _ Hfb
                (every_fast_cache_check env) s) as Hc.
  destruct (cache_miss_shape env dh s) as (post & E & Hpost).
  destruct (outcome (cache_check env s)) as [[id|]|e].
  - pose proof (every_mono fast_path_event before_miss_event _ Hfb
                  (every_fast_send_file env id) (store (cache_check env s))) as Hd.
    rewrite (run_bind (send_file _ _ _)).
    set (S := send_file env (CachedFile id) None (store (cache_check env s))) in *.
    destruct (outcome S) as [o|e]; rewrite ?outcome_mk, ?trace_mk.
    + unfold emit. rewrite !outcome_mk, !trace_mk.
      left. rewrite !forallb_app, Hc, Hd. reflexivity.
    + right. rewrite E. eexists _, post.
      split; [rewrite app_assoc; reflexivity|]. split; [|exact Hpost].
      rewrite !forallb_app, Hc, Hd. reflexivity.
  - right. rewrite trace_mk, E. exists (trace (cache_check env s)), post. auto.
  - left. rewrite trace_mk. exact Hc.
Qed.

(** ** The not-found answer *)

Lemma before_miss_not_found_answer ev :
  before_miss_event ev = true -> is_not_found_answer ev = false.
Proof. destruct ev; simpl; try discriminate; reflexivity. Qed.

Lemma before_miss_delivers_bytes ev :
  before_miss_event ev = true -> delivers_bytes ev = false.
Proof.
  destruct ev; simpl; try discriminate; try reflexivity.
  destruct file; [reflexivity|discriminate].
Qed.

Lemma after_try_not_found_answer ev :
  after_try_event ev = true -> is_not_found_answer ev = false.
Proof.
  destruct ev; simpl; try discriminate; try reflexivity.
  destruct txt as [k|f]; simpl; [|discriminate].
  intro H. apply String.eqb_eq in H. subst k. reflexivity.
Qed.

Lemma after_try_delivers_bytes ev :
  after_try_event ev = true -> delivers_bytes ev = false.
Proof. destruct ev; simpl; try discriminate; reflexivity. Qed.

Lemma no_message_not_found_answer ev :
  no_message ev = true -> is_not_found_answer ev = false.
Proof. destruct ev; simpl; try discriminate; reflexivity. Qed.

Lemma truthy_bytes_false file : truthy_bytes file = false -> file = [].
Proof. destruct file; [reflexivity|discriminate]. Qed.

Lemma long_task_try_not_found env dh s :
  let T := long_task_try env dh s in
  count is_not_found_answer (trace T) = 0 \/
  (count is_not_found_answer (trace T) = 1 /\
   count delivers_bytes (trace T) = 0 /\
   outcome (download_document env dh s) = Ok []).
Proof.
  intro T. subst T. unfold long_task_try. rewrite run_bind.
  assert (Hdn : forall ev, download_event ev = true -> is_not_found_answer ev = false)
    by (intros ev; destruct ev; simpl; try discriminate; reflexivity).
  assert (Hdd : forall ev, download_event ev = true -> delivers_bytes ev = false)
    by (intros ev; destruct ev; simpl; try discriminate; reflexivity).
  pose proof (every_download_document env dh s) as HD.
  set (D := download_document env dh s) in *.
  destruct (outcome D) as [file|e]; rewrite trace_mk;
    [|left; now apply (count_zero _ download_event)].
  destruct (truthy_bytes file) eqn:Ht.
  - left. rewrite count_app, (count_zero _ _ _ Hdn HD). simpl.
    apply (count_zero _ no_message); [apply no_message_not_found_answer|].
    generalize (store D). change (every no_message (upload env dh file)).
    unfold upload.
    apply every_bind; [now apply every_emit|intros _].
    apply every_bind; [intros [pb|]; reflexivity|intro pbd].
    apply every_bind; [now apply every_emit|intros _].
    apply every_bind; [apply every_send_file; reflexivity|intro o].
    destruct o as [m|]; [|apply every_raise].
    apply every_bind; [now apply every_call|intros _; now apply every_emit].
  - apply truthy_bytes_false in Ht. subst file.
    rewrite !count_app, (count_zero _ _ _ Hdn HD), (count_zero _ _ _ Hdd HD).
    rewrite run_not_found, trace_mk. unfold respond_not_found.
    destruct (telegram_client env); [right|left]; simpl; auto.
Qed.

(** X7. A task sends the answer that the sources are unavailable at most
    once, and only when the download returned no bytes; such a task sends no
    bytes to the client and writes nothing to the cache. *)
Theorem X7_not_found_answer_excludes_upload (env : Env) (dh : DocumentHolder)
    (s : Store) :
  let tr := trace (long_task env dh s) in
  count is_not_found_answer tr = 0 \/
  (count is_not_found_answer tr = 1 /\
   count delivers_bytes tr = 0 /\
   outcome (download_document env dh (Some (download_bar env dh))) = Ok []).
Proof.
  intro tr. subst tr.
  destruct (long_task_shape env dh s) as [H|(pre & post & E & Hpre & Hpost)].
  - left. apply (count_zero _ _ _ before_miss_not_found_answer H).
  - rewrite E.
    change (NewProgressBar (download_bar env dh) :: ?l)
      with ([NewProgressBar (download_bar env dh)] ++ l).
    rewrite !count_app.
    rewrite (count_zero _ _ _ before_miss_not_found_answer Hpre),
      (count_zero _ _ _ after_try_not_found_answer Hpost),
      (count_zero _ _ _ before_miss_delivers_bytes Hpre),
      (count_zero _ _ _ after_try_delivers_bytes Hpost).
    simpl. rewrite !Nat.add_0_r.
    exact (long_task_try_not_found env dh (Some (download_bar env dh))).
Qed.

(** ** The exceptions of the [try] body *)

(** The second guarded block when its [try] body raised. *)
Lemma run_cache_miss_raise env dh s e :
  let T := long_task_try env dh (Some (download_bar env dh)) in
  outcome T = Raise e ->
  cache_miss env dh s =
  match long_task_handler env e with
  | Some h =>
      (NewProgressBar (download_bar env dh) ::
       trace T ++ trace (h (store T)) ++
       trace (long_task_finally env (store (h (store T)))) ++
       match outcome (h (store T)) with
       | Ok _ => []
       | Raise e' => on_error true (Some (_on_fail env)) e' (store (h (store T)))
       end,
       store (h (store T)), Ok tt)
  | None =>
      (NewProgressBar (download_bar env dh) ::
       trace T ++ trace (long_task_finally env (store T)) ++
       on_error true (Some (_on_fail env)) e (store T),
       store T, Ok tt)
  end.
Proof.
  intros T Ho. rewrite run_cache_miss. cbv zeta. rewrite run_try_except.
  fold T. rewrite Ho.
  destruct (long_task_handler env e) as [h|];
    rewrite !trace_mk, !store_mk, !outcome_mk; [|reflexivity].
  rewrite <- app_assoc. reflexivity.
Qed.

Lemma long_task_handler_none env e :
  isinstance e [ServiceUnavailableError; DownloadError;
                ProgressBarLostMessageError; CancelledError] = false ->
  long_task_handler env e = None.
Proof.
  unfold long_task_handler, isinstance. simpl.
  destruct (subclass e ServiceUnavailableError), (subclass e DownloadError),
    (subclass e ProgressBarLostMessageError), (subclass e CancelledError);
    simpl; try discriminate; reflexivity.
Qed.

(** X8. When the [try] body (the fetch, the upload, the cache write or the
    not-found answer) ends with an exception that is none of
    [ServiceUnavailableError], [DownloadError],
    [ProgressBarLostMessageError], [CancelledError] (a bare [TemporaryError]
    after three attempts is one), no clause handles it: the [finally] block
    runs, then the error is logged and the maintenance message is sent once;
    a failure of that message is logged; [external_cancel] is not called;
    the task ends normally. *)
Theorem X8_unhandled_error_is_notified (env : Env) (dh : DocumentHolder)
    (s : Store) (e : exn) :
  let T := long_task_try env dh (Some (download_bar env dh)) in
  telegram_client env = true ->
  outcome T = Raise e ->
  isinstance e [ServiceUnavailableError; DownloadError;
                ProgressBarLostMessageError; CancelledError] = false ->
  cache_miss env dh s =
  (NewProgressBar (download_bar env dh) ::
   trace T ++ trace (long_task_finally env (store T)) ++
   ErrorLog e ::
   SendMessage (t "MAINTENANCE") (client_send_message env (t "MAINTENANCE")) ::
   match client_send_message env (t "MAINTENANCE") with
   | Ok _ => []
   | Raise e2 => [ErrorLog e2]
   end,
   store T, Ok tt).
Proof.
  intros T Hc Ho Hi.
  rewrite (run_cache_miss_raise env dh s e Ho), (long_task_handler_none env e Hi).
  unfold on_error, _on_fail. rewrite Hc. unfold call.
  rewrite trace_mk, outcome_mk. reflexivity.
Qed.

(** X8, witness: the stream breaks with a bare [TemporaryError] at each of
    the three attempts. *)
Lemma X8_witness :
  telegram_client env_always_temporary = true /\
  outcome (long_task_try env_always_temporary example_document
             (Some (download_bar env_always_temporary example_document)))
    = Raise TemporaryError /\
  isinstance TemporaryError
    [ServiceUnavailableError; DownloadError;
     ProgressBarLostMessageError; CancelledError] = false /\
  cache_miss env_always_temporary example_document None =
  ([NewProgressBar (download_bar env_always_temporary example_document);
    Statbox "do_request"; ShowBanner (Ok tt); GetIter "bafy"; Sleep 5;
    Statbox "do_request"; ShowBanner (Ok tt); GetIter "bafy"; Sleep 5;
    Statbox "do_request"; ShowBanner (Ok tt); GetIter "bafy";
    DeleteMessages [7] (Ok tt); DebugLog "deleted_progress_message";
    ErrorLog TemporaryError; SendMessage (t "MAINTENANCE") (Ok tt)],
   Some (set_bar_state (download_bar env_always_temporary example_document)
                       {| bs_message := Some 7; bs_last_call := 11 |}),
   Ok tt).
Proof.
  split; [reflexivity|]. split; [reflexivity|]. split; [reflexivity|].
  rewrite (X8_unhandled_error_is_notified env_always_temporary example_document
             None TemporaryError); reflexivity.
Defined.

(** X9. When the [try] body ends with [CancelledError] (the task was
    cancelled at one of its awaits), the task logs [canceled], runs the
    [finally] block and returns normally: the cancellation is swallowed,
    nothing is sent to the requester for it and [external_cancel] is not
    called. *)
Theorem X9_cancellation_is_swallowed (env : Env) (dh : DocumentHolder) (s : Store) :
  let T := long_task_try env dh (Some (download_bar env dh)) in
  outcome T = Raise CancelledError ->
  cache_miss env dh s =
  (NewProgressBar (download_bar env dh) ::
   trace T ++ Statbox "canceled" :: trace (long_task_finally env (store T)),
   store T, Ok tt).
Proof.
  intros T Ho. rewrite (run_cache_miss_raise env dh s CancelledError Ho).
  change (long_task_handler env CancelledError)
    with (Some (emit (Statbox "canceled"))).
  cbv iota. unfold emit. rewrite !trace_mk, !store_mk, !outcome_mk.
  simpl. rewrite app_nil_r. reflexivity.
Qed.

(** X9, witness: the task is cancelled while the stream is read. *)
Lemma X9_witness :
  outcome (long_task_try env_cancelled example_document
             (Some (download_bar env_cancelled example_document)))
    = Raise CancelledError /\
  cache_miss env_cancelled example_document None =
  ([NewProgressBar (download_bar env_cancelled example_document);
    Statbox "do_request"; ShowBanner (Ok tt); GetIter "bafy";
    Statbox "canceled";
    DeleteMessages [7] (Ok tt); DebugLog "deleted_progress_message"],
   Some (set_bar_state (download_bar env_cancelled example_document)
                       {| bs_message := Some 7; bs_last_call := 11 |}),
   Ok tt).
Proof.
  split; [reflexivity|].
  rewrite (X9_cancellation_is_swallowed env_cancelled example_document None);
    reflexivity.
Defined.

Lemma try_event_no_cancel ev : try_event ev = true -> is_external_cancel ev = false.
Proof. destruct ev; simpl; try discriminate; reflexivity. Qed.

(** X10. The second guarded block calls [external_cancel] at most once, and
    exactly when its [try] body ended with a [ServiceUnavailableError] or a
    [DownloadError], whichever call raised it: the fetch, the delivery of
    the bytes, the cache write or the not-found answer. *)
Theorem X10_external_cancel_exactly_on_backend_errors (env : Env)
    (dh : DocumentHolder) (s : Store) :
  let T := long_task_try env dh (Some (download_bar env dh)) in
  count is_external_cancel (trace (cache_miss env dh s)) =
  match outcome T with
  | Ok _ => 0
  | Raise e =>
      if isinstance e [ServiceUnavailableError; DownloadError] then 1 else 0
  end.
Proof.
  intro T. subst T.
  pose proof (count_zero _ _ _ try_event_no_cancel
                (every_long_task_try env dh (Some (download_bar env dh)))) as HT.
  assert (HF : forall st, count is_external_cancel
                            (trace (long_task_finally env st)) = 0).
  { intro st. apply count_none.
    apply (every_long_task_finally _ env); reflexivity. }
  assert (HE : forall e' st, count is_external_cancel
                 (on_error true (Some (_on_fail env)) e' st) = 0).
  { intros e' st. apply count_none. apply forallb_on_error; reflexivity. }
  destruct (outcome (long_task_try env dh (Some (download_bar env dh))))
    as [u|e] eqn:Ho.
  - rewrite run_cache_miss. cbv zeta. rewrite trace_mk, run_try_except.
    rewrite Ho, trace_mk, store_mk, outcome_mk.
    change (NewProgressBar (download_bar env dh) :: ?l)
      with ([NewProgressBar (download_bar env dh)] ++ l).
    rewrite !count_app, HT, HF. reflexivity.
  - rewrite (run_cache_miss_raise env dh s e Ho). unfold long_task_handler.
    destruct (isinstance e [ServiceUnavailableError; DownloadError]).
    + rewrite trace_mk.
      change (NewProgressBar (download_bar env dh) :: ?l)
        with ([NewProgressBar (download_bar env dh)] ++ l).
      rewrite !count_app, HT, HF.
      rewrite run_external_cancel, trace_mk, outcome_mk.
      destruct (telegram_client env); [|reflexivity].
      destruct (client_send_message env (t "MAINTENANCE")); reflexivity.
    + destruct (isinstance e [ProgressBarLostMessageError]);
        [|destruct (isinstance e [CancelledError])];
        rewrite trace_mk;
        change (NewProgressBar (download_bar env dh) :: ?l)
          with ([NewProgressBar (download_bar env dh)] ++ l);
        rewrite !count_app, HT, ?HF, ?HE; reflexivity.
Qed.

(** ** The handler *)

(** X11. In every execution of the handler that gets past the document
    lookup of line 224, whatever the transport does: nothing is answered, no
    limit is consulted, no button is removed and nothing is scheduled before
    the lookup of a live task; the limits are consulted at most once; at
    most one task is scheduled; a task is scheduled exactly when the handler
    leaves through its last line, and then the button was removed just
    before and scheduling is the last thing the handler does. *)
Theorem X11_handler_schedules_last (henv : HandlerEnv) (s : Store) :
  let x := handler henv s in
  (forall pre ev post, trace x = pre ++ ev :: post -> acts_on_request ev = true ->
     In (HasTask (has_task henv)) pre) /\
  count is_hit_limits (trace x) <= 1 /\
  count is_schedule (trace x) <= 1 /\
  (count is_schedule (trace x) = 1 <-> outcome x = Ok false) /\
  (outcome x = Ok false ->
   exists pre, trace x = pre ++ [RemoveButton (Ok tt); Schedule]).
Proof.
  intro x.
  assert (Hstart : exists rest,
            trace x = Statbox "get" :: HasTask (has_task henv) :: rest).
  { subst x. unfold handler. rewrite !run_emit, !trace_mk. eauto. }
  split.
  { destruct Hstart as [rest E]. rewrite E. clear E.
    intros pre ev post E Hev.
    destruct pre as [|a [|b pre]]; simpl in E.
    - injection E as <- _. discriminate.
    - injection E as _ <- _. discriminate.
    - injection E as _ <- _. simpl. auto. }
  clear Hstart. subst x.
  unfold handler, bind, emit, call, safe_execution, ret, trace, outcome.
  destruct (has_task henv), (hit_limits henv),
    (answer henv (t "ALREADY_DOWNLOADING")) as [[]|e1],
    (answer henv (t "TOO_MANY_DOWNLOADS")) as [[]|e2],
    (remove_button_duplicate henv) as [[]|e3],
    (remove_button_accepted henv) as [[]|e4]; simpl;
    (split; [unfold count; simpl; lia|]);
    (split; [unfold count; simpl; lia|]);
    (split; [unfold count; simpl; split; intro H; try discriminate; try reflexivity|]);
    try (intro H; discriminate);
    intros _;
    match goal with
    | |- exists pre, ?l = _ =>
        first
          [ exists [Statbox "get"; HasTask true; Answer (t "ALREADY_DOWNLOADING") (Ok tt);
                    RemoveButton (Raise e3); HitLimits true;
                    Answer (t "TOO_MANY_DOWNLOADS") (Raise e2)]; reflexivity
          | exists [Statbox "get"; HasTask true; Answer (t "ALREADY_DOWNLOADING") (Raise e1);
                    HitLimits true; Answer (t "TOO_MANY_DOWNLOADS") (Raise e2)]; reflexivity
          | exists [Statbox "get"; HasTask true; Answer (t "ALREADY_DOWNLOADING") (Ok tt);
                    RemoveButton (Raise e3); HitLimits false]; reflexivity
          | exists [Statbox "get"; HasTask true; Answer (t "ALREADY_DOWNLOADING") (Raise e1);
                    HitLimits false]; reflexivity
          | exists [Statbox "get"; HasTask false; HitLimits true;
                    Answer (t "TOO_MANY_DOWNLOADS") (Raise e2)]; reflexivity
          | exists [Statbox "get"; HasTask false; HitLimits false]; reflexivity ]
    end.
Qed.

(** X12. For a user over the limits whose rate-limit answer is delivered,
    the handler schedules nothing and returns, whether or not the task key
    has a live task and whatever happened to the duplicate answer. *)
Theorem X12_rate_limited_request_is_not_scheduled (henv : HandlerEnv) (s : Store) :
  hit_limits henv = true ->
  answer henv (t "TOO_MANY_DOWNLOADS") = Ok tt ->
  count is_schedule (trace (handler henv s)) = 0 /\
  outcome (handler henv s) = Ok true.
Proof.
  intros H1 H2.
  unfold handler, bind, emit, call, safe_execution, ret, trace, outcome.
  rewrite H1, H2.
  destruct (has_task henv),
    (answer henv (t "ALREADY_DOWNLOADING")) as [[]|e1],
    (remove_button_duplicate henv) as [[]|e3]; simpl; split; reflexivity.
Qed.

(** X12, witness. *)
Lemma X12_witness :
  hit_limits henv_limited = true /\
  answer henv_limited (t "TOO_MANY_DOWNLOADS") = Ok tt /\
  count is_schedule (trace (handler henv_limited None)) = 0 /\
  outcome (handler henv_limited None) = Ok true.
Proof.
  split; [reflexivity|]. split; [reflexivity|].
  apply (X12_rate_limited_request_is_not_scheduled henv_limited None); reflexivity.
Defined.

(** X13. The removal of the button before scheduling (line 237) is not
    guarded: when it raises, nothing is scheduled, and the exception leaves
    the handler unless the handler had already returned from one of its two
    guarded blocks. *)
Theorem X13_button_failure_prevents_scheduling (henv : HandlerEnv) (s : Store)
    (e : exn) :
  remove_button_accepted henv = Raise e ->
  count is_schedule (trace (handler henv s)) = 0 /\
  (outcome (handler henv s) = Ok true \/ outcome (handler henv s) = Raise e).
Proof.
  intros H.
  unfold handler, bind, emit, call, safe_execution, ret, trace, outcome.
  rewrite H.
  destruct (has_task henv), (hit_limits henv),
    (answer henv (t "ALREADY_DOWNLOADING")) as [[]|e1],
    (answer henv (t "TOO_MANY_DOWNLOADS")) as [[]|e2],
    (remove_button_duplicate henv) as [[]|e3]; simpl; split; auto.
Qed.

(** X13, witness. *)
Lemma X13_witness :
  remove_button_accepted henv_button_fails = Raise (OtherError 403) /\
  handler henv_button_fails None =
  ([Statbox "get"; HasTask false; HitLimits false;
    RemoveButton (Raise (OtherError 403))], None, Raise (OtherError 403)) /\
  count is_schedule (trace (handler henv_button_fails None)) = 0 /\
  (outcome (handler henv_button_fails None) = Ok true \/
   outcome (handler henv_button_fails None) = Raise (OtherError 403)).
Proof.
  split; [reflexivity|]. split; [reflexivity|].
  apply (X13_button_failure_prevents_scheduling henv_button_fails None
           (OtherError 403)).
  reflexivity.
Defined.

(** ** delayed_task *)

(** X14. [delayed_task] never ends with a [CancelledError]: a cancellation
    during the sleep or of the awaited task is swallowed, every other
    exception leaves it unchanged.  When the sleep raises, the task is never
    created. *)
Theorem X14_delayed_task_swallows_cancellation {A : Type} (sleep : result unit)
    (create_task : M A) (secs : nat) (s : Store) :
  let x := delayed_task sleep create_task secs s in
  (forall e, outcome x = Raise e -> isinstance e [CancelledError] = false) /\
  (forall e, sleep = Raise e -> trace x = [Sleep secs]) /\
  (sleep = Ok tt -> trace x = Sleep secs :: trace (create_task s)) /\
  (forall e, isinstance e [CancelledError] = false ->
     (outcome x = Raise e <->
      sleep = Raise e \/ (sleep = Ok tt /\ outcome (create_task s) = Raise e))).
Proof.
  intro x. subst x.
  unfold delayed_task, try_except, bind, call, ret, trace, outcome.
  destruct sleep as [[]|e0].
  - destruct (create_task s) as [[tr s1] [a|e1]].
    + cbn [fst snd app].
      split; [intros e He; discriminate|].
      split; [intros e He; discriminate|].
      split; [intros _; now rewrite app_nil_r|].
      intros e He. split; [discriminate|].
      intros [Hs|[_ Hs]]; discriminate.
    + destruct (isinstance e1 [CancelledError]) eqn:Ei; cbn [fst snd app].
      * split; [intros e He; discriminate|].
        split; [intros e He; discriminate|].
        split; [intros _; now rewrite app_nil_r|].
        intros e He. split; [discriminate|].
        intros [Hs|[_ Hs]]; [discriminate|]. congruence.
      * split; [intros e [= <-]; exact Ei|].
        split; [intros e He; discriminate|].
        split; [reflexivity|].
        intros e He. split; [intros [= <-]; auto|].
        intros [Hs|[_ Hs]]; [discriminate|congruence].
  - destruct (isinstance e0 [CancelledError]) eqn:Ei; cbn [fst snd app].
    + split; [intros e He; discriminate|].
      split; [reflexivity|].
      split; [discriminate|].
      intros e He. split; [discriminate|].
      intros [Hs|[Hs _]]; [|discriminate]. congruence.
    + split; [intros e [= <-]; exact Ei|].
      split; [reflexivity|].
      split; [discriminate|].
      intros e He. split; [intros [= <-]; auto|].
      intros [Hs|[Hs _]]; [congruence|discriminate].
Qed.

(** ** The cache lookup *)

(** X15. The lookup never returns an empty file id; when the database holds
    a non-empty id, that id is returned and the client's cache is not
    consulted; the client's cache is consulted only when the database
    returned nothing (or an empty id) and there is a client. *)
Theorem X15_cache_check_prefers_database (env : Env) (s : Store) :
  let x := cache_check env s in
  (forall id, outcome x = Ok (Some id) -> id <> "") /\
  (forall o id, db_get_cached_file env = Ok o -> truthy_id o = Some id ->
     x = ([GetCachedFile (Ok o)], s, Ok (Some id))) /\
  (count is_client_lookup (trace x) = 1 ->
     exists o, db_get_cached_file env = Ok o /\ truthy_id o = None /\
               telegram_client env = true) /\
  count is_client_lookup (trace x) <= 1.
Proof.
  intro x. subst x.
  assert (Hne : forall o id, truthy_id o = Some id -> id <> "").
  { intros [i|] id; simpl; [|discriminate].
    destruct (String.eqb_spec i ""); [discriminate|]. now intros [= <-]. }
  unfold cache_check, bind, call, ret, raise, trace, outcome.
  destruct (db_get_cached_file env) as [o|e]; cbn [fst snd app].
  2:{ repeat split; try (intros; discriminate). unfold count; simpl; lia. }
  destruct (truthy_id o) as [id0|] eqn:Eo; cbn [fst snd app].
  - rewrite (truthy_id_idem _ _ Eo).
    split; [intros id [= <-]; eapply Hne; eauto|].
    split; [intros o' id' [= <-] Hid; rewrite Eo in Hid; now injection Hid as <-|].
    split; [intro H; discriminate|]. unfold count; simpl; lia.
  - destruct (telegram_client env); cbn [fst snd app].
    + destruct (client_get_cached_file_id env) as [c|e]; cbn [fst snd app].
      * split; [intros id H; injection H as H; eapply Hne; eauto|].
        split; [intros o' id' [= <-] Hid; congruence|].
        split; [intros _; eauto|]. unfold count; simpl; lia.
      * split; [intros; discriminate|].
        split; [intros o' id' [= <-] Hid; congruence|].
        split; [intros _; eauto|]. unfold count; simpl; lia.
    + split; [intros; discriminate|].
      split; [intros o' id' [= <-] Hid; congruence|].
      split; [intro H; discriminate|]. unfold count; simpl; lia.
Qed.

(** ** The phases of a task *)

Lemma every_after_download_upload env dh file :
  every after_download_event (upload env dh file).
Proof.
  unfold upload.
  apply every_bind; [now apply every_emit|intros _].
  apply every_bind; [intros [pb|]; reflexivity|intro pbd].
  apply every_bind; [now apply every_emit|intros _].
  apply every_bind; [apply every_send_file; reflexivity|intro o].
  destruct o as [m|]; [|apply every_raise].
  apply every_bind; [now apply every_call|intros _; now apply every_emit].
Qed.

Lemma every_after_download_not_found env : every after_download_event (not_found env).
Proof.
  unfold not_found.
  apply every_bind; [now apply every_emit|intros _].
  unfold respond_not_found.
  destruct (telegram_client env); [now apply every_call|apply every_raise].
Qed.

(** The [try] body is the download followed by events of the upload or of
    the not-found answer. *)
Lemma long_task_try_shape env dh s :
  exists rest,
    trace (long_task_try env dh s) = trace (download_document env dh s) ++ rest /\
    forallb after_download_event rest = true.
Proof.
  unfold long_task_try. rewrite run_bind.
  destruct (outcome (download_document env dh s)) as [file|e]; rewrite trace_mk.
  - eexists. split; [reflexivity|].
    destruct (truthy_bytes file);
      [apply every_after_download_upload|apply every_after_download_not_found].
  - exists []. now rewrite app_nil_r.
Qed.

Lemma forallb_at P (tr pre post : list event) ev :
  forallb P tr = true -> tr = pre ++ ev :: post -> P ev = true.
Proof.
  intros H ->. rewrite forallb_app in H. simpl in H.
  apply andb_prop in H. destruct H as [_ H].
  apply andb_prop in H. tauto.
Qed.

(** After an event of [P] that can only occur in the second part of a trace,
    only events of the second part follow. *)
Lemma split_after (P Q N : event -> bool) : forall (A B pre post : list event) ev,
  (forall e, N e = true -> P e = false) ->
  forallb N A = true -> forallb Q B = true ->
  A ++ B = pre ++ ev :: post -> P ev = true ->
  forallb Q post = true.
Proof.
  induction A as [|a A IH]; intros B pre post ev HNP HA HB E Hev.
  - simpl in E. rewrite E, forallb_app in HB. simpl in HB.
    apply andb_prop in HB. destruct HB as [_ HB].
    apply andb_prop in HB. tauto.
  - simpl in HA. apply andb_prop in HA. destruct HA as [Ha HA].
    destruct pre as [|p pre]; simpl in E; injection E as E1 E2.
    + subst a. rewrite (HNP ev Ha) in Hev. discriminate.
    + eapply IH; eauto.
Qed.

(** X16. The phases of a task are sequential: once the task has sent the
    downloaded bytes to the client, nothing of the fetch happens any more
    (no attempt, no banner, no stream, no progress callback of a chunk). *)
Theorem X16_upload_follows_the_fetch (env : Env) (dh : DocumentHolder) (s : Store)
    (pre post : list event) (ev : event) :
  trace (long_task env dh s) = pre ++ ev :: post ->
  sends_bytes ev = true ->
  forallb (fun e => negb (fetch_event e)) post = true.
Proof.
  intros Htr Hev.
  destruct (long_task_shape env dh s) as [H|(pre0 & post0 & E & Hpre & Hpost)].
  - pose proof (forallb_at _ _ _ _ _ H Htr) as Hb.
    destruct ev; try discriminate. destruct file; discriminate.
  - destruct (long_task_try_shape env dh (Some (download_bar env dh)))
      as (rest & ET & Hrest).
    set (N := fun e => orb (before_miss_event e)
                       (orb (download_event e)
                            match e with NewProgressBar _ => true | _ => false end)).
    apply (split_after sends_bytes _ N
             (pre0 ++ NewProgressBar (download_bar env dh) ::
                      trace (download_document env dh (Some (download_bar env dh))))
             (rest ++ post0) pre post ev).
    + intros e. unfold N. destruct e; simpl; try discriminate; try reflexivity.
      destruct file; simpl; [reflexivity|]. destruct progress_callback; discriminate.
    + rewrite forallb_app. apply andb_true_intro. split.
      * rewrite forallb_forall in *. intros e He. unfold N.
        now rewrite (Hpre e He).
      * simpl. unfold N at 1. simpl.
        pose proof (every_download_document env dh (Some (download_bar env dh))) as HD.
        rewrite forallb_forall in *. intros e He. unfold N.
        rewrite (HD e He). now rewrite orb_true_r.
    + rewrite forallb_app. apply andb_true_intro. split.
      * rewrite forallb_forall in *. intros e He. specialize (Hrest e He).
        destruct e; try discriminate; try reflexivity. simpl in *.
        destruct (String.eqb_spec action "do_request") as [->|]; [discriminate|reflexivity].
      * rewrite forallb_forall in *. intros e He. specialize (Hpost e He).
        destruct e; try discriminate; try reflexivity. simpl in *.
        destruct (String.eqb_spec action "do_request") as [->|]; [discriminate|reflexivity].
    + rewrite <- Htr, E, ET. rewrite <- !app_assoc. reflexivity.
    + exact Hev.
Qed.

(** X16, witness: after the bytes are sent in [env_ok]. *)
Lemma X16_witness :
  let pre :=
    [GetCachedFile (Ok None); GetCachedFileId (Ok None);
     NewProgressBar (download_bar env_ok example_document);
     Statbox "do_request"; ShowBanner (Ok tt); GetIter "bafy";
     Callback 2 (Some 2) (Ok tt); Statbox "downloaded";
     NewProgressBar (upload_bar example_document bar_after_ok)] in
  let ev :=
    SendFile (Content two_bytes) (Some (upload_bar example_document bar_after_ok))
             (Ok {| msg_file_id := "F1" |}) in
  let post :=
    [Statbox "sent"; PutCachedFile "F1" (Ok tt); Statbox "uploaded";
     DeleteMessages [7] (Ok tt); DebugLog "deleted_progress_message"] in
  trace (long_task env_ok example_document None) = pre ++ ev :: post /\
  sends_bytes ev = true /\
  forallb (fun e => negb (fetch_event e)) post = true.
Proof.
  intros pre ev post. split; [reflexivity|]. split; [reflexivity|].
  apply (X16_upload_follows_the_fetch env_ok example_document None pre post ev);
    reflexivity.
Defined.

(** ** The work of a task *)

Lemma count_send_file_le env file cb s :
  count is_send (trace (send_file env file cb s)) <= 3.
Proof.
  destruct (telegram_client env) eqn:Hc.
  - pose proof (send_file_retried env file cb s Hc) as H.
    unfold retried in H. cbv zeta in H. lia.
  - rewrite (send_file_no_client env file cb s Hc). unfold count; simpl; lia.
Qed.

Lemma attempts_download_document_le env dh pb :
  attempts (trace (download_document env dh (Some pb))) <= 3.
Proof.
  pose proof (retrying_spec [TemporaryError] 5 (download_document_body env dh)
                is_attempt bound
                (fun k => outcome (download_document_body env dh k (Some pb)))
                (download_document_body_bound env dh)
                (fun k s Hs => download_document_body_outcome env dh k s (Some pb) Hs I)
                (fun k s _ => download_document_body_attempts env dh k s)
                (fun k s _ => download_document_body_waits env dh k s)
                (fun k s _ => download_document_body_starts env dh k s)
                eq_refl 2 1 (Some pb) I) as H.
  unfold retried in H. cbv zeta in H.
  unfold attempts, download_document, retry. simpl Nat.sub. lia.
Qed.

Lemma after_download_not_attempt ev :
  after_download_event ev = true -> is_attempt ev = false.
Proof.
  destruct ev; simpl; try discriminate; try reflexivity.
  destruct (String.eqb_spec action "do_request") as [->|]; [discriminate|reflexivity].
Qed.

Lemma after_try_not_attempt ev : after_try_event ev = true -> is_attempt ev = false.
Proof.
  destruct ev; simpl; try discriminate; try reflexivity.
  destruct (String.eqb_spec action "do_request") as [->|]; [discriminate|reflexivity].
Qed.

Lemma after_try_not_send ev : after_try_event ev = true -> is_send ev = false.
Proof. destruct ev; simpl; try discriminate; reflexivity. Qed.

Lemma fast_path_not_attempt ev : fast_path_event ev = true -> is_attempt ev = false.
Proof.
  destruct ev; simpl; try discriminate; try reflexivity.
  destruct (String.eqb_spec action "do_request") as [->|]; [discriminate|reflexivity].
Qed.

Lemma download_event_not_send ev : download_event ev = true -> is_send ev = false.
Proof. destruct ev; simpl; try discriminate; reflexivity. Qed.

Lemma long_task_try_sends env dh s :
  count is_send (trace (long_task_try env dh s)) <= 3.
Proof.
  unfold long_task_try. rewrite run_bind.
  pose proof (count_zero _ _ _ download_event_not_send
                (every_download_document env dh s)) as HD.
  set (D := download_document env dh s) in *.
  destruct (outcome D) as [file|e]; rewrite trace_mk; [|lia].
  rewrite count_app, HD. simpl.
  destruct (truthy_bytes file).
  - destruct (store D) as [pbd|]; [|unfold count; simpl; lia].
    destruct (run_upload env dh file pbd) as [E _]. cbv zeta in E.
    rewrite E, trace_mk, run_bind.
    pose proof (count_send_file_le env (Content file) (Some (upload_bar dh pbd))
                  (Some pbd)) as HS.
    set (S := send_file env (Content file) (Some (upload_bar dh pbd)) (Some pbd)) in *.
    change (Statbox "downloaded" :: NewProgressBar (upload_bar dh pbd) :: ?l)
      with ([Statbox "downloaded"; NewProgressBar (upload_bar dh pbd)] ++ l).
    destruct (outcome S) as [[m|]|e]; rewrite trace_mk, !count_app;
      unfold bind, call, emit, raise;
      try destruct (db_put_cached_file env); unfold count in *; simpl; lia.
  - rewrite run_not_found, trace_mk. unfold respond_not_found.
    destruct (telegram_client env); unfold count; simpl; lia.
Qed.

(** X17. The work of a task is bounded whatever the collaborators do: at
    most three attempts of the fetch, and at most six calls of the client's
    [send_file] (three for a cached file id, three for the downloaded
    bytes). *)
Theorem X17_task_work_is_bounded (env : Env) (dh : DocumentHolder) :
  attempts (trace (long_task env dh None)) <= 3 /\
  count is_send (trace (long_task env dh None)) <= 6.
Proof.
  assert (Hmiss : attempts (trace (cache_miss env dh None)) <= 3 /\
                  count is_send (trace (cache_miss env dh None)) <= 3).
  { destruct (cache_miss_shape env dh None) as (post & E & Hpost).
    rewrite E.
    change (NewProgressBar (download_bar env dh) :: ?l)
      with ([NewProgressBar (download_bar env dh)] ++ l).
    unfold attempts. rewrite !count_app.
    rewrite (count_zero _ _ _ after_try_not_attempt Hpost),
      (count_zero _ _ _ after_try_not_send Hpost).
    pose proof (long_task_try_sends env dh (Some (download_bar env dh))) as HS.
    destruct (long_task_try_shape env dh (Some (download_bar env dh)))
      as (rest & ET & Hrest).
    split; [|unfold count in *; simpl; lia].
    rewrite ET, count_app, (count_zero _ _ _ after_download_not_attempt Hrest).
    pose proof (attempts_download_document_le env dh (download_bar env dh)) as HA.
    unfold attempts, count in *. simpl. lia. }
  rewrite run_long_task. cbv zeta.
  pose proof (every_fast_cache_check env None) as Hc.
  assert (Hcs : count is_send (trace (cache_check env None)) = 0).
  { apply count_none. generalize (@None ProgressBar).
    change (every (fun ev => negb (is_send ev)) (cache_check env)).
    unfold cache_check.
    apply every_bind; [now apply every_call|intro from_db].
    apply every_bind; [|intros; apply every_ret].
    destruct (truthy_id from_db); [apply every_ret|].
    destruct (telegram_client env); [now apply every_call|apply every_raise]. }
  pose proof (count_zero _ _ _ fast_path_not_attempt Hc) as Hca.
  destruct (outcome (cache_check env None)) as [[id|]|e].
  - rewrite (run_bind (send_file _ _ _)).
    pose proof (count_send_file_le env (CachedFile id) None
                  (store (cache_check env None))) as HS.
    pose proof (count_zero _ _ _ fast_path_not_attempt
                  (every_fast_send_file env id (store (cache_check env None)))) as HSa.
    set (S := send_file env (CachedFile id) None (store (cache_check env None))) in *.
    destruct (outcome S) as [o|e]; rewrite ?outcome_mk, ?trace_mk.
    + unfold emit. rewrite !outcome_mk, !trace_mk.
      unfold attempts. rewrite !count_app, Hcs, Hca, HSa.
      unfold count in *. simpl. lia.
    + unfold attempts in *. rewrite !count_app, Hcs, Hca, HSa.
      unfold count in *. simpl. lia.
  - rewrite trace_mk. unfold attempts in *. rewrite !count_app, Hcs, Hca. lia.
  - rewrite trace_mk. unfold attempts. rewrite Hcs, Hca. lia.
Qed.

(** ** The pattern of the handler *)

Lemma span_cid_spec : forall data g tl,
  span_cid data = (g, tl) ->
  data = (g ++ tl)%string /\ all_chars cid_char g = true /\
  match tl with
  | EmptyString => True
  | String c _ => cid_char c = false
  end.
Proof.
  induction data as [|c rest IH]; intros g tl; simpl.
  - intros [= <- <-]. auto.
  - destruct (cid_char c) eqn:Ec.
    + destruct (span_cid rest) as [g' tl'] eqn:Es.
      intros [= <- <-]. destruct (IH g' tl' eq_refl) as (E & Ha & Ht).
      simpl. rewrite Ec, Ha. subst rest. auto.
    + intros [= <- <-]. simpl. rewrite Ec. auto.
Qed.

Lemma span_cid_all : forall g tl,
  all_chars cid_char g = true ->
  match tl with
  | EmptyString => True
  | String c _ => cid_char c = false
  end ->
  span_cid (g ++ tl)%string = (g, tl).
Proof.
  induction g as [|c g IH]; intros tl Ha Ht; simpl.
  - destruct tl as [|c tl]; [reflexivity|]. simpl. now rewrite Ht.
  - simpl in Ha. apply andb_prop in Ha. destruct Ha as [Hc Ha].
    rewrite Hc, (IH tl Ha Ht). reflexivity.
Qed.

Lemma append_empty (s : string) : (s ++ "")%string = s.
Proof. induction s as [|c s IH]; simpl; [reflexivity|now rewrite IH]. Qed.

(** The pattern matches only data that starts with ["/d_"]. *)
Lemma pattern_match_prefix data g :
  pattern_match data = Some g ->
  exists rest, data = ("/d_" ++ rest)%string /\
    match span_cid rest with
    | (EmptyString, _) => None
    | (g, EmptyString) => Some g
    | (g, String c EmptyString) =>
        if Ascii.eqb c "010"%char then Some g else None
    | (_, _) => None
    end = Some g.
Proof.
  unfold pattern_match.
  destruct data as [|c1 data]; [discriminate|].
  destruct (Ascii.eqb_spec c1 "/"%char) as [->|N1].
  2:{ destruct c1 as [[] [] [] [] [] [] [] []]; try discriminate. now destruct N1. }
  destruct data as [|c2 data]; [discriminate|].
  destruct (Ascii.eqb_spec c2 "d"%char) as [->|N2].
  2:{ destruct c2 as [[] [] [] [] [] [] [] []]; try discriminate. now destruct N2. }
  destruct data as [|c3 data]; [discriminate|].
  destruct (Ascii.eqb_spec c3 "_"%char) as [->|N3].
  2:{ destruct c3 as [[] [] [] [] [] [] [] []]; try discriminate. now destruct N3. }
  intro H. exists data. split; [reflexivity|exact H].
Qed.

(** X18. When the pattern matches, the captured group is not empty, holds
    only characters of [[A-Za-z0-9_-]], and the data is ["/d_"] followed by
    the group, with at most one newline after it. *)
Theorem X18_pattern_match_sound (data g : string) :
  pattern_match data = Some g ->
  g <> EmptyString /\
  all_chars cid_char g = true /\
  (data = ("/d_" ++ g)%string \/
   data = ("/d_" ++ g ++ String "010"%char "")%string).
Proof.
  intro H. destruct (pattern_match_prefix data g H) as (rest & -> & Hm).
  destruct (span_cid rest) as [g' tl] eqn:Es.
  destruct (span_cid_spec rest g' tl Es) as (E & Ha & _).
  destruct g' as [|c g']; [discriminate|].
  destruct tl as [|c' [|c'' tl]]; try discriminate.
  - injection Hm as <-. split; [discriminate|]. split; [exact Ha|].
    left. rewrite E, append_empty. reflexivity.
  - destruct (Ascii.eqb_spec c' "010"%char) as [->|]; [|discriminate].
    injection Hm as <-. split; [discriminate|]. split; [exact Ha|].
    right. rewrite E. reflexivity.
Qed.

(** X18, witness. *)
Lemma X18_witness :
  pattern_match "/d_AbC-9_" = Some "AbC-9_" /\
  "AbC-9_" <> EmptyString /\
  all_chars cid_char "AbC-9_" = true /\
  ("/d_AbC-9_" = ("/d_" ++ "AbC-9_")%string \/
   "/d_AbC-9_" = ("/d_" ++ "AbC-9_" ++ String "010"%char "")%string).
Proof.
  split; [reflexivity|].
  apply (X18_pattern_match_sound "/d_AbC-9_" "AbC-9_"). reflexivity.
Defined.

(** X19. Every non-empty string of characters of [[A-Za-z0-9_-]] is
    captured whole from ["/d_"] followed by it, with or without a newline
    at the end: the pattern accepts every such content address and returns
    it unchanged. *)
Theorem X19_pattern_match_complete (g : string) :
  g <> EmptyString ->
  all_chars cid_char g = true ->
  pattern_match ("/d_" ++ g) = Some g /\
  pattern_match ("/d_" ++ g ++ String "010"%char "") = Some g.
Proof.
  intros Hne Ha. unfold pattern_match. simpl.
  pose proof (span_cid_all g "" Ha I) as E1. rewrite append_empty in E1.
  pose proof (span_cid_all g (String "010"%char "") Ha eq_refl) as E2.
  rewrite E1, E2.
  destruct g as [|c g]; [now destruct Hne|]. split; reflexivity.
Qed.

(** X19, witness. *)
Lemma X19_witness :
  "AbC-9_" <> EmptyString /\
  all_chars cid_char "AbC-9_" = true /\
  pattern_match ("/d_" ++ "AbC-9_") = Some "AbC-9_" /\
  pattern_match ("/d_" ++ "AbC-9_" ++ String "010"%char "") = Some "AbC-9_".
Proof.
  split; [discriminate|]. split; [reflexivity|].
  apply (X19_pattern_match_complete "AbC-9_"); [discriminate|reflexivity].
Defined.

(** ** The banner *)

Lemma retrying_count_le {A} classes w (fn : nat -> M A) (P Q : event -> bool)
    (inv : Store -> Prop) :
  (forall n s, inv s -> inv (store (fn n s))) ->
  (forall n s, inv s -> count P (trace (fn n s)) <= count Q (trace (fn n s))) ->
  P (Sleep w) = false ->
  forall remaining n s, inv s ->
    count P (trace (retrying classes w fn remaining n s)) <=
    count Q (trace (retrying classes w fn remaining n s)).
Proof.
  intros Hinv Hfn HP remaining.
  induction remaining as [|rem IH]; intros n s Hs.
  - rewrite run_retrying_O. now apply Hfn.
  - rewrite run_retrying_S.
    destruct (outcome (fn n s)) as [a|e]; [now apply Hfn|].
    destruct (isinstance e classes); [|now apply Hfn].
    cbv zeta. rewrite trace_mk.
    change (Sleep w :: ?l) with ([Sleep w] ++ l).
    rewrite !count_app.
    assert (E : count P [Sleep w] = 0) by (unfold count; simpl; now rewrite HP).
    rewrite E.
    pose proof (Hfn n s Hs). pose proof (IH (S n) _ (Hinv n s Hs)). lia.
Qed.

Lemma download_document_body_banner env dh n pb :
  let tr := trace (download_document_body env dh n (Some pb)) in
  count is_show_banner tr = 1 /\ count is_attempt tr = 1 /\
  count is_get_iter tr = count is_shown tr.
Proof.
  intro tr. subst tr.
  rewrite run_download_document_body, trace_mk. unfold download_rest.
  rewrite run_bind. cbn [bar_call outcome trace store fst snd].
  destruct (show_banner (ipfs_get_iter env n)) as [st [[]|e]];
    cbn [fst snd app].
  - rewrite run_emit, !trace_mk.
    set (L := trace (get_iter_loop _ _ _ _ _)).
    assert (H : forall Q, (forall k sz r, Q (Callback k sz r) = false) ->
              count Q L = 0).
    { intros Q HQ. apply count_none. subst L.
      apply (every_get_iter_loop (fun ev => negb (Q ev))).
      intros. now rewrite HQ. }
    change (Statbox "do_request" :: ShowBanner (Ok tt) :: GetIter (cid dh) :: L)
      with ([Statbox "do_request"; ShowBanner (Ok tt); GetIter (cid dh)] ++ L).
    rewrite !count_app.
    rewrite (H is_show_banner), (H is_attempt), (H is_get_iter), (H is_shown);
      auto.
  - split; [reflexivity|]. split; reflexivity.
Qed.

(** X20. During a download the banner is shown once at every attempt, the
    first and each retry, and the stream is opened exactly at the attempts
    whose banner call returned: an attempt whose banner call raises never
    opens the stream. *)
Theorem X20_banner_at_every_attempt (env : Env) (dh : DocumentHolder)
    (pb : ProgressBar) :
  let tr := trace (download_document env dh (Some pb)) in
  count is_show_banner tr = attempts tr /\
  count is_get_iter tr = count is_shown tr.
Proof.
  intro tr. subst tr. unfold attempts, download_document, retry.
  assert (Hb : forall n s, bound s ->
            let t0 := trace (download_document_body env dh n s) in
            count is_show_banner t0 = 1 /\ count is_attempt t0 = 1 /\
            count is_get_iter t0 = count is_shown t0).
  { intros n [pb'|] Hs; [apply download_document_body_banner|contradiction]. }
  split; apply Nat.le_antisymm;
    apply (retrying_count_le _ _ _ _ _ bound
             (download_document_body_bound env dh));
    try reflexivity; try exact I;
    intros n s Hs; destruct (Hb n s Hs) as (H1 & H2 & H3); cbv zeta in *; lia.
Qed.
